(** * index.py: occurrence map pipeline

    A shallow embedding of [src/index.py]: the downloads, the numeric
    normaliser [converter_coluna_numerica], the aggregates
    ([resumo_nucleo], [resumo_data], the totals), the summary panel
    [html_menu], the colour table [cores_nucleo], the marker construction
    loop and the saving of the map.  Tables are lists of rows, a row maps
    column names to cells, exceptions are explicit results.  What the
    libraries decide from data that is not in the script (the Unicode
    tables of the interpreter, the decimal text of a float, the date
    parser, the template parser behind [folium.Element], the rendering
    and writing of the map) is a field of [Biblioteca], and every
    statement holds for each value of it. *)

From Stdlib Require Import ZArith NArith Ascii String List Bool Lia.
From Stdlib Require Import Floats.SpecFloat.
From stdpp Require Import base option list sorting gmap strings pretty.

Local Open Scope string_scope.
Local Open Scope Z_scope.
Local Open Scope list_scope.

(** ** Floats

    A Python float is an IEEE binary64 value.  [spec_float] with precision
    53 and maximal exponent 1024 is exactly that format; [S754_nan] is the
    missing-value marker of pandas.  The operations round to nearest, ties
    to even. *)
Module Float.

Abbreviation float64 := spec_float.

Definition prec : Z := 53.
Definition emax : Z := 1024.

Definition nan : float64 := S754_nan.
Definition zero : float64 := S754_zero false.

Definition add (x y : float64) : float64 := SFadd prec emax x y.
Definition mul (x y : float64) : float64 := SFmul prec emax x y.
Definition div (x y : float64) : float64 := SFdiv prec emax x y.
Definition opp (x : float64) : float64 := SFopp x.

(** math.isnan, math.isinf, math.isfinite *)
Definition isnan (x : float64) : bool :=
  match x with S754_nan => true | _ => false end.
Definition isinf (x : float64) : bool :=
  match x with S754_infinity _ => true | _ => false end.
Definition isfinite (x : float64) : bool :=
  match x with S754_zero _ | S754_finite _ _ _ => true | _ => false end.

(** [x < y]; false when one of them is NaN. *)
Definition ltb (x y : float64) : bool := SFltb x y.

(** [x <= y] on numbers; a NaN is put after every number, so that the
    relation is a total preorder on all values. *)
Definition leb (x y : float64) : bool :=
  match SFcompare x y with
  | Some Gt => false
  | Some _ => true
  | None => isnan y
  end.

(** The place of a value in the order of [leb], as a triple of integers
    in lexicographic order: the negative infinity, the negative numbers
    (the larger the exponent and the mantissa, the earlier), the zeros,
    the positive numbers, the positive infinity, NaN. *)
Definition posicao (x : float64) : Z * Z * Z :=
  match x with
  | S754_infinity true => (0, 0, 0)
  | S754_finite true m e => (1, - e, - Zpos m)
  | S754_zero _ => (2, 0, 0)
  | S754_finite false m e => (3, e, Zpos m)
  | S754_infinity false => (4, 0, 0)
  | S754_nan => (5, 0, 0)
  end.

Definition lex_le (a b : Z * Z * Z) : Prop :=
  a.1.1 < b.1.1 \/
  (a.1.1 = b.1.1 /\ (a.1.2 < b.1.2 \/ (a.1.2 = b.1.2 /\ a.2 <= b.2))).

(** The binary64 value nearest to [(-1)^neg * m * 10^e] (ties to even),
    as a correctly rounded [strtod] returns it.  Overflow gives an
    infinity, underflow a zero. *)
Definition of_decimal (neg : bool) (m : N) (e : Z) : float64 :=
  match m with
  | N0 => S754_zero neg
  | Npos p =>
      match e with
      | Zneg k =>
          SFdiv prec emax (S754_finite neg p 0)
                (S754_finite false (Pos.pow 10 k) 0)
      | _ => binary_round prec emax neg (p * Z.to_pos (10 ^ e))%positive 0
      end
  end.

(** The float nearest to an integer. *)
Definition of_Z (z : Z) : float64 := of_decimal (z <? 0) (Z.abs_N z) 0.

(** Equality up to the sign of a zero, with NaN equal to itself. *)
Definition same (x y : float64) : Prop :=
  x = y \/ (exists s t, x = S754_zero s /\ y = S754_zero t).

End Float.
Export Float.

(** ** Strings

    A text is held as the bytes of its UTF-8 encoding.  The comma is one
    byte that is part of no longer sequence, and the order of the byte
    sequences is the order of the code points, so that splitting at
    commas and comparing texts are the same on bytes as on code points. *)

Definition chars (s : string) : list ascii := list_ascii_of_string s.
Definition text (l : list ascii) : string := string_of_list_ascii l.

(** [sub in s] for a one-character [sub]. *)
Definition contains (c : ascii) (s : string) : bool :=
  existsb (Ascii.eqb c) (chars s).

(** The number of occurrences of a character. *)
Definition count_char (c : ascii) (s : string) : nat :=
  length (List.filter (fun x => Ascii.eqb x c) (chars s)).

(** [s.split(sep)] for a one-character separator: the pieces between the
    separators, always at least one piece. *)
Fixpoint split_chars (sep : ascii) (cur : list ascii) (l : list ascii)
  : list (list ascii) :=
  match l with
  | [] => [rev cur]
  | c :: l' =>
      if Ascii.eqb c sep then rev cur :: split_chars sep [] l'
      else split_chars sep (c :: cur) l'
  end.

Definition split (sep : ascii) (s : string) : list string :=
  map text (split_chars sep [] (chars s)).

(** [s.replace(old, new)] for one-character [old] and [new]: every
    occurrence is replaced. *)
Definition replace (old new : ascii) (s : string) : string :=
  text (map (fun c => if Ascii.eqb c old then new else c) (chars s)).

(** The code points of a text.  [utf8 need acc l] reads the bytes [l]
    with [need] continuation bytes still due for the code point whose
    leading bits are [acc]. *)
Fixpoint utf8 (need : nat) (acc : N) (l : list ascii) : list N :=
  match l with
  | [] => []
  | b :: l' =>
      let n := N_of_ascii b in
      match need with
      | O =>
          if (n <? 128)%N then n :: utf8 0 0 l'
          else if (n <? 224)%N then utf8 1 (n mod 32)%N l'
          else if (n <? 240)%N then utf8 2 (n mod 16)%N l'
          else utf8 3 (n mod 8)%N l'
      | S k =>
          let acc' := (acc * 64 + n mod 64)%N in
          match k with
          | O => acc' :: utf8 0 0 l'
          | _ => utf8 k acc' l'
          end
      end
  end.

Definition codepoints (s : string) : list N := utf8 0 0 (chars s).

(** The double quote, and a line feed. *)
Definition aspas : string := String (ascii_of_nat 34) EmptyString.
Definition nl : string := String "010" EmptyString.
Definition indent (n : nat) : string := text (repeat " "%char n).

(** ** Exceptions *)

Inductive exn :=
| KeyError (key : string)
| TypeError
| ValueError
| SystemExit
| Outra (classe : string).

Inductive result (A : Type) :=
| Ok (a : A)
| Raise (e : exn).
Arguments Ok {A} a.
Arguments Raise {A} e.

#[export] Instance result_ret : MRet result := fun A a => Ok a.
#[export] Instance result_bind : MBind result := fun A B f m =>
  match m with
  | Ok a => f a
  | Raise e => Raise e
  end.

(** [try: body  except ValueError: handler] *)
Definition except_ValueError {A} (body handler : result A) : result A :=
  match body with
  | Raise ValueError => handler
  | r => r
  end.

Definition of_float (o : option float64) : result float64 :=
  match o with
  | Some x => Ok x
  | None => Raise ValueError
  end.

(** A call that returns nothing and may raise. *)
Definition raise_if (o : option exn) : result unit :=
  match o with
  | Some e => Raise e
  | None => Ok tt
  end.

(** ** Tables

    A cell as [pd.read_excel] leaves it: text, a number, a timestamp, or a
    missing value.  An empty cell is the float NaN ([Num nan]); a missing
    timestamp is [NaT]; an integer cell is held as the float of the same
    value.  Cells are compared structurally, which is Python's [==] on
    text, on timestamps and on numbers; only the two zeros, which Python
    holds equal, are kept apart, and Excel writes no negative zero. *)
Inductive cell :=
| Str (s : string)
| Num (x : float64)
| Timestamp (ns : Z)
| NaT.

#[export] Instance spec_float_eq_dec : EqDecision spec_float.
Proof. solve_decision. Defined.
#[export] Instance cell_eq_dec : EqDecision cell.
Proof. solve_decision. Defined.

#[export] Instance spec_float_countable : Countable spec_float.
Proof.
  refine (inj_countable'
    (fun x : spec_float =>
       match x with
       | S754_zero s => inl (inl s)
       | S754_infinity s => inl (inr s)
       | S754_nan => inr (inl ())
       | S754_finite s m e => inr (inr (s, m, e))
       end)
    (fun y : bool + bool + (unit + bool * positive * Z) =>
       match y with
       | inl (inl s) => S754_zero s
       | inl (inr s) => S754_infinity s
       | inr (inl _) => S754_nan
       | inr (inr (s, m, e)) => S754_finite s m e
       end) _).
  intros []; reflexivity.
Defined.

#[export] Instance cell_countable : Countable cell.
Proof.
  refine (inj_countable'
    (fun c : cell =>
       match c with
       | Str s => inl (inl s)
       | Num x => inl (inr x)
       | Timestamp ns => inr (inl ns)
       | NaT => inr (inr ())
       end)
    (fun y : string + spec_float + (Z + unit) =>
       match y with
       | inl (inl s) => Str s
       | inl (inr x) => Num x
       | inr (inl ns) => Timestamp ns
       | inr (inr _) => NaT
       end) _).
  intros []; reflexivity.
Defined.

(** [pd.notna] *)
Definition notna (c : cell) : bool :=
  match c with
  | Str _ | Timestamp _ => true
  | Num x => negb (isnan x)
  | NaT => false
  end.

Abbreviation Row := (gmap string cell).

(** A DataFrame: its column labels and its rows in order.  [pd.read_excel]
    gives each column its own label.  A row that has no entry for a label
    of the frame reads as a missing cell there. *)
Record DataFrame := {
  columns : list string;
  rows : list Row;
}.

(** A numeric Series, with its dtype: [pd.to_numeric] gives float64,
    int64 or uint64. *)
Inductive Series :=
| Float64 (xs : list float64)
| Int64 (zs : list Z)
| UInt64 (zs : list Z).

(** A numpy scalar, as [Series.sum] returns it: an integer of an int64 or
    uint64 column, or a float. *)
Inductive numero :=
| NInt (z : Z)
| NFloat (x : float64).

Record Marker := {
  location : float64 * float64;
  popup : string;
  icon_color : string;
}.

Record Layer := {
  name : cell;
  markers : list Marker;
}.

(** ** The libraries

    What Python, pandas, numpy, jinja2 and folium decide from tables of
    their own or from the machine. *)
Record Biblioteca := {
  (** [Py_UNICODE_ISSPACE] and [Py_UNICODE_TODECIMAL] of the interpreter's
      Unicode database, on the code points from 127 up: whether the code
      point is a blank, and the digit it stands for if it is a decimal
      digit. *)
  isspace : N -> bool;
  todecimal : N -> option N;
  (** [str(x)] for a float that is not NaN, for a timestamp given in
      nanoseconds since the epoch, and for a [datetime.date] given as its
      day number since the epoch: the decimal texts Python prints. *)
  str_float : float64 -> string;
  str_timestamp : Z -> string;
  str_date : Z -> string;
  (** [pd.to_datetime(col, errors="coerce")] followed by [.dt]:
      [to_datetime col i] is the timestamp parsed at position [i] of the
      column, in nanoseconds since the epoch, and [None] where the entry
      does not parse (NaT).  [to_datetime_error col] is the exception that
      the parse of the column raises in spite of [errors="coerce"] (texts
      with mixed time zone offsets), or that [.dt] raises on a result that
      is no datetime column. *)
  to_datetime : list cell -> nat -> option Z;
  to_datetime_error : list cell -> option exn;
  (** Whether numpy gives a sum of negative zeros the negative sign: it
      does when it starts its sums at -0.0. *)
  menos_zero : bool;
  (** [folium.Element(text)] compiles the text as a jinja2 template: the
      exception that the template parser raises on it, if any. *)
  Element_error : string -> option exn;
  (** [m.save(path)] renders the map, with its panel and its layers, and
      writes the file: the exception that this raises, if any. *)
  save_error : string -> list Layer -> option exn;
}.

(** ** Numeric literals of Python

    The grammar of [float()]: optional sign, then [inf], [infinity] or
    [nan] in any letter case, or decimal digits with an optional fraction
    and an optional exponent. *)
Module Literal.

Definition is_digit (c : ascii) : bool :=
  let n := N_of_ascii c in ((48 <=? n) && (n <=? 57))%N.

Definition digit (c : ascii) : N := (N_of_ascii c - 48)%N.

(** [Py_ISSPACE]: space, \t, \n, \v, \f, \r *)
Definition is_space (c : ascii) : bool :=
  let n := N_of_ascii c in ((n =? 32) || ((9 <=? n) && (n <=? 13)))%N.

Definition lower (c : ascii) : ascii :=
  let n := N_of_ascii c in
  if ((65 <=? n) && (n <=? 90))%N then ascii_of_N (n + 32) else c.

Fixpoint lstrip (l : list ascii) : list ascii :=
  match l with
  | c :: l' => if is_space c then lstrip l' else l
  | [] => []
  end.

Definition strip (l : list ascii) : list ascii :=
  rev (lstrip (rev (lstrip l))).

(** Leading digits of [l]: their value on top of [acc], how many there
    are, and the rest. *)
Fixpoint digits (acc : N) (n : nat) (l : list ascii) : N * nat * list ascii :=
  match l with
  | c :: l' =>
      if is_digit c then digits (10 * acc + digit c)%N (S n) l'
      else (acc, n, l)
  | [] => (acc, n, [])
  end.

Definition sign (l : list ascii) : bool * list ascii :=
  match l with
  | "-"%char :: l' => (true, l')
  | "+"%char :: l' => (false, l')
  | _ => (false, l)
  end.

(** Digits with an optional point among them (at least one digit in
    all), then optionally [e] or [E], an optional sign and at least one
    digit; the whole input must be consumed.  The result is the mantissa
    and the decimal exponent. *)
Definition decimal (l : list ascii) : option (N * Z) :=
  let '(ip, ni, r1) := digits 0 0 l in
  let '(m, nf, r2) :=
    match r1 with
    | "."%char :: r => digits ip 0 r
    | _ => (ip, 0%nat, r1)
    end in
  if (ni + nf =? 0)%nat then None
  else
    match r2 with
    | [] => Some (m, - Z.of_nat nf)
    | c :: r3 =>
        if Ascii.eqb (lower c) "e" then
          let '(sx, r4) := sign r3 in
          let '(x, nx, r5) := digits 0 0 r4 in
          if (nx =? 0)%nat then None
          else
            match r5 with
            | [] =>
                Some (m, (if sx then - Z.of_N x else Z.of_N x) - Z.of_nat nf)
            | _ => None
            end
        else None
    end.

Definition word (l : list ascii) : string := text (map lower l).

(** A signed literal without surrounding blanks. *)
Definition number (l : list ascii) : option float64 :=
  let '(neg, r) := sign l in
  let w := word r in
  if String.eqb w "inf" || String.eqb w "infinity" then
    Some (S754_infinity neg)
  else if String.eqb w "nan" then Some S754_nan
  else
    match decimal r with
    | Some (m, e) => Some (of_decimal neg m e)
    | None => None
    end.

(** Python allows single underscores between the digits of a numeric
    literal: an underscore must follow a digit and precede a digit.  The
    underscores are removed; [prev] is the previous character, NUL at
    the start. *)
Fixpoint underscores (prev : ascii) (l : list ascii) : option (list ascii) :=
  match l with
  | [] => if Ascii.eqb prev "_" then None else Some []
  | c :: l' =>
      if Ascii.eqb c "_" then
        if is_digit prev then underscores c l' else None
      else if Ascii.eqb prev "_" && negb (is_digit c) then None
      else option_map (cons c) (underscores c l')
  end.

End Literal.

Section Float_of_str.
Variable lib : Biblioteca.

(** What [float()] does to a text that is not all ASCII before it reads
    it: a code point below 127 stays, a Unicode blank becomes a space, a
    Unicode decimal digit becomes its ASCII digit, and at the first code
    point that is none of these a question mark ends the text. *)
Fixpoint transform (l : list N) : list ascii :=
  match l with
  | [] => []
  | ch :: l' =>
      if (ch <? 127)%N then ascii_of_N ch :: transform l'
      else if isspace lib ch then " "%char :: transform l'
      else
        match todecimal lib ch with
        | Some d =>
            if (d <=? 9)%N then ascii_of_N (48 + d) :: transform l'
            else ["?"%char]
        | None => ["?"%char]
        end
  end.

(** The ASCII text that [float()] reads: the text itself when it is all
    ASCII. *)
Definition to_ascii (s : string) : list ascii :=
  if forallb (fun ch => (ch <? 128)%N) (codepoints s) then chars s
  else transform (codepoints s).

(** [float(s)] for a string: [Some x], or [None] for ValueError.  Blanks
    around the literal are dropped, then the underscores are checked and
    removed, then the literal is read. *)
Definition py_float (s : string) : option float64 :=
  match Literal.underscores Ascii.zero (Literal.strip (to_ascii s)) with
  | Some l => Literal.number l
  | None => None
  end.

(** A part of a coordinate text is numeric when [float()] accepts it and
    the value is a number. *)
Definition numeric (part : string) : bool :=
  match py_float part with
  | Some x => negb (isnan x)
  | None => false
  end.

(** [lat, lng = map(float, parts)]: both conversions and the unpacking to
    two names raise ValueError; with a third part present the unpacking
    fails whether or not that part converts. *)
Definition unpack_floats (parts : list string) : result (float64 * float64) :=
  match parts with
  | [a; b] =>
      lat ← of_float (py_float a);
      lng ← of_float (py_float b);
      Ok (lat, lng)
  | _ => Raise ValueError
  end.

End Float_of_str.

(** ** Operations on tables *)

Definition cell_at (r : Row) (c : string) : cell := default (Num nan) (r !! c).

(** [df.empty]: no rows or no columns. *)
Definition empty (df : DataFrame) : bool :=
  match columns df, rows df with
  | [], _ | _, [] => true
  | _, _ => false
  end.

(** [df[c]]: the column as a Series, KeyError for an unknown label. *)
Definition getitem (df : DataFrame) (c : string) : result (list cell) :=
  if decide (c ∈ columns df) then Ok (map (fun r => cell_at r c) (rows df))
  else Raise (KeyError c).

(** [df[c] = s]: the column is replaced or added; the values are aligned
    on the row position, and a position the Series lacks becomes missing. *)
Definition setitem (df : DataFrame) (c : string) (s : list cell) : DataFrame :=
  {| columns := if decide (c ∈ columns df) then columns df else columns df ++ [c];
     rows := imap (fun i r => <[c := default (Num nan) (s !! i)]> r) (rows df) |}.

(** [df.dropna(subset=[c])] *)
Definition dropna (df : DataFrame) (c : string) : result DataFrame :=
  if decide (c ∈ columns df) then
    Ok {| columns := columns df;
          rows := List.filter (fun r => notna (cell_at r c)) (rows df) |}
  else Raise (KeyError c).

(** [df[df[c] == v]]: a missing value equals nothing, not even itself. *)
Definition where_eq (df : DataFrame) (c : string) (v : cell) : result DataFrame :=
  if decide (c ∈ columns df) then
    Ok {| columns := columns df;
          rows := List.filter
                    (fun r => notna v && bool_decide (cell_at r c = v))
                    (rows df) |}
  else Raise (KeyError c).

(** [s.notna().sum()] and [s.count()] *)
Definition count (s : list cell) : nat := length (List.filter notna s).

(** [row[k]] and [row.get(k, d)] on a row of [df.iterrows()], whose index
    is the frame's column labels. *)
Definition row_getitem (cols : list string) (r : Row) (k : string) : result cell :=
  if decide (k ∈ cols) then Ok (cell_at r k) else Raise (KeyError k).

Definition row_get {A} (cols : list string) (r : Row) (k : string)
    (found : cell -> A) (dflt : A) : A :=
  if decide (k ∈ cols) then found (cell_at r k) else dflt.

(** [s.unique()]: the distinct values in the order of first appearance.
    [see] is one step of the scan, [seen] the values met so far. *)
Definition see {A} `{EqDecision A} (seen : list A) (x : A) : list A :=
  if decide (x ∈ seen) then seen else seen ++ [x].

Definition unique {A} `{EqDecision A} (l : list A) : list A :=
  foldl see [] l.

(** ** Grouping

    [groupby(key)] with the defaults [sort=True, dropna=True]: the groups
    are the distinct non-missing keys in ascending order. *)
Section GroupBy.
Context {K : Type} `{EqDecision K}.
Variable leb : K -> K -> bool.

Definition le (a b : K) : Prop := leb a b = true.

#[local] Instance le_dec a b : Decision (le a b).
Proof. unfold le. apply _. Defined.

(** The group labels for a key column; [None] is a missing key. *)
Definition group_keys (keys : list (option K)) : list K :=
  merge_sort le (unique (omap id keys)).

(** Whether a row is counted in the group [k]: 1 or 0. *)
Definition in_group (k : K) (p : option K * bool) : nat :=
  if bool_decide (p.1 = Some k) && p.2 then 1%nat else 0%nat.

(** The rows of one group that have a value in the counted column. *)
Definition group_count (k : K) (kv : list (option K * bool)) : nat :=
  length (List.filter (fun p => bool_decide (p.1 = Some k) && p.2) kv).

(** [groupby(key)[col].count().to_dict()]: each row gives its key and
    whether its cell in [col] is present.  The dict keeps the order of
    the group labels. *)
Definition groupby_count (kv : list (option K * bool)) : list (K * nat) :=
  map (fun k => (k, group_count k kv)) (group_keys (map fst kv)).

(** [groupby(key).size().to_dict()]: every row of the group counts. *)
Definition groupby_size (keys : list (option K)) : list (K * nat) :=
  groupby_count (map (fun k => (k, true)) keys).
End GroupBy.

(** The order in which pandas sorts group labels: numbers by value,
    timestamps by time, texts as Python orders [str] (by code point,
    which is the byte order of UTF-8); labels that are not text come
    before the text labels.  A number and a timestamp are never sorted
    against each other ([comparaveis]); the missing timestamp is no
    label and is put last. *)
Definition cell_leb (a b : cell) : bool :=
  match a, b with
  | Num x, Num y => Float.leb x y
  | Timestamp m, Timestamp n => m <=? n
  | Str s, Str t => String.leb s t
  | NaT, NaT => true
  | Num _, (Timestamp _ | Str _ | NaT) => true
  | Timestamp _, (Str _ | NaT) => true
  | Str _, NaT => true
  | _, _ => false
  end.

Definition is_Num (c : cell) : bool :=
  match c with Num _ => true | _ => false end.
Definition is_Timestamp (c : cell) : bool :=
  match c with Timestamp _ => true | _ => false end.
Definition is_Str (c : cell) : bool :=
  match c with Str _ => true | _ => false end.

(** The labels can be sorted: Python orders numbers, orders timestamps,
    and orders texts, and pandas sorts the texts apart from the rest, but
    a comparison between a number and a timestamp raises TypeError. *)
Definition comparaveis (keys : list cell) : bool :=
  negb (existsb is_Num keys && existsb is_Timestamp keys).

(** The key of a row in a grouping by a column: a missing cell is no key. *)
Definition key_of (c : cell) : option cell :=
  if notna c then Some c else None.

(** ** Column names and constants of the script *)

Definition NUCLEO_DE_ATUACAO : string := "NÚCLEO_DE_ATUAÇÃO".
Definition OCORRENCIA_CADASTRO : string := "OCORRÊNCIA DE CAMPO CADASTRO".
Definition OCORRENCIA_CAIXA_UMA : string := "OCORRÊNCIA DE CAMPO CAIXA UMA".
Definition OCORRENCIA_LIGACAO : string := "OCORRÊNCIA DE CAMPO LIGAÇÃO".
Definition DATA_CADASTRO : string := "DATA CADASTRO".
Definition GEOLOCATION : string := "Geolocation".
Definition FUNCIONARIO_CADASTRO : string := "FUNCIONÁRIO CADASTRO".
Definition REDE_ESGOTO : string := "TOTAL DE REDE ESGOTO 200".
Definition REDE_AGUA : string := "TOTAL DE REDE 110 ÁGUA".

Definition cores : list string :=
  ["red"; "blue"; "green"; "purple"; "orange"; "darkred"; "cadetblue";
   "darkgreen"].

(** The occurrence rows that have a category, in table order. *)
Definition com_nucleo (df : DataFrame) : list Row :=
  List.filter (fun r => notna (cell_at r NUCLEO_DE_ATUACAO)) (rows df).

(** The categories in the order in which the rows first show them. *)
Definition first_seen (df : DataFrame) : list cell :=
  unique (map (fun r => cell_at r NUCLEO_DE_ATUACAO) (com_nucleo df)).

(** The key and the presence flag that a row gives to the grouping. *)
Definition nucleo_kv (r : Row) : option cell * bool :=
  (key_of (cell_at r NUCLEO_DE_ATUACAO), notna (cell_at r OCORRENCIA_CADASTRO)).

(** ** Numeric normalisation

    [pd.to_numeric(..., errors="coerce")] on a column of texts, as pandas
    2 does it ([maybe_convert_numeric] in [pandas/_libs/lib.pyx]); the
    arithmetic on doubles is that of the C compiler on a machine that
    rounds each operation to binary64. *)

(** [precise_xstrtod] of [pandas/_libs/src/parser/tokenizer.c], called
    with the decimal point [.], no thousands separator and trailing
    blanks skipped. *)
Module Xstrtod.
Import Literal.

Definition max_digits : nat := 17.

(** The C type [int], 32 bits wide, wrapping around. *)
Definition int32 (z : Z) : Z := (z + 2 ^ 31) mod 2 ^ 32 - 2 ^ 31.

Definition dez : float64 := of_decimal false 10 0.
Definition digito (c : ascii) : float64 := of_decimal false (digit c) 0.

(** The cached powers of ten [e[0]] to [e[308]], decimal literals of
    the C source. *)
Definition pow10 (k : Z) : float64 := of_decimal false 1 k.

(** [number = number * 10. + (c - '0')] *)
Definition push (number : float64) (c : ascii) : float64 :=
  add (mul number dez) (digito c).

(** The digits before the point: the first 17 enter the number, each
    further one counts as a power of ten. *)
Fixpoint inteiros (number : float64) (num_digits : nat) (exponent : Z)
    (p : list ascii) : float64 * nat * Z * list ascii :=
  match p with
  | c :: p' =>
      if is_digit c then
        if (num_digits <? max_digits)%nat
        then inteiros (push number c) (S num_digits) exponent p'
        else inteiros number num_digits (int32 (exponent + 1)) p'
      else (number, num_digits, exponent, p)
  | [] => (number, num_digits, exponent, [])
  end.

(** The digits after the point, until 17 digits are in the number. *)
Fixpoint decimais (number : float64) (num_digits num_decimals : nat)
    (p : list ascii) : float64 * nat * nat * list ascii :=
  match p with
  | c :: p' =>
      if (num_digits <? max_digits)%nat && is_digit c
      then decimais (push number c) (S num_digits) (S num_decimals) p'
      else (number, num_digits, num_decimals, p)
  | [] => (number, num_digits, num_decimals, [])
  end.

Fixpoint salta_digitos (p : list ascii) : list ascii :=
  match p with
  | c :: p' => if is_digit c then salta_digitos p' else p
  | [] => []
  end.

(** The digits of the exponent, at most 17 of them. *)
Fixpoint expoente (n : Z) (num_digits : nat) (p : list ascii)
  : Z * nat * list ascii :=
  match p with
  | c :: p' =>
      if (num_digits <? max_digits)%nat && is_digit c
      then expoente (int32 (n * 10 + Z.of_N (digit c))) (S num_digits) p'
      else (n, num_digits, p)
  | [] => (n, num_digits, [])
  end.

(** The number times ten to the exponent; [None] is the error ERANGE. *)
Definition escala (number : float64) (exponent : Z) : option float64 :=
  if 308 <? exponent then None
  else
    let number :=
      if 0 <? exponent then mul number (pow10 exponent)
      else if exponent <? -308 then
        if exponent <? -616 then zero
        else div (div number (pow10 (-308 - exponent))) (pow10 308)
      else div number (pow10 (- exponent)) in
    if isinf number then None else Some number.

(** The value read and whether the text may spell an integer (no point
    and no exponent); [None] when [to_double] reports a failure: no
    digit, ERANGE, or text left over. *)
Definition precise_xstrtod (str : list ascii) : option (float64 * bool) :=
  let '(negative, p) := sign (lstrip str) in
  let '(number, num_digits, exponent, p) := inteiros zero 0 0 p in
  let '(number, num_digits, exponent, maybe_int, p) :=
    match p with
    | "."%char :: p' =>
        let '(number, num_digits, num_decimals, p') :=
          decimais number num_digits 0 p' in
        let p' := if (max_digits <=? num_digits)%nat then salta_digitos p' else p' in
        (number, num_digits, int32 (exponent - Z.of_nat num_decimals), false, p')
    | _ => (number, num_digits, exponent, true, p)
    end in
  if (num_digits =? 0)%nat then None
  else
    let number := if negative then opp number else number in
    let '(exponent, maybe_int, digitos, p) :=
      match p with
      | c :: p' =>
          if Ascii.eqb (lower c) "e" then
            let '(menos, p') := sign p' in
            let '(n, nd, p') := expoente 0 0 p' in
            (int32 (if menos then exponent - n else exponent + n), false,
             negb (nd =? 0)%nat, p')
          else (exponent, maybe_int, true, p)
      | [] => (exponent, maybe_int, true, p)
      end in
    match escala number exponent with
    | Some number =>
        if digitos then
          match lstrip p with
          | [] => Some (number, maybe_int)
          | _ => None
          end
        else None
    | None => None
    end.

End Xstrtod.

(** [floatify]: the text as [precise_xstrtod] reads it, and failing that
    one of the names of an infinity or of NaN, in any letter case and
    without blanks; [None] is the ValueError that [errors="coerce"]
    turns into NaN. *)
Definition floatify (s : string) : option (float64 * bool) :=
  match Xstrtod.precise_xstrtod (chars s) with
  | Some r => Some r
  | None =>
      let w := Literal.word (chars s) in
      if String.eqb w "nan" then Some (nan, false)
      else if String.eqb w "inf" || String.eqb w "+inf"
              || String.eqb w "infinity" || String.eqb w "+infinity"
      then Some (S754_infinity false, false)
      else if String.eqb w "-inf" || String.eqb w "-infinity"
      then Some (S754_infinity true, false)
      else None
  end.

(** [int(s)] for a text of blanks, an optional sign, digits and blanks. *)
Definition py_int (s : string) : Z :=
  let '(neg, r) := Literal.sign (Literal.strip (chars s)) in
  let '(n, _, _) := Literal.digits 0 0 r in
  if neg then - Z.of_N n else Z.of_N n.

(** What one text of the column is read as: no number (the empty text,
    or a text that [floatify] rejects), a float, or an integer together
    with the float read from the same text. *)
Inductive lido :=
| Invalido
| Flutuante (x : float64)
| Inteiro (z : Z) (x : float64).

Definition ler (s : string) : lido :=
  if String.eqb s "" then Invalido
  else
    match floatify s with
    | Some (x, true) => Inteiro (py_int s) x
    | Some (x, false) => Flutuante x
    | None => Invalido
    end.

(** The entry of the float64 result. *)
Definition valor (r : lido) : float64 :=
  match r with
  | Invalido => nan
  | Flutuante x | Inteiro _ x => x
  end.

(** The entry of the int64 or uint64 result. *)
Definition inteiro (r : lido) : Z :=
  match r with
  | Inteiro z _ => z
  | _ => 0
  end.

Definition INT64_MIN : Z := - 2 ^ 63.
Definition INT64_MAX : Z := 2 ^ 63 - 1.
Definition UINT64_MAX : Z := 2 ^ 64 - 1.

(** The flags of [Seen]: an integer out of the range of int64 was seen
    ([uint_]), a negative integer was seen ([sint_]), and the result has
    to be float64 ([float_]). *)
Definition uint_ (l : list lido) : bool :=
  existsb (fun r => match r with
                    | Inteiro z _ => (INT64_MAX <? z) && (z <=? UINT64_MAX)
                    | _ => false
                    end) l.

Definition sint_ (l : list lido) : bool :=
  existsb (fun r => match r with
                    | Inteiro z _ => (INT64_MIN <=? z) && (z <? 0)
                    | _ => false
                    end) l.

Definition float_ (l : list lido) : bool :=
  existsb (fun r => match r with
                    | Inteiro z _ => (z <? INT64_MIN) || (UINT64_MAX <? z)
                    | _ => true
                    end) l
  || (uint_ l && sint_ l).

Definition to_numeric (col : list string) : Series :=
  let l := map ler col in
  if float_ l then Float64 (map valor l)
  else if uint_ l then UInt64 (map inteiro l)
  else Int64 (map inteiro l).

(** ** Sums *)

Definition fillna0 (x : float64) : float64 := if isnan x then zero else x.

Section Numpy.
Variable lib : Biblioteca.

(** The zero at which numpy starts the sum of an array that has entries. *)
Definition inicio : float64 := S754_zero (menos_zero lib).

(** The unrolled loop of [pairwise_sum] in numpy's [loops_utils.h]: eight
    running sums over the blocks of eight entries, then their sum in
    pairs, then the entries left over. *)
Fixpoint lanes (r0 r1 r2 r3 r4 r5 r6 r7 : float64) (a : list float64)
  : float64 :=
  match a with
  | x0 :: x1 :: x2 :: x3 :: x4 :: x5 :: x6 :: x7 :: a' =>
      lanes (add r0 x0) (add r1 x1) (add r2 x2) (add r3 x3)
            (add r4 x4) (add r5 x5) (add r6 x6) (add r7 x7) a'
  | _ =>
      foldl add
            (add (add (add r0 r1) (add r2 r3)) (add (add r4 r5) (add r6 r7)))
            a
  end.

(** Fewer than eight entries are added up from left to right. *)
Definition bloco (a : list float64) : float64 :=
  match a with
  | x0 :: x1 :: x2 :: x3 :: x4 :: x5 :: x6 :: x7 :: a' =>
      lanes x0 x1 x2 x3 x4 x5 x6 x7 a'
  | _ => foldl add inicio a
  end.

(** More than 128 entries are split in two halves, the first of a length
    that is a multiple of eight.  [fuel] bounds the depth of the
    splitting; the length of the array is enough. *)
Fixpoint pairwise_sum (fuel : nat) (a : list float64) : float64 :=
  match fuel with
  | O => bloco a
  | S fuel' =>
      let n := length a in
      if (n <=? 128)%nat then bloco a
      else
        let n2 := (n / 2)%nat in
        let n2 := (n2 - n2 mod 8)%nat in
        add (pairwise_sum fuel' (take n2 a)) (pairwise_sum fuel' (drop n2 a))
  end.

(** [np.add.reduce] of a float64 array: the sum is added to the initial
    value, the zero of the empty sum. *)
Definition np_sum (a : list float64) : float64 :=
  add (match a with [] => zero | _ => inicio end)
      (pairwise_sum (length a) a).

(** The sum of an int64 and of a uint64 array wraps around. *)
Definition int64 (z : Z) : Z := (z + 2 ^ 63) mod 2 ^ 64 - 2 ^ 63.
Definition uint64 (z : Z) : Z := z mod 2 ^ 64.

(** [Series.sum()] with [skipna=True]: in a float64 Series a missing
    entry is replaced by 0.0, then numpy adds the entries up. *)
Definition sum (s : Series) : numero :=
  match s with
  | Float64 xs => NFloat (np_sum (map fillna0 xs))
  | Int64 zs => NInt (foldl (fun a z => int64 (a + z)) 0 zs)
  | UInt64 zs => NInt (foldl (fun a z => uint64 (a + z)) 0 zs)
  end.

End Numpy.

(** [df[c] = s] followed by [df[c]]: the column that the assignment
    leaves in a table of [n] rows.  A Series with one entry for each row
    stays as it is; otherwise the entries are aligned on the row
    position, a row that the Series lacks gets NaN, and the column is
    float64. *)
Definition floats (s : Series) : list float64 :=
  match s with
  | Float64 xs => xs
  | Int64 zs | UInt64 zs => map of_Z zs
  end.

Definition tamanho (s : Series) : nat :=
  match s with
  | Float64 xs => length xs
  | Int64 zs | UInt64 zs => length zs
  end.

Definition alinhar {B} (linhas : list B) (s : Series) : Series :=
  if decide (tamanho s = length linhas) then s
  else Float64 (imap (fun i _ => default nan (floats s !! i)) linhas).

(** ** Markers *)

(** [folium.Marker] checks its location with [validate_location], which
    raises ValueError when a coordinate is NaN. *)
Definition validate_location (lat lng : float64) : result (float64 * float64) :=
  if isnan lat || isnan lng then Raise ValueError else Ok (lat, lng).

(** ** The script *)

Record Output := {
  total_ocorrencias : nat;
  soma_caixa_uma : nat;
  total_quantidade_instalacao : nat;
  total_rede_esgoto : numero;
  total_rede_agua : numero;
  resumo_nucleo : list (cell * nat);
  resumo_data : list (Z * nat);
  layers : list Layer;
}.

Section Script.
Variable lib : Biblioteca.

(** [str(c)], also the element-wise [astype(str)] and an f-string field. *)
Definition py_str (c : cell) : string :=
  match c with
  | Str s => s
  | Num x => if isnan x then "nan" else str_float lib x
  | Timestamp ns => str_timestamp lib ns
  | NaT => "NaT"
  end.

(** [str] of a numpy scalar. *)
Definition str_numero (n : numero) : string :=
  match n with
  | NInt z => pretty z
  | NFloat x => if isnan x then "nan" else str_float lib x
  end.

(** The text that [converter_coluna_numerica] gives to [pd.to_numeric]
    for a cell: [astype(str)], then [str.replace(",", ".", regex=False)]. *)
Definition texto (c : cell) : string := replace "," "." (py_str c).

(** The float that the normaliser reads from a cell. *)
Definition normalizar (c : cell) : float64 := valor (ler (texto c)).

Definition converter_coluna_numerica (df : DataFrame) (coluna : string)
  : result Series :=
  if decide (coluna ∈ columns df) then
    s ← getitem df coluna;
    Ok (to_numeric (map texto s))
  else Ok (Float64 []).

(** The cells of a numeric column. *)
Definition celulas (s : Series) : list cell := map Num (floats s).

(** [cell.dt.date]: the calendar day, counted from the epoch. *)
Definition day (ns : Z) : Z := ns / 86400000000000.

Definition dt_date (c : cell) : option Z :=
  match c with
  | Timestamp ns => Some (day ns)
  | _ => None
  end.

Definition timestamp_cell (o : option Z) : cell :=
  match o with
  | Some ns => Timestamp ns
  | None => NaT
  end.

(** [{nucleo: cores[i % len(cores)] for i, nucleo in enumerate(nucleos)}] *)
Definition cores_nucleo (nucleos : list cell) : gmap cell string :=
  foldl (fun d '(i, nucleo) => <[nucleo := cores !!! (i mod length cores)%nat]> d)
        ∅ (imap (fun i nucleo => (i, nucleo)) nucleos).

Definition popup_html (nucleo ocorrencia funcionario : string) : string :=
  nl +:+ indent 20 +:+ "<b>Núcleo:</b> " +:+ nucleo +:+ "<br>" +:+
  nl +:+ indent 20 +:+ "<b>Ocorrência:</b> " +:+ ocorrencia +:+ "<br>" +:+
  nl +:+ indent 20 +:+ "<b>Funcionário:</b> " +:+ funcionario +:+
  nl +:+ indent 16.

(** [d[k]] on a dict *)
Definition dict_getitem (d : gmap cell string) (k : cell) : result string :=
  match d !! k with
  | Some v => Ok v
  | None => Raise (KeyError (py_str k))
  end.

(** The f-string [popup_html] of a row. *)
Definition popup_of_row (cols : list string) (row : Row) : result string :=
  nucleo ← row_getitem cols row NUCLEO_DE_ATUACAO;
  ocorrencia ← row_getitem cols row OCORRENCIA_CADASTRO;
  let funcionario := row_get cols row FUNCIONARIO_CADASTRO py_str "N/A" in
  Ok (popup_html (py_str nucleo) (py_str ocorrencia) funcionario).

(** The popup text of a row of a table that has the two columns. *)
Definition popup_text (cols : list string) (row : Row) : string :=
  popup_html (py_str (cell_at row NUCLEO_DE_ATUACAO))
             (py_str (cell_at row OCORRENCIA_CADASTRO))
             (row_get cols row FUNCIONARIO_CADASTRO py_str "N/A").

(** The body of the [try] statement for one row. *)
Definition build_marker (cols : list string) (cores_nucleo : gmap cell string)
    (bairro : cell) (row : Row) (geolocation : string) : result Marker :=
  '(lat, lng) ← unpack_floats lib (split "," geolocation);
  popup ← popup_of_row cols row;
  color ← dict_getitem cores_nucleo bairro;
  loc ← validate_location lat lng;
  Ok {| location := loc; popup := popup; icon_color := color |}.

(** One turn of the inner loop: [Ok (Some m)] adds the marker [m] to the
    layer, [Ok None] leaves the row out, [Raise e] ends the run. *)
Definition marker_of_row (cols : list string) (cores_nucleo : gmap cell string)
    (bairro : cell) (row : Row) : result (option Marker) :=
  match row_get cols row GEOLOCATION Some None with
  | None => Ok None
  | Some g =>
      if notna g then
        match g with
        | Str s =>
            if contains "," s then
              except_ValueError
                (m ← build_marker cols cores_nucleo bairro row s; Ok (Some m))
                (Ok None)
            else Ok None
        | _ => Raise TypeError
        end
      else Ok None
  end.

(** The outer loop body: the feature group of one category. *)
Definition layer_of (df : DataFrame) (cores_nucleo : gmap cell string)
    (bairro : cell) : result Layer :=
  df_nucleo ← where_eq df NUCLEO_DE_ATUACAO bairro;
  ms ← mapM (marker_of_row (columns df_nucleo) cores_nucleo bairro)
            (rows df_nucleo);
  Ok {| name := bairro; markers := omap id ms |}.

(** Lines 155 to 182: the colour table and the loop over the categories,
    on the occurrence table as the run has it by then. *)
Definition camadas (df_ocorrencias : DataFrame) : result (list Layer) :=
  ks ← getitem df_ocorrencias NUCLEO_DE_ATUACAO;
  let nucleos := unique ks in
  let cores_nucleo := cores_nucleo nucleos in
  mapM (layer_of df_ocorrencias cores_nucleo) nucleos.

(** [resumo_nucleo]: the grouping raises TypeError when it cannot sort
    its labels. *)
Definition resumir_nucleo (df : DataFrame) : result (list (cell * nat)) :=
  ks ← getitem df NUCLEO_DE_ATUACAO;
  vs ← getitem df OCORRENCIA_CADASTRO;
  if comparaveis (omap key_of ks)
  then Ok (groupby_count cell_leb (zip (map key_of ks) (map notna vs)))
  else Raise TypeError.

(** [DATA CADASTRO] after [pd.to_datetime]. *)
Definition converter_datas (df : DataFrame) : result DataFrame :=
  s ← getitem df DATA_CADASTRO;
  _ ← raise_if (to_datetime_error lib s);
  Ok (setitem df DATA_CADASTRO
        (imap (fun i _ => timestamp_cell (to_datetime lib s i)) s)).

Definition resumir_data (df : DataFrame) : result (list (Z * nat)) :=
  s ← getitem df DATA_CADASTRO;
  Ok (groupby_size Z.leb (map dt_date s)).

(** The registration dates of the occurrence rows that have a category,
    as the table has them. *)
Definition coluna_datas (df : DataFrame) : list cell :=
  map (fun r => cell_at r DATA_CADASTRO) (com_nucleo df).

(** The calendar day parsed for each occurrence row that has a category,
    [None] where the registration date does not parse. *)
Definition datas (df : DataFrame) : list (option Z) :=
  let s := coluna_datas df in
  imap (fun i _ => option_map day (to_datetime lib s i)) s.

(** The occurrence table on which the layers are built: the rows with a
    category, with the registration dates converted. *)
Definition com_datas (df : DataFrame) : DataFrame :=
  setitem {| columns := columns df; rows := com_nucleo df |} DATA_CADASTRO
    (let s := coluna_datas df in
     imap (fun i _ => timestamp_cell (to_datetime lib s i)) s).

(** A row of one of the two summary tables of the panel. *)
Definition linha_resumo (chave : string) (q : nat) : string :=
  "<tr><td>" +:+ chave +:+ "</td><td>" +:+ pretty q +:+ "</td></tr>".

(** The lines of a text, each ended by a line feed, after a first line
    feed. *)
Definition linhas (l : list string) : string :=
  nl +:+ String.concat "" (map (fun s => s +:+ nl) l).

(** The f-string [html_menu]. *)
Definition html_menu (total_ocorrencias soma_caixa_uma
    total_quantidade_instalacao : nat) (total_rede_agua total_rede_esgoto : numero)
    (resumo_nucleo : list (cell * nat)) (resumo_data : list (Z * nat)) : string :=
  linhas
    [("<div style=" +:+ aspas);
     "    position: fixed;";
     "    top: 80px;";
     "    left: 20px;";
     "    width: 360px;";
     "    background: #fff;";
     "    border-radius: 12px;";
     "    box-shadow: 0 4px 8px rgba(0,0,0,0.2);";
     "    font-family: Arial, sans-serif;";
     "    font-size: 14px;";
     "    z-index:9999;";
     (aspas +:+ ">");
     ("<h4 style=" +:+ aspas);
     "    margin: 0;";
     "    padding: 10px;";
     "    background: #2a5599;";
     "    color: white;";
     "    border-radius: 12px 12px 0 0;";
     "    font-size: 16px;";
     "    text-align: center;";
     (aspas +:+ ">📊 Resumos</h4>");
     ("<div style=" +:+ aspas +:+ "padding: 10px;" +:+ aspas +:+ ">");
     "    <details open>";
     ("        <summary style=" +:+ aspas +:+ "cursor: pointer; font-weight: bold; margin-bottom: 5px;" +:+ aspas +:+ ">");
     "            📌 Resumo Geral";
     "        </summary>";
     ("        <div style=" +:+ aspas +:+ "margin-left: 10px; margin-top: 5px;" +:+ aspas +:+ ">");
     ("            <table style=" +:+ aspas +:+ "width: 100%; border-collapse: collapse; text-align: center;" +:+ aspas +:+ ">");
     "                <tr><th>Ocorrência</th><th>Caixa Uma</th><th>Ligações</th><th>Rede Água</th><th>Rede Esgoto</th></tr>";
     "                <tr>";
     ("                    <td>" +:+ (pretty total_ocorrencias) +:+ "</td>");
     ("                    <td>" +:+ (pretty soma_caixa_uma) +:+ "</td>");
     ("                    <td>" +:+ (pretty total_quantidade_instalacao) +:+ "</td>");
     ("                    <td>" +:+ (str_numero total_rede_agua) +:+ "</td>");
     ("                    <td>" +:+ (str_numero total_rede_esgoto) +:+ "</td>");
     "                </tr>";
     "            </table>";
     "        </div>";
     "    </details>";
     "    <details>";
     ("        <summary style=" +:+ aspas +:+ "cursor: pointer; font-weight: bold; margin-bottom: 5px;" +:+ aspas +:+ ">");
     "            🏙️ Resumo por Núcleo de Atuação";
     "        </summary>";
     ("        <div style=" +:+ aspas +:+ "margin-left: 10px; margin-top: 5px;" +:+ aspas +:+ ">");
     ("            <table style=" +:+ aspas +:+ "width: 100%; border-collapse: collapse; text-align: center;" +:+ aspas +:+ ">");
     "                <tr><th>Núcleo</th><th>Ocorrências</th></tr>";
     ("                " +:+ (String.concat "" (map (fun '(n, q) => linha_resumo (py_str n) q) resumo_nucleo)));
     "            </table>";
     "        </div>";
     "    </details>";
     "    <details>";
     ("        <summary style=" +:+ aspas +:+ "cursor: pointer; font-weight: bold; margin-bottom: 5px;" +:+ aspas +:+ ">");
     "            📅 Resumo por Data";
     "        </summary>";
     ("        <div style=" +:+ aspas +:+ "margin-left: 10px; margin-top: 5px;" +:+ aspas +:+ ">");
     ("            <table style=" +:+ aspas +:+ "width: 100%; border-collapse: collapse; text-align: center;" +:+ aspas +:+ ">");
     "                <tr><th>Data</th><th>Executados</th></tr>";
     ("                " +:+ (String.concat "" (map (fun '(d, q) => linha_resumo (str_date lib d) q) resumo_data)));
     "            </table>";
     "        </div>";
     "    </details>";
     "</div>";
     "</div>"].

Definition main (df_ocorrencias df_area : DataFrame) : result Output :=
  if empty df_ocorrencias || empty df_area then Raise SystemExit
  else
    df_ocorrencias ← dropna df_ocorrencias NUCLEO_DE_ATUACAO;
    cadastro ← getitem df_ocorrencias OCORRENCIA_CADASTRO;
    caixa ← getitem df_ocorrencias OCORRENCIA_CAIXA_UMA;
    ligacao ← getitem df_ocorrencias OCORRENCIA_LIGACAO;
    esgoto ← converter_coluna_numerica df_area REDE_ESGOTO;
    let esgoto := alinhar (rows df_area) esgoto in
    let df_area := setitem df_area REDE_ESGOTO (celulas esgoto) in
    agua ← converter_coluna_numerica df_area REDE_AGUA;
    let agua := alinhar (rows df_area) agua in
    let df_area := setitem df_area REDE_AGUA (celulas agua) in
    let total_esgoto := sum lib esgoto in
    let total_agua := sum lib agua in
    nucleo ← resumir_nucleo df_ocorrencias;
    df_ocorrencias ← converter_datas df_ocorrencias;
    data ← resumir_data df_ocorrencias;
    let html := html_menu (count cadastro) (count caixa) (count ligacao)
                          total_agua total_esgoto nucleo data in
    _ ← raise_if (Element_error lib html);
    fgs ← camadas df_ocorrencias;
    _ ← raise_if (save_error lib html fgs);
    Ok {| total_ocorrencias := count cadastro;
          soma_caixa_uma := count caixa;
          total_quantidade_instalacao := count ligacao;
          total_rede_esgoto := total_esgoto;
          total_rede_agua := total_agua;
          resumo_nucleo := nucleo;
          resumo_data := data;
          layers := fgs |}.

End Script.

(** ** The downloads and the whole program *)

Definition URL_OCORRENCIAS : string :=
  "https://www.jotform.com/excel/242924996615066".
Definition URL_AREA_ATUACAO : string :=
  "https://www.jotform.com/excel/243393249284060".

(** What a request for a sheet comes to: the table [pd.read_excel] reads
    from the answer, a [requests.RequestException] (connection failure,
    timeout, or an HTTP error status from [raise_for_status]), or another
    exception, raised while the sheet is read. *)
Inductive resposta :=
| Planilha (df : DataFrame)
| RequestException
| Erro (e : exn).

Definition DataFrame_vazio : DataFrame := {| columns := []; rows := [] |}.

(** [baixar_excel(url)]; [web] is what the network answers for a URL.  A
    [RequestException] is caught and an empty DataFrame returned (the
    message printed is left out); any other exception passes through. *)
Definition baixar_excel (web : string -> resposta) (url : string)
  : result DataFrame :=
  match web url with
  | Planilha df => Ok df
  | RequestException => Ok DataFrame_vazio
  | Erro e => Raise e
  end.

(** The coordinate field of a row is present and is not a text: the case
    in which the membership test of the loop raises TypeError. *)
Definition nao_texto (cols : list string) (row : Row) : bool :=
  match row_get cols row GEOLOCATION Some None with
  | Some (Str _) | None => false
  | Some g => notna g
  end.

(** The columns that the script reads with [df[...]], in the order in
    which it reads them. *)
Definition colunas_lidas : list string :=
  [NUCLEO_DE_ATUACAO; OCORRENCIA_CADASTRO; OCORRENCIA_CAIXA_UMA;
   OCORRENCIA_LIGACAO; DATA_CADASTRO].

(** The rows with a category that have a value in a column. *)
Definition presentes (df : DataFrame) (c : string) : nat :=
  length (List.filter (fun r => notna (cell_at r NUCLEO_DE_ATUACAO)
                                && notna (cell_at r c)) (rows df)).

(** The categories of the table can be sorted. *)
Definition nucleos_comparaveis (df : DataFrame) : bool :=
  comparaveis (first_seen df).

Section Programa.
Variable lib : Biblioteca.

(** Lines 49 to 55 and what follows them: the two downloads, then the
    script on the two tables. *)
Definition programa (web : string -> resposta) : result Output :=
  df_ocorrencias ← baixar_excel web URL_OCORRENCIAS;
  df_area ← baixar_excel web URL_AREA_ATUACAO;
  main lib df_ocorrencias df_area.

(** The coordinates of a row as the loop accepts them: the coordinate
    field is a text of two parts that [float()] reads as numbers. *)
Definition coordenadas (cols : list string) (row : Row)
  : option (float64 * float64) :=
  match row_get cols row GEOLOCATION Some None with
  | Some (Str s) =>
      match split "," s with
      | [a; b] =>
          match py_float lib a, py_float lib b with
          | Some lat, Some lng =>
              if isnan lat || isnan lng then None else Some (lat, lng)
          | _, _ => None
          end
      | _ => None
      end
  | _ => None
  end.

(** The marker that a row gives in a layer of colour [color], if any. *)
Definition marcador (cols : list string) (color : string) (row : Row)
  : option Marker :=
  option_map
    (fun loc => {| location := loc;
                   popup := popup_text lib cols row;
                   icon_color := color |})
    (coordenadas cols row).

(** A coverage column as the normaliser returns it, and its total as the
    script takes it: the sum of the column that the assignment leaves in
    the table. *)
Definition coluna_rede (df_area : DataFrame) (c : string) : Series :=
  if decide (c ∈ columns df_area)
  then to_numeric (map (texto lib) (map (fun r => cell_at r c) (rows df_area)))
  else Float64 [].

Definition total_rede (df_area : DataFrame) (c : string) : numero :=
  sum lib (alinhar (rows df_area) (coluna_rede df_area c)).

(** What a run returns once the layers are built. *)
Definition saida_de (df_ocorrencias df_area : DataFrame) (fgs : list Layer)
  : Output :=
  {| total_ocorrencias := presentes df_ocorrencias OCORRENCIA_CADASTRO;
     soma_caixa_uma := presentes df_ocorrencias OCORRENCIA_CAIXA_UMA;
     total_quantidade_instalacao := presentes df_ocorrencias OCORRENCIA_LIGACAO;
     total_rede_esgoto := total_rede df_area REDE_ESGOTO;
     total_rede_agua := total_rede df_area REDE_AGUA;
     resumo_nucleo :=
       groupby_count cell_leb (map nucleo_kv (com_nucleo df_ocorrencias));
     resumo_data := groupby_size Z.leb (datas lib df_ocorrencias);
     layers := fgs |}.

(** The panel that a run builds from the two tables. *)
Definition painel (df_ocorrencias df_area : DataFrame) : string :=
  let out := saida_de df_ocorrencias df_area [] in
  html_menu lib (total_ocorrencias out) (soma_caixa_uma out)
            (total_quantidade_instalacao out)
            (total_rede_agua out) (total_rede_esgoto out)
            (resumo_nucleo out) (resumo_data out).

End Programa.

(** ** A sample run

    Two small tables on which the script is evaluated, and values for
    the libraries. *)
Module Exemplo.

Definition entre (a b ch : N) : bool := ((a <=? ch) && (ch <=? b))%N.

(** The blanks of Unicode beyond ASCII. *)
Definition branco (ch : N) : bool :=
  (ch =? 133)%N || (ch =? 160)%N || (ch =? 5760)%N || entre 8192 8202 ch
  || (ch =? 8232)%N || (ch =? 8233)%N || (ch =? 8239)%N || (ch =? 8287)%N
  || (ch =? 12288)%N.

(** Some of the decimal digits of Unicode: the Arabic-Indic digits, the
    extended Arabic-Indic digits, the Devanagari digits and the fullwidth
    digits. *)
Definition algarismo (ch : N) : option N :=
  if entre 1632 1641 ch then Some (ch - 1632)%N
  else if entre 1776 1785 ch then Some (ch - 1776)%N
  else if entre 2406 2415 ch then Some (ch - 2406)%N
  else if entre 65296 65305 ch then Some (ch - 65296)%N
  else None.

(** Only cells that already are timestamps count as dates here. *)
Definition carimbos (col : list cell) (i : nat) : option Z :=
  match col !! i with
  | Some (Timestamp ns) => Some ns
  | _ => None
  end.

Definition lib : Biblioteca :=
  {| isspace := branco;
     todecimal := algarismo;
     str_float := fun _ => "?";
     str_timestamp := fun _ => "?";
     str_date := fun _ => "?";
     to_datetime := carimbos;
     to_datetime_error := fun _ => None;
     menos_zero := true;
     Element_error := fun _ => None;
     save_error := fun _ _ => None |}.

Definition colunas : list string :=
  [NUCLEO_DE_ATUACAO; OCORRENCIA_CADASTRO; OCORRENCIA_CAIXA_UMA;
   OCORRENCIA_LIGACAO; DATA_CADASTRO; GEOLOCATION; FUNCIONARIO_CADASTRO].

Definition linha (nucleo ocorrencia data geolocation funcionario : cell) : Row :=
  list_to_map
    [(NUCLEO_DE_ATUACAO, nucleo); (OCORRENCIA_CADASTRO, ocorrencia);
     (OCORRENCIA_CAIXA_UMA, Num nan); (OCORRENCIA_LIGACAO, Num nan);
     (DATA_CADASTRO, data); (GEOLOCATION, geolocation);
     (FUNCIONARIO_CADASTRO, funcionario)].

Definition dia (n : Z) : cell := Timestamp (n * 86400000000000).

Definition linha_B : Row :=
  linha (Str "B") (Str "x") (dia 2) (Str "-23.55,-46.63") (Str "Ana").
Definition linha_A_bad : Row :=
  linha (Str "A") (Str "y") (Str "sem data") (Str "bad") (Num nan).
Definition linha_A_inf : Row :=
  linha (Str "A") (Num nan) (dia 1) (Str "inf,0") (Num nan).
Definition linha_sem_nucleo : Row :=
  linha (Num nan) (Str "z") NaT (Str "1,2") (Str "Rui").

(** A row whose coordinates are written with Arabic-Indic digits. *)
Definition linha_B_arabe : Row :=
  linha (Str "B") (Str "x") (dia 2) (Str "١,٢") (Str "Ana").

Definition ocorrencias : DataFrame :=
  {| columns := colunas;
     rows := [linha_B; linha_A_bad; linha_A_inf; linha_sem_nucleo] |}.

(** The same table with a number in the coordinate field of one row. *)
Definition ocorrencias_numero : DataFrame :=
  {| columns := colunas;
     rows := [linha_B;
              linha (Str "A") (Str "y") (dia 1) (Num (of_decimal false 1 0))
                    (Str "Ana")] |}.

Definition area : DataFrame :=
  {| columns := [REDE_ESGOTO; REDE_AGUA];
     rows := [list_to_map [(REDE_ESGOTO, Str "100,5"); (REDE_AGUA, Str "abc")];
              list_to_map [(REDE_ESGOTO, Str "200,0"); (REDE_AGUA, Str "")]] |}.

Definition marker_B : Marker :=
  {| location := (of_decimal true 2355 (-2), of_decimal true 4663 (-2));
     popup := popup_html "B" "x" "Ana";
     icon_color := "red" |}.

Definition marker_A : Marker :=
  {| location := (S754_infinity false, S754_zero false);
     popup := popup_html "A" "nan" "nan";
     icon_color := "blue" |}.

(** What the run on [ocorrencias] and [area] produces. *)
Definition saida : Output :=
  {| total_ocorrencias := 2;
     soma_caixa_uma := 0;
     total_quantidade_instalacao := 0;
     total_rede_esgoto := NFloat (of_decimal false 3005 (-1));
     total_rede_agua := NFloat zero;
     resumo_nucleo := [(Str "A", 1%nat); (Str "B", 1%nat)];
     resumo_data := [(1, 1%nat); (2, 1%nat)];
     layers := [{| name := Str "B"; markers := [marker_B] |};
                {| name := Str "A"; markers := [marker_A] |}] |}.

(** The sample table without one of its columns. *)
Definition ocorrencias_sem (c : string) : DataFrame :=
  {| columns := List.filter (fun k => negb (String.eqb k c)) colunas;
     rows := map (delete c) (rows ocorrencias) |}.

(** Sheets behind the two addresses: the sample tables, and the same with
    the first request failing. *)
Definition web (url : string) : resposta :=
  if String.eqb url URL_OCORRENCIAS then Planilha ocorrencias
  else Planilha area.

Definition web_falha (url : string) : resposta :=
  if String.eqb url URL_OCORRENCIAS then RequestException
  else Planilha area.

(** A table none of whose rows has a category. *)
Definition so_sem_nucleo : DataFrame :=
  {| columns := colunas; rows := [linha_sem_nucleo; linha_sem_nucleo] |}.

(** A table whose categories are numbers, the larger one first. *)
Definition ocorrencias_numeros : DataFrame :=
  {| columns := colunas;
     rows := [linha (Num (of_decimal false 2 0)) (Str "x") (dia 2) (Num nan) (Str "Ana");
              linha (Num (of_decimal false 1 0)) (Str "y") (dia 1) (Num nan) (Str "Rui");
              linha (Num (of_decimal false 1 0)) (Str "z") (dia 1) (Num nan) (Str "Rui")] |}.

(** A table whose categories are a number and a timestamp. *)
Definition ocorrencias_mistas : DataFrame :=
  {| columns := colunas;
     rows := [linha (Num (of_decimal false 1 0)) (Str "x") (dia 2) (Num nan) (Str "Ana");
              linha (dia 3) (Str "y") (dia 1) (Num nan) (Str "Rui")] |}.

(** A coverage table whose columns are whole numbers: the first adds up
    beyond the largest int64. *)
Definition area_inteiros : DataFrame :=
  {| columns := [REDE_ESGOTO; REDE_AGUA];
     rows := [list_to_map [(REDE_ESGOTO, Str "4611686018427387904");
                           (REDE_AGUA, Str "1")];
              list_to_map [(REDE_ESGOTO, Str "4611686018427387904");
                           (REDE_AGUA, Str "2")]] |}.

(** Eight entries: 1e16, then seven times 1. *)
Definition coluna_1e16 : list float64 :=
  of_decimal false 1 16 :: repeat (of_decimal false 1 0) 7.

End Exemplo.

(** * Properties *)

(** ** The order on labels *)

Lemma ascii_compare_refl (a : ascii) : Ascii.compare a a = Eq.
Proof. unfold Ascii.compare. apply N.compare_refl. Qed.

Lemma string_compare_refl (s : string) : String.compare s s = Eq.
Proof.
  induction s as [|a s IH]; simpl; [reflexivity|].
  rewrite ascii_compare_refl. exact IH.
Qed.

Lemma ascii_compare_trans (a b c : ascii) (o : comparison) :
  Ascii.compare a b = o -> Ascii.compare b c = o -> Ascii.compare a c = o.
Proof.
  unfold Ascii.compare. intros H1 H2. destruct o.
  - apply N.compare_eq_iff in H1, H2. apply N.compare_eq_iff. congruence.
  - rewrite N.compare_lt_iff in *. lia.
  - rewrite N.compare_gt_iff in *. lia.
Qed.

Lemma string_compare_lt_trans (s t u : string) :
  String.compare s t = Lt -> String.compare t u = Lt -> String.compare s u = Lt.
Proof.
  revert t u. induction s as [|a s IH]; intros [|b t] [|c u]; simpl; try congruence.
  destruct (Ascii.compare a b) eqn:Hab; try discriminate;
    destruct (Ascii.compare b c) eqn:Hbc; try discriminate; intros H1 H2.
  - rewrite (ascii_compare_trans _ _ _ _ Hab Hbc). eauto.
  - apply Ascii.compare_eq_iff in Hab. subst b. rewrite Hbc. reflexivity.
  - apply Ascii.compare_eq_iff in Hbc. subst c. rewrite Hab. reflexivity.
  - rewrite (ascii_compare_trans _ _ _ _ Hab Hbc). reflexivity.
Qed.

Lemma string_leb_iff (s t : string) :
  String.leb s t = true <-> String.compare s t = Lt \/ s = t.
Proof.
  unfold String.leb. split.
  - destruct (String.compare s t) eqn:E; try discriminate; intros _.
    + right. apply String.compare_eq_iff. exact E.
    + left. reflexivity.
  - intros [-> | ->]; [reflexivity|]. rewrite string_compare_refl. reflexivity.
Qed.

Lemma string_leb_trans (s t u : string) :
  String.leb s t = true -> String.leb t u = true -> String.leb s u = true.
Proof.
  rewrite !string_leb_iff. intros [H1 | ->] [H2 | ->]; eauto.
  left. eapply string_compare_lt_trans; eassumption.
Qed.

Lemma string_ltb_iff (s t : string) :
  String.ltb s t = true <-> String.leb s t = true /\ s <> t.
Proof.
  rewrite string_leb_iff. unfold String.ltb. split.
  - destruct (String.compare s t) eqn:E; try discriminate. intros _.
    split; [left; reflexivity|]. intros ->.
    rewrite string_compare_refl in E. discriminate.
  - intros [[-> | ->] Hne]; [reflexivity | congruence].
Qed.

(** The order on floats *)

Lemma leb_posicao (x y : float64) :
  Float.leb x y = true <-> lex_le (posicao x) (posicao y).
Proof.
  unfold Float.leb, lex_le.
  destruct x as [[|]|[|]| |[|] m1 e1], y as [[|]|[|]| |[|] m2 e2]; simpl;
    try (split; [intros _; lia | reflexivity]);
    try (split; [discriminate | intros H; exfalso; lia]).
  - change (Pos.compare_cont Eq m1 m2) with (m1 ?= m2)%positive.
    destruct (Z.compare_spec e1 e2) as [He|He|He]; simpl.
    + destruct (Pos.compare_spec m1 m2) as [Hm|Hm|Hm]; simpl;
        (split; [intros H; try discriminate H; lia
                | intros H; try reflexivity; exfalso; lia]).
    + split; [discriminate | intros H; exfalso; lia].
    + split; [intros _; lia | reflexivity].
  - change (Pos.compare_cont Eq m1 m2) with (m1 ?= m2)%positive.
    destruct (Z.compare_spec e1 e2) as [He|He|He]; simpl.
    + destruct (Pos.compare_spec m1 m2) as [Hm|Hm|Hm]; simpl;
        (split; [intros H; try discriminate H; lia
                | intros H; try reflexivity; exfalso; lia]).
    + split; [intros _; lia | reflexivity].
    + split; [discriminate | intros H; exfalso; lia].
Qed.

Lemma float_leb_total (x y : float64) :
  Float.leb x y = true \/ Float.leb y x = true.
Proof.
  rewrite !leb_posicao. unfold lex_le.
  destruct (posicao x) as [[a b] c], (posicao y) as [[a' b'] c']. simpl. lia.
Qed.

Lemma float_leb_trans (x y z : float64) :
  Float.leb x y = true -> Float.leb y z = true -> Float.leb x z = true.
Proof.
  rewrite !leb_posicao. unfold lex_le.
  destruct (posicao x) as [[a b] c], (posicao y) as [[a' b'] c'],
           (posicao z) as [[a'' b''] c'']. simpl. lia.
Qed.

(** Two different numbers in ascending order are in strictly ascending
    order, unless both are zeros. *)
Lemma float_leb_ltb (x y : float64) :
  Float.leb x y = true -> x <> y -> isnan x = false -> isnan y = false ->
  Float.ltb x y = true \/ exists s t, x = S754_zero s /\ y = S754_zero t.
Proof.
  unfold Float.leb, Float.ltb, SFltb.
  destruct x as [s|[|]| |[|] m1 e1], y as [t|[|]| |[|] m2 e2]; simpl;
    intros Hle Hne Hx Hy; try discriminate; try (left; reflexivity);
    try (right; eauto; fail); try (exfalso; apply Hne; reflexivity).
  - change (Pos.compare_cont Eq m1 m2) with (m1 ?= m2)%positive in *.
    destruct (Z.compare_spec e1 e2) as [He|He|He]; simpl in *;
      try discriminate; try (left; reflexivity).
    destruct (Pos.compare_spec m1 m2) as [Hm|Hm|Hm]; simpl in *;
      try discriminate; try (left; reflexivity).
    exfalso. apply Hne. subst. reflexivity.
  - change (Pos.compare_cont Eq m1 m2) with (m1 ?= m2)%positive in *.
    destruct (Z.compare_spec e1 e2) as [He|He|He]; simpl in *;
      try discriminate; try (left; reflexivity).
    destruct (Pos.compare_spec m1 m2) as [Hm|Hm|Hm]; simpl in *;
      try discriminate; try (left; reflexivity).
    exfalso. apply Hne. subst. reflexivity.
Qed.

#[export] Instance cell_le_total : Total (le cell_leb).
Proof.
  intros [s|x|m|] [t|y|n|]; unfold le; simpl; auto.
  - apply String.leb_total.
  - apply float_leb_total.
  - lia.
Qed.

#[export] Instance cell_le_trans : Transitive (le cell_leb).
Proof.
  intros [s|x|m|] [t|y|n|] [u|z|k|]; unfold le; simpl; auto; try discriminate.
  - apply string_leb_trans.
  - apply float_leb_trans.
  - lia.
Qed.

#[export] Instance Z_le_total : Total (le Z.leb).
Proof. intros a b. unfold le. lia. Qed.

#[export] Instance Z_le_trans : Transitive (le Z.leb).
Proof. intros a b c. unfold le. lia. Qed.

(** ** First-seen order *)

Section Unique.
Context {A : Type} `{EqDecision A}.

Lemma unique_snoc (l : list A) (x : A) : unique (l ++ [x]) = see (unique l) x.
Proof. unfold unique. rewrite foldl_snoc. reflexivity. Qed.

Lemma elem_of_unique (l : list A) (x : A) : x ∈ unique l <-> x ∈ l.
Proof.
  induction l as [|y l IH] using rev_ind.
  - reflexivity.
  - rewrite unique_snoc. unfold see.
    destruct (decide (y ∈ unique l)) as [Hy|Hy].
    + rewrite elem_of_app, list_elem_of_singleton, IH.
      split; [auto|]. intros [Hx | ->]; [exact Hx | apply IH, Hy].
    + rewrite !elem_of_app, IH. reflexivity.
Qed.

Lemma NoDup_unique (l : list A) : NoDup (unique l).
Proof.
  induction l as [|y l IH] using rev_ind.
  - constructor.
  - rewrite unique_snoc. unfold see.
    destruct (decide (y ∈ unique l)) as [Hy|Hy]; [exact IH|].
    apply NoDup_app. split_and!; [exact IH| |apply NoDup_singleton].
    intros z Hz Hz'. apply list_elem_of_singleton in Hz'. congruence.
Qed.

(** The first value of a list is the first distinct value. *)
Lemma unique_cons_head (x : A) (l : list A) : unique (x :: l) !! 0%nat = Some x.
Proof.
  induction l as [|y l IH] using rev_ind; [reflexivity|].
  change (x :: l ++ [y]) with ((x :: l) ++ [y]).
  rewrite unique_snoc. unfold see. case_decide; [exact IH|].
  apply lookup_app_l_Some. exact IH.
Qed.
End Unique.

(** ** Grouping *)

Lemma zip_map_same {A B C} (f : A -> B) (g : A -> C) (l : list A) :
  zip (map f l) (map g l) = map (fun x => (f x, g x)) l.
Proof. induction l as [|x l IH]; simpl; [reflexivity | f_equal; exact IH]. Qed.

Lemma filter_map_length {A B} (p : B -> bool) (f : A -> B) (l : list A) :
  length (List.filter p (map f l)) = length (List.filter (fun x => p (f x)) l).
Proof.
  induction l as [|x l IH]; simpl; [reflexivity|].
  destruct (p (f x)); simpl; congruence.
Qed.

Lemma filter_filter_length {A} (p q : A -> bool) (l : list A) :
  length (List.filter p (List.filter q l))
  = length (List.filter (fun x => q x && p x) l).
Proof.
  induction l as [|x l IH]; simpl; [reflexivity|].
  destruct (q x); simpl; [destruct (p x); simpl; congruence | exact IH].
Qed.

Lemma filter_ext_length {A} (p q : A -> bool) (l : list A) :
  (forall x, x ∈ l -> p x = q x) ->
  length (List.filter p l) = length (List.filter q l).
Proof.
  induction l as [|x l IH]; intros Hpq; simpl; [reflexivity|].
  rewrite <- (Hpq x) by left.
  assert (IH' := IH (fun y Hy => Hpq y (list_elem_of_further _ _ _ Hy))).
  destruct (p x); simpl; congruence.
Qed.

Section GroupByFacts.
Context {K : Type} `{EqDecision K}.
Variable leb : K -> K -> bool.
Context `{!Total (le leb)} `{!Transitive (le leb)}.

Lemma group_keys_perm (keys : list (option K)) :
  group_keys leb keys ≡ₚ unique (omap id keys).
Proof. apply merge_sort_Permutation. Qed.

Lemma elem_of_group_keys (keys : list (option K)) (k : K) :
  k ∈ group_keys leb keys <-> Some k ∈ keys.
Proof.
  rewrite group_keys_perm, elem_of_unique, list_elem_of_omap. split.
  - intros ([k'|] & Hin & Hk); simpl in Hk; congruence.
  - intros Hin. exists (Some k). auto.
Qed.

Lemma NoDup_group_keys (keys : list (option K)) : NoDup (group_keys leb keys).
Proof. rewrite group_keys_perm. apply NoDup_unique. Qed.

Lemma group_keys_sorted (keys : list (option K)) :
  StronglySorted (le leb) (group_keys leb keys).
Proof. apply StronglySorted_merge_sort; assumption. Qed.

Lemma groupby_count_keys (kv : list (option K * bool)) :
  map fst (groupby_count leb kv) = group_keys leb (map fst kv).
Proof.
  unfold groupby_count. rewrite map_map. simpl. apply map_id.
Qed.

Lemma elem_of_groupby_count (kv : list (option K * bool)) (k : K) (n : nat) :
  (k, n) ∈ groupby_count leb kv <->
  Some k ∈ map fst kv /\ n = group_count k kv.
Proof.
  unfold groupby_count. rewrite list_elem_of_fmap. split.
  - intros (k' & Heq & Hin). inversion Heq; subst.
    split; [apply elem_of_group_keys, Hin | reflexivity].
  - intros [Hin ->]. exists k. split; [reflexivity|].
    apply elem_of_group_keys, Hin.
Qed.

(** A row belongs to exactly one of the distinct labels. *)
Lemma sum_indicator (ks : list K) (x : K) :
  NoDup ks ->
  sum_list (map (fun k => if decide (x = k) then 1 else 0)%nat ks)
  = (if decide (x ∈ ks) then 1 else 0)%nat.
Proof.
  induction 1 as [|k ks Hk Hnd IH]; simpl; [reflexivity|].
  rewrite IH.
  destruct (decide (x ∈ ks)) as [Hin|Hin];
    destruct (decide (x ∈ k :: ks)) as [Hin'|Hin'];
    destruct (decide (x = k)) as [Heq|Hne];
    try reflexivity; rewrite elem_of_cons in Hin'; try tauto; congruence.
Qed.

Lemma sum_list_map_add {A} (f g : A -> nat) (l : list A) :
  sum_list (map (fun x => f x + g x)%nat l)
  = (sum_list (map f l) + sum_list (map g l))%nat.
Proof. induction l as [|x l IH]; simpl; [reflexivity | rewrite IH; lia]. Qed.

Lemma sum_list_map_zero {A} (l : list A) :
  sum_list (map (fun _ => 0%nat) l) = 0%nat.
Proof. induction l as [|x l IH]; simpl; [reflexivity | exact IH]. Qed.

Lemma group_count_cons (k : K) (p : option K * bool) kv :
  group_count k (p :: kv) = (in_group k p + group_count k kv)%nat.
Proof.
  unfold group_count, in_group. simpl.
  destruct (bool_decide (p.1 = Some k) && p.2); reflexivity.
Qed.

Lemma sum_in_group (ks : list K) (p : option K * bool) :
  NoDup ks ->
  (forall k, p.1 = Some k -> k ∈ ks) ->
  sum_list (map (fun k => in_group k p) ks)
  = (if bool_decide (is_Some p.1) && p.2 then 1 else 0)%nat.
Proof.
  intros Hnd Hin. destruct p as [[x|] b]; simpl in *; unfold in_group; simpl.
  - destruct b.
    + rewrite (map_ext _ (fun k => if decide (x = k) then 1 else 0)%nat).
      * rewrite (sum_indicator ks x Hnd), decide_True by auto.
        reflexivity.
      * intros k. rewrite andb_true_r.
        destruct (decide (x = k)) as [->|Hne].
        -- rewrite bool_decide_true; reflexivity.
        -- rewrite bool_decide_false; [reflexivity | congruence].
    + rewrite (map_ext _ (fun _ => 0%nat)).
      * apply sum_list_map_zero.
      * intros k. rewrite andb_false_r. reflexivity.
  - apply sum_list_map_zero.
Qed.

Lemma sum_group_count (ks : list K) (kv : list (option K * bool)) :
  NoDup ks ->
  (forall k, Some k ∈ map fst kv -> k ∈ ks) ->
  sum_list (map (fun k => group_count k kv) ks)
  = length (List.filter (fun p => bool_decide (is_Some p.1) && p.2) kv).
Proof.
  intros Hnd. induction kv as [|p kv IH]; intros Hall.
  - apply sum_list_map_zero.
  - rewrite (map_ext _ (fun k => in_group k p + group_count k kv)%nat)
      by (intros k; apply group_count_cons).
    rewrite sum_list_map_add, IH, sum_in_group.
    + simpl. destruct (bool_decide (is_Some p.1) && p.2); reflexivity.
    + exact Hnd.
    + intros k Hk. apply Hall. simpl. rewrite Hk. left.
    + intros k Hk. apply Hall. simpl. right. exact Hk.
Qed.

Lemma groupby_count_total (kv : list (option K * bool)) :
  sum_list (map snd (groupby_count leb kv))
  = length (List.filter (fun p => bool_decide (is_Some p.1) && p.2) kv).
Proof.
  unfold groupby_count. rewrite map_map. simpl.
  apply sum_group_count; [apply NoDup_group_keys|].
  intros k Hk. apply elem_of_group_keys, Hk.
Qed.
End GroupByFacts.

(** ** Results *)

Lemma bind_Ok {A B} (m : result A) (f : A -> result B) (b : B) :
  m ≫= f = Ok b <-> exists a, m = Ok a /\ f a = Ok b.
Proof.
  destruct m as [a|e]; simpl; split.
  - eauto.
  - intros (a' & Ha & Hf). inversion Ha. subst. exact Hf.
  - discriminate.
  - intros (a' & Ha & _). discriminate.
Qed.

Lemma mapM_Ok {A B} (f : A -> result B) (l : list A) (ms : list B) :
  mapM f l = Ok ms <-> Forall2 (fun x m => f x = Ok m) l ms.
Proof.
  revert ms. induction l as [|x l IH]; intros ms; simpl.
  - split.
    + intros Heq. inversion Heq. constructor.
    + intros Hall. inversion Hall. reflexivity.
  - rewrite bind_Ok. split.
    + intros (y & Hy & Hrest). apply bind_Ok in Hrest as (k & Hk & Hret).
      inversion Hret. subst. constructor; [exact Hy | apply IH, Hk].
    + intros Hall. inversion Hall as [|? y ? k Hy Hk]; subst.
      exists y. split; [exact Hy|]. apply bind_Ok. exists k.
      split; [apply IH, Hk | reflexivity].
Qed.

Lemma mapM_total {A B} (f : A -> result B) (l : list A) :
  (forall x, x ∈ l -> exists m, f x = Ok m) -> exists ms, mapM f l = Ok ms.
Proof.
  induction l as [|x l IH]; intros Hall; simpl.
  - eexists. reflexivity.
  - destruct (Hall x) as [y Hy]; [left|].
    destruct IH as [k Hk]; [intros z Hz; apply Hall; right; exact Hz|].
    exists (y :: k). rewrite Hy. simpl. rewrite Hk. reflexivity.
Qed.

(** A loop whose turns raise nothing but [e], and one of which raises
    [e], raises [e]. *)
Lemma mapM_Raise {A B} (f : A -> result B) (l : list A) (e : exn) :
  (forall x, x ∈ l -> (exists m, f x = Ok m) \/ f x = Raise e) ->
  (exists x, x ∈ l /\ f x = Raise e) ->
  mapM f l = Raise e.
Proof.
  induction l as [|x l IH]; intros Hall (x0 & Hin & Hx0).
  - inversion Hin.
  - simpl. destruct (Hall x) as [[y Hy]|Hx]; [left| |rewrite Hx; reflexivity].
    rewrite Hy. simpl. rewrite IH; [reflexivity| |].
    + intros z Hz. apply Hall. right. exact Hz.
    + apply elem_of_cons in Hin as [->|Hin]; [congruence|]. eauto.
Qed.

Lemma getitem_Ok (df : DataFrame) (c : string) (s : list cell) :
  getitem df c = Ok s <->
  c ∈ columns df /\ s = map (fun r => cell_at r c) (rows df).
Proof.
  unfold getitem. destruct (decide (c ∈ columns df)) as [Hc|Hc]; split.
  - intros Heq. inversion Heq. auto.
  - intros [_ ->]. reflexivity.
  - discriminate.
  - tauto.
Qed.

Lemma dropna_Ok (df df' : DataFrame) (c : string) :
  dropna df c = Ok df' <->
  c ∈ columns df /\ columns df' = columns df /\
  rows df' = List.filter (fun r => notna (cell_at r c)) (rows df).
Proof.
  unfold dropna. destruct (decide (c ∈ columns df)) as [Hc|Hc]; split.
  - intros Heq. inversion Heq. simpl. auto.
  - intros (_ & Hcols & Hrows). destruct df'. simpl in *. congruence.
  - discriminate.
  - tauto.
Qed.

Lemma where_eq_Ok (df df' : DataFrame) (c : string) (v : cell) :
  where_eq df c v = Ok df' <->
  c ∈ columns df /\ columns df' = columns df /\
  rows df' = List.filter (fun r => notna v && bool_decide (cell_at r c = v))
                         (rows df).
Proof.
  unfold where_eq. destruct (decide (c ∈ columns df)) as [Hc|Hc]; split.
  - intros Heq. inversion Heq. simpl. auto.
  - intros (_ & Hcols & Hrows). destruct df'. simpl in *. congruence.
  - discriminate.
  - tauto.
Qed.

(** Assigning a column leaves the cells of the other columns as they are. *)
Lemma setitem_rows (df : DataFrame) (c : string) (s : list cell) (i : nat)
    (r : Row) :
  rows (setitem df c s) !! i = Some r <->
  exists r0, rows df !! i = Some r0 /\ r = <[c := default (Num nan) (s !! i)]> r0.
Proof.
  unfold setitem. simpl. rewrite list_lookup_imap.
  destruct (rows df !! i) as [r0|]; simpl; split.
  - intros Heq. inversion Heq. eauto.
  - intros (r1 & Heq & ->). inversion Heq. reflexivity.
  - discriminate.
  - intros (r1 & Heq & _). discriminate.
Qed.

Lemma cell_at_insert (r : Row) (c : string) (v : cell) :
  cell_at (<[c := v]> r) c = v.
Proof. unfold cell_at. rewrite lookup_insert_eq. reflexivity. Qed.

Lemma cell_at_insert_ne (r : Row) (c c' : string) (v : cell) :
  c <> c' -> cell_at (<[c := v]> r) c' = cell_at r c'.
Proof. intros Hne. unfold cell_at. rewrite lookup_insert_ne by exact Hne. reflexivity. Qed.

(** ** Splitting at commas *)

Lemma text_chars (s : string) : text (chars s) = s.
Proof. apply string_of_list_ascii_of_string. Qed.

Lemma chars_text (l : list ascii) : chars (text l) = l.
Proof. apply list_ascii_of_string_of_list_ascii. Qed.

Lemma chars_app (s t : string) : chars (s +:+ t) = chars s ++ chars t.
Proof. induction s as [|a s IH]; simpl; [reflexivity | f_equal; exact IH]. Qed.

Lemma contains_false (c : ascii) (s : string) :
  contains c s = false <-> count_char c s = 0%nat.
Proof.
  unfold contains, count_char. induction (chars s) as [|x l IH]; simpl.
  - tauto.
  - rewrite (Ascii.eqb_sym c x). destruct (Ascii.eqb x c); simpl.
    + split; discriminate.
    + exact IH.
Qed.

Lemma split_chars_length (sep : ascii) (cur l : list ascii) :
  length (split_chars sep cur l)
  = S (length (List.filter (fun x => Ascii.eqb x sep) l)).
Proof.
  revert cur. induction l as [|x l IH]; intros cur; simpl; [reflexivity|].
  destruct (Ascii.eqb x sep); simpl; rewrite IH; reflexivity.
Qed.

Lemma split_length (sep : ascii) (s : string) :
  length (split sep s) = S (count_char sep s).
Proof. unfold split, count_char. rewrite length_map. apply split_chars_length. Qed.

Lemma split_chars_none (sep : ascii) (cur l : list ascii) :
  existsb (Ascii.eqb sep) l = false -> split_chars sep cur l = [rev cur ++ l].
Proof.
  revert cur. induction l as [|x l IH]; intros cur; simpl.
  - rewrite app_nil_r. reflexivity.
  - rewrite (Ascii.eqb_sym sep x). destruct (Ascii.eqb x sep); simpl; [discriminate|].
    intros H. rewrite IH by exact H. simpl. rewrite <- app_assoc. reflexivity.
Qed.

Lemma split_chars_first (sep : ascii) (cur a b : list ascii) :
  existsb (Ascii.eqb sep) a = false ->
  split_chars sep cur (a ++ sep :: b) = (rev cur ++ a) :: split_chars sep [] b.
Proof.
  revert cur. induction a as [|x a IH]; intros cur; simpl.
  - rewrite Ascii.eqb_refl, app_nil_r. reflexivity.
  - rewrite (Ascii.eqb_sym sep x). destruct (Ascii.eqb x sep); simpl; [discriminate|].
    intros H. rewrite IH by exact H. simpl. rewrite <- app_assoc. reflexivity.
Qed.

(** A text with exactly one separator splits into its two sides. *)
Lemma split_pair (sep : ascii) (a b : string) :
  contains sep a = false -> contains sep b = false ->
  split sep (a +:+ String sep b) = [a; b].
Proof.
  unfold contains, split. intros Ha Hb.
  rewrite chars_app. simpl.
  change (list_ascii_of_string b) with (chars b).
  rewrite split_chars_first by exact Ha.
  rewrite split_chars_none by exact Hb. simpl.
  rewrite !text_chars. reflexivity.
Qed.

(** ** The marker of a row *)

Section MarkerFacts.
Variable lib : Biblioteca.

Local Abbreviation py_float := (py_float lib).
Local Abbreviation unpack_floats := (unpack_floats lib).

Local Abbreviation py_str := (py_str lib).
Local Abbreviation popup_of_row := (popup_of_row lib).
Local Abbreviation build_marker := (build_marker lib).
Local Abbreviation marker_of_row := (marker_of_row lib).
Local Abbreviation popup_text := (popup_text lib).

Section OneRow.
Variables (cols : list string) (cores_nucleo : gmap cell string).
Variables (bairro : cell) (row : Row) (color : string).
Hypothesis has_nucleo : NUCLEO_DE_ATUACAO ∈ cols.
Hypothesis has_ocorrencia : OCORRENCIA_CADASTRO ∈ cols.
Hypothesis has_color : cores_nucleo !! bairro = Some color.

Lemma popup_of_row_eq : popup_of_row cols row = Ok (popup_text cols row).
Proof.
  unfold popup_of_row, row_getitem.
  rewrite !decide_True by assumption. reflexivity.
Qed.

Lemma build_marker_eq (s : string) :
  build_marker cols cores_nucleo bairro row s =
  match unpack_floats (split "," s) with
  | Ok (lat, lng) =>
      if isnan lat || isnan lng then Raise ValueError
      else Ok {| location := (lat, lng); popup := popup_text cols row;
                 icon_color := color |}
  | Raise e => Raise e
  end.
Proof.
  unfold build_marker.
  destruct (unpack_floats _) as [[lat lng]|e]; simpl; [|reflexivity].
  rewrite popup_of_row_eq. simpl.
  unfold dict_getitem. rewrite has_color. simpl.
  unfold validate_location. destruct (isnan lat || isnan lng); reflexivity.
Qed.

Lemma unpack_floats_Raise (parts : list string) (e : exn) :
  unpack_floats parts = Raise e -> e = ValueError.
Proof.
  destruct parts as [|a [|b [|c parts]]]; simpl; try congruence.
  destruct (py_float a); simpl; [|congruence].
  destruct (py_float b); simpl; congruence.
Qed.

(** The [try] statement gives a marker or nothing; it raises nothing. *)
Lemma try_marker (s : string) :
  except_ValueError
    (m ← build_marker cols cores_nucleo bairro row s; Ok (Some m)) (Ok None)
  = match unpack_floats (split "," s) with
    | Ok (lat, lng) =>
        if isnan lat || isnan lng then Ok None
        else Ok (Some {| location := (lat, lng); popup := popup_text cols row;
                         icon_color := color |})
    | Raise _ => Ok None
    end.
Proof.
  rewrite build_marker_eq.
  destruct (unpack_floats _) as [[lat lng]|e] eqn:E; simpl.
  - destruct (isnan lat || isnan lng); reflexivity.
  - apply unpack_floats_Raise in E. subst e. reflexivity.
Qed.

Lemma marker_of_row_Str (s : string) :
  GEOLOCATION ∈ cols ->
  cell_at row GEOLOCATION = Str s ->
  marker_of_row cols cores_nucleo bairro row =
  if contains "," s then
    match unpack_floats (split "," s) with
    | Ok (lat, lng) =>
        if isnan lat || isnan lng then Ok None
        else Ok (Some {| location := (lat, lng); popup := popup_text cols row;
                         icon_color := color |})
    | Raise _ => Ok None
    end
  else Ok None.
Proof.
  intros Hc Hg. unfold marker_of_row, row_get.
  rewrite decide_True by exact Hc. rewrite Hg. simpl.
  destruct (contains "," s); [apply try_marker | reflexivity].
Qed.

(** Without a present text in the coordinate field a row is left out
    or the run ends with TypeError. *)
Lemma marker_of_row_other :
  marker_of_row cols cores_nucleo bairro row =
  match row_get cols row GEOLOCATION Some None with
  | None => Ok None
  | Some (Str s) => marker_of_row cols cores_nucleo bairro row
  | Some g => if notna g then Raise TypeError else Ok None
  end.
Proof.
  unfold marker_of_row.
  destruct (row_get cols row GEOLOCATION Some None) as [[s|x|ns|]|];
    reflexivity.
Qed.
End OneRow.
End MarkerFacts.

Section MarkerClaims.
Variable lib : Biblioteca.

Local Abbreviation py_float := (py_float lib).
Local Abbreviation numeric := (numeric lib).
Local Abbreviation unpack_floats := (unpack_floats lib).

Local Abbreviation py_str := (py_str lib).
Local Abbreviation marker_of_row := (marker_of_row lib).
Local Abbreviation popup_text := (popup_text lib).

Lemma numeric_true (p : string) :
  numeric p = true <-> exists x, py_float p = Some x /\ isnan x = false.
Proof.
  unfold numeric. destruct (py_float p) as [x|]; split.
  - intros H. exists x. split; [reflexivity|]. destruct (isnan x); [discriminate|reflexivity].
  - intros (y & Hy & Hn). inversion Hy. subst. rewrite Hn. reflexivity.
  - discriminate.
  - intros (y & Hy & _). discriminate.
Qed.

(** Two parts give a pair only when both are numeric or one is NaN. *)
Lemma unpack_floats_not_numeric (parts : list string) (p : string) :
  p ∈ parts -> numeric p = false ->
  match unpack_floats parts with
  | Ok (lat, lng) => isnan lat || isnan lng = true
  | Raise _ => True
  end.
Proof.
  intros Hin Hp. destruct parts as [|a [|b [|c parts]]]; simpl; try exact I.
  unfold numeric in Hp.
  destruct (py_float a) as [x|] eqn:Ea; simpl; [|exact I].
  destruct (py_float b) as [y|] eqn:Eb; simpl; [|exact I].
  apply elem_of_cons in Hin as [->|Hin].
  - rewrite Ea in Hp. destruct (isnan x); [reflexivity | discriminate].
  - apply list_elem_of_singleton in Hin. subst p. rewrite Eb in Hp.
    destruct (isnan y); [apply orb_true_r | discriminate].
Qed.

(** C1: for a row whose coordinate field is a text, a text with exactly
    one comma and two numeric parts gives a marker at exactly that
    (lat, lng) pair; a text without a comma, with a part that is not
    numeric, or with more than one comma leaves the row out, and no
    exception is raised. *)
Theorem coordinate_parsing (cols : list string) (cores_nucleo : gmap cell string)
    (bairro : cell) (row : Row) (color s : string) :
  NUCLEO_DE_ATUACAO ∈ cols ->
  OCORRENCIA_CADASTRO ∈ cols ->
  GEOLOCATION ∈ cols ->
  cores_nucleo !! bairro = Some color ->
  cell_at row GEOLOCATION = Str s ->
  (forall a b lat lng,
      s = a +:+ "," +:+ b ->
      contains "," a = false -> contains "," b = false ->
      py_float a = Some lat -> py_float b = Some lng ->
      numeric a = true -> numeric b = true ->
      marker_of_row cols cores_nucleo bairro row
      = Ok (Some {| location := (lat, lng); popup := popup_text cols row;
                    icon_color := color |}))
  /\ (contains "," s = false ->
      marker_of_row cols cores_nucleo bairro row = Ok None)
  /\ (forall p, p ∈ split "," s -> numeric p = false ->
      marker_of_row cols cores_nucleo bairro row = Ok None)
  /\ ((2 <= count_char "," s)%nat ->
      marker_of_row cols cores_nucleo bairro row = Ok None).
Proof.
  intros Hn Ho Hg Hc Hs.
  rewrite (marker_of_row_Str _ cols cores_nucleo bairro row color Hn Ho Hc s Hg Hs).
  split_and!.
  - intros a b lat lng -> Ha Hb Ela Elo Hna Hnb.
    change ("," +:+ b) with (String "," b).
    rewrite split_pair by assumption.
    assert (Hcomma : contains "," (a +:+ String "," b) = true).
    { unfold contains. rewrite chars_app, existsb_app. simpl. apply orb_true_r. }
    rewrite Hcomma. simpl. rewrite Ela, Elo. simpl.
    unfold numeric in Hna, Hnb. rewrite Ela in Hna. rewrite Elo in Hnb.
    destruct (isnan lat); [discriminate|]. destruct (isnan lng); [discriminate|].
    reflexivity.
  - intros ->. reflexivity.
  - intros p Hin Hp. destruct (contains "," s); [|reflexivity].
    pose proof (unpack_floats_not_numeric _ _ Hin Hp) as H.
    destruct (unpack_floats (split "," s)) as [[lat lng]|e]; [|reflexivity].
    rewrite H. reflexivity.
  - intros Hcount. destruct (contains "," s); [|reflexivity].
    pose proof (split_length "," s) as Hlen.
    destruct (split "," s) as [|a [|b [|c parts]]]; simpl in Hlen; try lia.
    reflexivity.
Qed.

(** What a built marker says about its row. *)
Lemma marker_of_row_Some (cols : list string) (cores_nucleo : gmap cell string)
    (bairro : cell) (row : Row) (m : Marker) :
  marker_of_row cols cores_nucleo bairro row = Ok (Some m) ->
  exists s a b lat lng,
    GEOLOCATION ∈ cols /\ cell_at row GEOLOCATION = Str s /\
    split "," s = [a; b] /\
    py_float a = Some lat /\ py_float b = Some lng /\
    isnan lat = false /\ isnan lng = false /\
    location m = (lat, lng) /\
    cores_nucleo !! bairro = Some (icon_color m) /\
    NUCLEO_DE_ATUACAO ∈ cols /\ OCORRENCIA_CADASTRO ∈ cols /\
    popup m = popup_text cols row.
Proof.
  unfold marker_of_row, row_get. intros H.
  destruct (decide (GEOLOCATION ∈ cols)) as [Hg|Hg]; [|discriminate].
  destruct (cell_at row GEOLOCATION) as [s|x|ns|] eqn:Hs; simpl in H;
    try discriminate.
  2:{ destruct (negb (isnan x)); discriminate. }
  destruct (contains "," s); [|discriminate].
  destruct (build_marker _ _ _ _ _ _) as [m'|e] eqn:E; simpl in H.
  2:{ destruct e; discriminate. }
  inversion H; subst m'; clear H.
  unfold build_marker in E.
  apply bind_Ok in E as ([lat lng] & Hu & E).
  apply bind_Ok in E as (pop & Hp & E).
  apply bind_Ok in E as (col & Hc & E).
  apply bind_Ok in E as (loc & Hv & E).
  inversion E; subst m; clear E. simpl.
  unfold validate_location in Hv.
  destruct (isnan lat) eqn:Hla; [discriminate|].
  destruct (isnan lng) eqn:Hlo; [discriminate|].
  simpl in Hv. inversion Hv; subst loc; clear Hv.
  unfold dict_getitem in Hc.
  destruct (cores_nucleo !! bairro) as [c|] eqn:Hd; [|discriminate].
  inversion Hc; subst c; clear Hc.
  unfold popup_of_row, row_getitem in Hp.
  destruct (decide (NUCLEO_DE_ATUACAO ∈ cols)) as [Hn|]; [|discriminate].
  destruct (decide (OCORRENCIA_CADASTRO ∈ cols)) as [Ho|]; [|discriminate].
  simpl in Hp. inversion Hp; subst pop; clear Hp.
  destruct (split "," s) as [|a [|b [|c parts]]] eqn:Hsplit; simpl in Hu;
    try discriminate.
  destruct (py_float a) as [x|] eqn:Ea; [|discriminate].
  destruct (py_float b) as [y|] eqn:Eb; [|discriminate].
  simpl in Hu. inversion Hu; subst x y; clear Hu.
  exists s, a, b, lat, lng. split_and!; auto.
Qed.
End MarkerClaims.

(** ** Assigning columns *)

Lemma setitem_columns (df : DataFrame) (c c' : string) (s : list cell) :
  c' ∈ columns (setitem df c s) <-> c' = c \/ c' ∈ columns df.
Proof.
  unfold setitem. simpl. destruct (decide (c ∈ columns df)) as [Hc|Hc].
  - split; [auto|]. intros [->|H]; assumption.
  - rewrite elem_of_app, list_elem_of_singleton. tauto.
Qed.

Lemma setitem_column_ne (df : DataFrame) (c c' : string) (s : list cell) :
  c <> c' ->
  map (fun r => cell_at r c') (rows (setitem df c s))
  = map (fun r => cell_at r c') (rows df).
Proof.
  intros Hne. unfold setitem. simpl. apply list_eq. intros i.
  rewrite !list_lookup_fmap, list_lookup_imap.
  destruct (rows df !! i) as [r|]; simpl; [|reflexivity].
  rewrite cell_at_insert_ne by exact Hne. reflexivity.
Qed.

Lemma setitem_column_eq (df : DataFrame) (c : string) (s : list cell) :
  map (fun r => cell_at r c) (rows (setitem df c s))
  = imap (fun i _ => default (Num nan) (s !! i)) (rows df).
Proof.
  unfold setitem. simpl. apply list_eq. intros i.
  rewrite list_lookup_fmap, !list_lookup_imap.
  destruct (rows df !! i) as [r|]; simpl; [|reflexivity].
  rewrite cell_at_insert. reflexivity.
Qed.

Lemma setitem_rows_length (df : DataFrame) (c : string) (s : list cell) :
  length (rows (setitem df c s)) = length (rows df).
Proof. unfold setitem. simpl. apply length_imap. Qed.

(** The rows after an assignment are the rows before it, each with the
    assigned column changed. *)
Lemma elem_of_setitem_rows (df : DataFrame) (c : string) (s : list cell) (r : Row) :
  r ∈ rows (setitem df c s) ->
  exists r0 v, r0 ∈ rows df /\ r = <[c := v]> r0.
Proof.
  intros Hin. apply list_elem_of_lookup in Hin as [i Hi].
  apply setitem_rows in Hi as (r0 & Hr0 & ->).
  exists r0, (default (Num nan) (s !! i)). split; [|reflexivity].
  apply list_elem_of_lookup. eauto.
Qed.

Lemma setitem_rows_elem_of (df : DataFrame) (c : string) (s : list cell) (r0 : Row) :
  r0 ∈ rows df ->
  exists v, <[c := v]> r0 ∈ rows (setitem df c s).
Proof.
  intros Hin. apply list_elem_of_lookup in Hin as [i Hi].
  exists (default (Num nan) (s !! i)).
  apply list_elem_of_lookup. exists i. apply setitem_rows. eauto.
Qed.

(** ** The colour table *)

Lemma cores_length : length cores = 8%nat.
Proof. reflexivity. Qed.

Lemma cores_nucleo_snoc (l : list cell) (x : cell) :
  cores_nucleo (l ++ [x])
  = <[x := cores !!! (length l mod length cores)%nat]> (cores_nucleo l).
Proof.
  unfold cores_nucleo. rewrite imap_app, foldl_app. simpl.
  rewrite Nat.add_0_r. reflexivity.
Qed.

Lemma cores_nucleo_lookup (nucleos : list cell) (i : nat) (c : cell) :
  NoDup nucleos ->
  nucleos !! i = Some c ->
  cores_nucleo nucleos !! c = Some (cores !!! (i mod 8)%nat).
Proof.
  revert i c. induction nucleos as [|x l IH] using rev_ind; intros i c Hnd Hi.
  - discriminate.
  - rewrite cores_nucleo_snoc. apply NoDup_app in Hnd as (Hl & Hx & _).
    destruct (decide (i < length l)%nat) as [Hlt|Hge].
    + rewrite lookup_app_l in Hi by exact Hlt.
      rewrite lookup_insert_ne.
      * apply IH; assumption.
      * intros ->. apply (Hx c); [eapply list_elem_of_lookup_2, Hi | left].
    + rewrite lookup_app_r in Hi by lia.
      destruct (i - length l)%nat as [|n] eqn:En; [|discriminate].
      inversion Hi; subst x. rewrite lookup_insert_eq.
      replace i with (length l) by lia. reflexivity.
Qed.

Lemma cores_nucleo_None (nucleos : list cell) (c : cell) :
  c ∉ nucleos -> cores_nucleo nucleos !! c = None.
Proof.
  induction nucleos as [|x l IH] using rev_ind; intros Hc.
  - reflexivity.
  - rewrite cores_nucleo_snoc. rewrite elem_of_app, list_elem_of_singleton in Hc.
    rewrite lookup_insert_ne by (intros ->; tauto). apply IH. tauto.
Qed.

(** ** The run *)

Lemma DATA_ne_NUCLEO : DATA_CADASTRO <> NUCLEO_DE_ATUACAO.
Proof. discriminate. Qed.
Lemma DATA_ne_OCORRENCIA : DATA_CADASTRO <> OCORRENCIA_CADASTRO.
Proof. discriminate. Qed.
Lemma DATA_ne_GEOLOCATION : DATA_CADASTRO <> GEOLOCATION.
Proof. discriminate. Qed.
Lemma DATA_ne_FUNCIONARIO : DATA_CADASTRO <> FUNCIONARIO_CADASTRO.
Proof. discriminate. Qed.
Lemma ESGOTO_ne_AGUA : REDE_ESGOTO <> REDE_AGUA.
Proof. discriminate. Qed.

Section MainFacts.
Variable lib : Biblioteca.

Local Abbreviation main := (main lib).
Local Abbreviation converter_datas := (converter_datas lib).
Local Abbreviation layer_of := (layer_of lib).
Local Abbreviation marker_of_row := (marker_of_row lib).
Local Abbreviation converter_coluna_numerica :=
  (converter_coluna_numerica lib).

(** The stages of a run that ends normally. *)
Lemma main_Ok (df_ocorrencias df_area : DataFrame) (out : Output) :
  main df_ocorrencias df_area = Ok out ->
  exists df1 df2 ks,
    dropna df_ocorrencias NUCLEO_DE_ATUACAO = Ok df1 /\
    getitem df1 OCORRENCIA_CADASTRO
      = Ok (map (fun r => cell_at r OCORRENCIA_CADASTRO) (rows df1)) /\
    total_ocorrencias out
      = count (map (fun r => cell_at r OCORRENCIA_CADASTRO) (rows df1)) /\
    resumir_nucleo df1 = Ok (resumo_nucleo out) /\
    converter_datas df1 = Ok df2 /\
    resumir_data df2 = Ok (resumo_data out) /\
    getitem df2 NUCLEO_DE_ATUACAO = Ok ks /\
    mapM (layer_of df2 (cores_nucleo (unique ks))) (unique ks) = Ok (layers out).
Proof.
  unfold main. destruct (empty df_ocorrencias || empty df_area); [discriminate|].
  intros H.
  apply bind_Ok in H as (df1 & Hdrop & H).
  apply bind_Ok in H as (cadastro & Hcad & H).
  apply bind_Ok in H as (caixa & _ & H).
  apply bind_Ok in H as (ligacao & _ & H).
  apply bind_Ok in H as (esgoto & _ & H). cbv zeta in H.
  apply bind_Ok in H as (agua & _ & H).
  apply bind_Ok in H as (nucleo & Hnuc & H).
  apply bind_Ok in H as (df2 & Hconv & H).
  apply bind_Ok in H as (data & Hdata & H).
  apply bind_Ok in H as (u1 & _ & H).
  apply bind_Ok in H as (fgs & Hfgs & H).
  apply bind_Ok in H as (u2 & _ & H).
  inversion H; subst out; clear H. simpl.
  unfold camadas in Hfgs. apply bind_Ok in Hfgs as (ks & Hks & Hfgs).
  exists df1, df2, ks.
  pose proof Hcad as Hcad'. apply getitem_Ok in Hcad' as [_ ->].
  split_and!; auto.
Qed.
End MainFacts.

(** ** The category summary *)

Lemma key_of_Some (c k : cell) : key_of c = Some k <-> c = k /\ notna k = true.
Proof.
  unfold key_of. destruct (notna c) eqn:E; split.
  - intros H. inversion H. subst. auto.
  - intros [-> _]. reflexivity.
  - discriminate.
  - intros [-> H]. congruence.
Qed.

Lemma resumir_nucleo_Ok (df : DataFrame) (s : list (cell * nat)) :
  resumir_nucleo df = Ok s ->
  s = groupby_count cell_leb (map nucleo_kv (rows df)).
Proof.
  unfold resumir_nucleo. intros H.
  apply bind_Ok in H as (ks & Hks & H). apply bind_Ok in H as (vs & Hvs & H).
  apply getitem_Ok in Hks as [_ ->]. apply getitem_Ok in Hvs as [_ ->].
  destruct (comparaveis _); [|discriminate].
  inversion H. rewrite !map_map, zip_map_same. reflexivity.
Qed.

(** Whether labels can be sorted depends on which labels there are. *)
Lemma existsb_elem_of {A} (p : A -> bool) (l : list A) :
  existsb p l = true <-> exists x, x ∈ l /\ p x = true.
Proof.
  rewrite existsb_exists. split; intros (x & Hx & Hp); exists x;
    (split; [apply list_elem_of_In, Hx | exact Hp]).
Qed.

Lemma existsb_same {A} (p : A -> bool) (l l' : list A) :
  (forall x, x ∈ l <-> x ∈ l') -> existsb p l = existsb p l'.
Proof.
  intros H. apply eq_true_iff_eq. rewrite !existsb_elem_of.
  split; intros (x & Hx & Hp); exists x; (split; [apply H, Hx | exact Hp]).
Qed.

Lemma comparaveis_same (l l' : list cell) :
  (forall x, x ∈ l <-> x ∈ l') -> comparaveis l = comparaveis l'.
Proof.
  intros H. unfold comparaveis.
  rewrite (existsb_same is_Num l l' H), (existsb_same is_Timestamp l l' H).
  reflexivity.
Qed.

Lemma comparaveis_false (l : list cell) (x : float64) (n : Z) :
  Num x ∈ l -> Timestamp n ∈ l -> comparaveis l = false.
Proof.
  intros Hx Hn. unfold comparaveis.
  assert (H1 : existsb is_Num l = true) by (apply existsb_elem_of; eauto).
  assert (H2 : existsb is_Timestamp l = true) by (apply existsb_elem_of; eauto).
  rewrite H1, H2. reflexivity.
Qed.

(** The labels that the grouping of a run sorts are the categories of
    the table. *)
Lemma chaves_first_seen (df : DataFrame) (k : cell) :
  k ∈ omap key_of (map (fun r => cell_at r NUCLEO_DE_ATUACAO) (com_nucleo df))
  <-> k ∈ first_seen df.
Proof.
  unfold first_seen. rewrite elem_of_unique, list_elem_of_omap. split.
  - intros (c & Hc & Hk). apply key_of_Some in Hk as [-> _]. exact Hc.
  - intros Hk. exists k. split; [exact Hk|]. apply key_of_Some.
    split; [reflexivity|]. unfold com_nucleo in Hk.
    apply list_elem_of_fmap in Hk as (r & -> & Hr).
    apply list_elem_of_In, filter_In in Hr as [_ Hr]. exact Hr.
Qed.

Lemma resumir_nucleo_comparaveis (df df1 : DataFrame) (s : list (cell * nat)) :
  dropna df NUCLEO_DE_ATUACAO = Ok df1 ->
  resumir_nucleo df1 = Ok s ->
  nucleos_comparaveis df = true.
Proof.
  intros Hd Hs. apply dropna_Ok in Hd as (_ & _ & Hrows).
  unfold resumir_nucleo in Hs.
  apply bind_Ok in Hs as (ks & Hks & Hs). apply bind_Ok in Hs as (vs & Hvs & Hs).
  apply getitem_Ok in Hks as [_ ->]. rewrite Hrows in Hs.
  fold (com_nucleo df) in Hs.
  destruct (comparaveis _) eqn:E; [|discriminate].
  unfold nucleos_comparaveis. rewrite <- E. symmetry.
  apply comparaveis_same, chaves_first_seen.
Qed.

Lemma category_summary (df df1 : DataFrame) (s : list (cell * nat)) :
  dropna df NUCLEO_DE_ATUACAO = Ok df1 ->
  resumir_nucleo df1 = Ok s ->
  s = groupby_count cell_leb (map nucleo_kv (com_nucleo df)).
Proof.
  intros Hd Hs. apply dropna_Ok in Hd as (_ & _ & Hrows).
  apply resumir_nucleo_Ok in Hs. unfold com_nucleo. rewrite <- Hrows. exact Hs.
Qed.

Lemma category_keys (df : DataFrame) (k : cell) :
  Some k ∈ map fst (map nucleo_kv (com_nucleo df)) <->
  notna k = true /\ exists r, r ∈ rows df /\ cell_at r NUCLEO_DE_ATUACAO = k.
Proof.
  rewrite map_map. simpl. rewrite list_elem_of_fmap. unfold com_nucleo. split.
  - intros (r & Hk & Hr). symmetry in Hk. apply key_of_Some in Hk as [Hk Hn].
    apply list_elem_of_In, filter_In in Hr as [Hr _].
    split; [exact Hn|]. exists r. split; [apply list_elem_of_In, Hr | exact Hk].
  - intros (Hn & r & Hr & Hk). exists r. split.
    + symmetry. apply key_of_Some. auto.
    + apply list_elem_of_In, filter_In. split; [apply list_elem_of_In, Hr|].
      rewrite Hk. exact Hn.
Qed.

Lemma category_count (df : DataFrame) (k : cell) :
  notna k = true ->
  group_count k (map nucleo_kv (com_nucleo df))
  = length (List.filter
              (fun r => bool_decide (cell_at r NUCLEO_DE_ATUACAO = k)
                        && notna (cell_at r OCORRENCIA_CADASTRO)) (rows df)).
Proof.
  intros Hn. unfold group_count, com_nucleo.
  rewrite filter_map_length, filter_filter_length.
  apply filter_ext_length. intros r _. simpl.
  destruct (decide (cell_at r NUCLEO_DE_ATUACAO = k)) as [Hk|Hk].
  - rewrite Hk, Hn. simpl.
    rewrite !bool_decide_true; [reflexivity | reflexivity | apply key_of_Some; auto].
  - rewrite (bool_decide_false (_ = k)) by exact Hk.
    rewrite bool_decide_false; [apply andb_false_r|].
    intros H. apply key_of_Some in H as [H _]. contradiction.
Qed.

Lemma category_total (df : DataFrame) :
  length (List.filter (fun p => bool_decide (is_Some p.1) && p.2)
                      (map nucleo_kv (com_nucleo df)))
  = length (List.filter
              (fun r => notna (cell_at r NUCLEO_DE_ATUACAO)
                        && notna (cell_at r OCORRENCIA_CADASTRO)) (rows df)).
Proof.
  unfold com_nucleo. rewrite filter_map_length, filter_filter_length.
  apply filter_ext_length. intros r _. simpl. unfold key_of.
  destruct (notna (cell_at r NUCLEO_DE_ATUACAO)); [|reflexivity].
  rewrite bool_decide_true by eauto. reflexivity.
Qed.

(** In a sorted list an earlier label is below a later one. *)
Lemma sorted_lookup (keys : list cell) (i j : nat) (a b : cell) :
  StronglySorted (le cell_leb) keys ->
  (i < j)%nat -> keys !! i = Some a -> keys !! j = Some b ->
  cell_leb a b = true.
Proof.
  intros Hs. revert i j. induction Hs as [|k l Hs IH Hall]; intros i j Hij Hi Hj.
  - discriminate.
  - destruct j as [|j]; [lia|]. destruct i as [|i]; simpl in *.
    + inversion Hi; subst k. rewrite Forall_forall in Hall.
      apply (Hall b). eapply list_elem_of_lookup_2, Hj.
    + apply (IH i j); [lia | assumption | assumption].
Qed.

Lemma lookup_ne (keys : list cell) (i j : nat) (a b : cell) :
  NoDup keys -> (i < j)%nat -> keys !! i = Some a -> keys !! j = Some b ->
  a <> b.
Proof.
  intros Hnd Hij Hi Hj ->. assert (i = j); [|lia].
  eapply NoDup_lookup; eassumption.
Qed.

(** Distinct text labels in ascending order are strictly ascending. *)
Lemma sorted_text_keys (keys : list cell) (i j : nat) (a b : string) :
  StronglySorted (le cell_leb) keys -> NoDup keys ->
  (i < j)%nat -> keys !! i = Some (Str a) -> keys !! j = Some (Str b) ->
  String.ltb a b = true.
Proof.
  intros Hs Hnd Hij Hi Hj. apply string_ltb_iff. split.
  - apply (sorted_lookup keys i j (Str a) (Str b)); assumption.
  - intros ->. eapply lookup_ne; eauto.
Qed.

(** So are distinct numbers, but for the two zeros. *)
Lemma sorted_num_keys (keys : list cell) (i j : nat) (x y : float64) :
  StronglySorted (le cell_leb) keys -> NoDup keys ->
  (forall k, k ∈ keys -> notna k = true) ->
  (i < j)%nat -> keys !! i = Some (Num x) -> keys !! j = Some (Num y) ->
  Float.leb x y = true /\
  (Float.ltb x y = true \/ exists s t, x = S754_zero s /\ y = S754_zero t).
Proof.
  intros Hs Hnd Hna Hij Hi Hj.
  assert (Hle : Float.leb x y = true)
    by apply (sorted_lookup keys i j (Num x) (Num y) Hs Hij Hi Hj).
  split; [exact Hle|]. apply float_leb_ltb; [exact Hle| | |].
  - intros ->. eapply lookup_ne; eauto.
  - apply list_elem_of_lookup_2, Hna in Hi. simpl in Hi.
    destruct (isnan x); [discriminate | reflexivity].
  - apply list_elem_of_lookup_2, Hna in Hj. simpl in Hj.
    destruct (isnan y); [discriminate | reflexivity].
Qed.

(** And distinct timestamps. *)
Lemma sorted_timestamp_keys (keys : list cell) (i j : nat) (m n : Z) :
  StronglySorted (le cell_leb) keys -> NoDup keys ->
  (i < j)%nat -> keys !! i = Some (Timestamp m) -> keys !! j = Some (Timestamp n) ->
  m < n.
Proof.
  intros Hs Hnd Hij Hi Hj.
  assert (Hle := sorted_lookup keys i j _ _ Hs Hij Hi Hj). simpl in Hle.
  assert (Timestamp m <> Timestamp n) by (eapply lookup_ne; eauto).
  assert (m <> n) by congruence. lia.
Qed.

(** After a text label come only text labels. *)
Lemma sorted_after_text (keys : list cell) (i j : nat) (a : string) (b : cell) :
  StronglySorted (le cell_leb) keys ->
  (forall k, k ∈ keys -> notna k = true) ->
  (i < j)%nat -> keys !! i = Some (Str a) -> keys !! j = Some b ->
  is_Str b = true.
Proof.
  intros Hs Hna Hij Hi Hj.
  assert (Hle := sorted_lookup keys i j _ _ Hs Hij Hi Hj).
  apply list_elem_of_lookup_2, Hna in Hj.
  destruct b; simpl in *; congruence.
Qed.

Lemma elem_of_first_seen (df : DataFrame) (k : cell) :
  k ∈ first_seen df <->
  notna k = true /\ exists r, r ∈ rows df /\ cell_at r NUCLEO_DE_ATUACAO = k.
Proof.
  unfold first_seen, com_nucleo. rewrite elem_of_unique, list_elem_of_fmap. split.
  - intros (r & -> & Hr). apply list_elem_of_In, filter_In in Hr as [Hr Hn].
    split; [exact Hn|]. exists r. split; [apply list_elem_of_In, Hr | reflexivity].
  - intros (Hn & r & Hr & <-). exists r. split; [reflexivity|].
    apply list_elem_of_In, filter_In. split; [apply list_elem_of_In, Hr | exact Hn].
Qed.

Section AggregateClaims.
Variable lib : Biblioteca.

Local Abbreviation main := (main lib).

Lemma main_resumo_nucleo (df_ocorrencias df_area : DataFrame) (out : Output) :
  main df_ocorrencias df_area = Ok out ->
  resumo_nucleo out
  = groupby_count cell_leb (map nucleo_kv (com_nucleo df_ocorrencias)).
Proof.
  intros H. apply main_Ok in H as (df1 & df2 & ks & Hd & _ & _ & Hs & _).
  eapply category_summary; eassumption.
Qed.

Lemma main_comparaveis (df_ocorrencias df_area : DataFrame) (out : Output) :
  main df_ocorrencias df_area = Ok out ->
  nucleos_comparaveis df_ocorrencias = true.
Proof.
  intros H. apply main_Ok in H as (df1 & df2 & ks & Hd & _ & _ & Hs & _).
  eapply resumir_nucleo_comparaveis; eassumption.
Qed.

(** C2, as the code has it: the keys of CategorySummary are the distinct
    categories of the table in ascending order, not in first-seen order:
    texts in strictly ascending order of their text, numbers in ascending
    order of their value, timestamps in ascending order of their time,
    and numbers and timestamps, which never come together, before the
    texts. *)
Theorem resumo_nucleo_keys_ascending (df_ocorrencias df_area : DataFrame)
    (out : Output) :
  main df_ocorrencias df_area = Ok out ->
  let keys := map fst (resumo_nucleo out) in
  NoDup keys
  /\ (forall k, k ∈ keys <-> k ∈ first_seen df_ocorrencias)
  /\ StronglySorted (le cell_leb) keys
  /\ (forall i j a b, (i < j)%nat ->
        keys !! i = Some (Str a) -> keys !! j = Some (Str b) ->
        String.ltb a b = true)
  /\ (forall i j x y, (i < j)%nat ->
        keys !! i = Some (Num x) -> keys !! j = Some (Num y) ->
        Float.leb x y = true /\
        (Float.ltb x y = true \/
         exists s t, x = S754_zero s /\ y = S754_zero t))
  /\ (forall i j m n, (i < j)%nat ->
        keys !! i = Some (Timestamp m) -> keys !! j = Some (Timestamp n) ->
        m < n)
  /\ (forall i j a b, (i < j)%nat ->
        keys !! i = Some (Str a) -> keys !! j = Some b -> is_Str b = true)
  /\ (forall x n, Num x ∈ keys -> Timestamp n ∈ keys -> False).
Proof.
  intros H keys. subst keys.
  assert (Hcmp := main_comparaveis _ _ _ H).
  rewrite (main_resumo_nucleo _ _ _ H).
  rewrite groupby_count_keys.
  assert (Hnd := NoDup_group_keys cell_leb
                   (map fst (map nucleo_kv (com_nucleo df_ocorrencias)))).
  assert (Hs := group_keys_sorted cell_leb
                   (map fst (map nucleo_kv (com_nucleo df_ocorrencias)))).
  assert (Hin : forall k,
            k ∈ group_keys cell_leb
                  (map fst (map nucleo_kv (com_nucleo df_ocorrencias)))
            <-> k ∈ first_seen df_ocorrencias).
  { intros k. rewrite elem_of_group_keys, category_keys, elem_of_first_seen.
    reflexivity. }
  assert (Hna : forall k,
            k ∈ group_keys cell_leb
                  (map fst (map nucleo_kv (com_nucleo df_ocorrencias)))
            -> notna k = true).
  { intros k Hk. apply Hin, elem_of_first_seen in Hk. tauto. }
  split_and!; [exact Hnd|exact Hin|exact Hs| | | | |].
  - intros i j a b. apply sorted_text_keys; assumption.
  - intros i j x y. apply sorted_num_keys; assumption.
  - intros i j m n. apply sorted_timestamp_keys; assumption.
  - intros i j a b. apply sorted_after_text; assumption.
  - intros x n Hx Hn. apply Hin in Hx, Hn.
    unfold nucleos_comparaveis in Hcmp.
    rewrite (comparaveis_false _ x n Hx Hn) in Hcmp. discriminate.
Qed.

(** C3, as the code has it: the values of CategorySummary add up to the
    number of occurrence rows that have both a category and a primary
    identifying field. *)
Theorem resumo_nucleo_total (df_ocorrencias df_area : DataFrame) (out : Output) :
  main df_ocorrencias df_area = Ok out ->
  sum_list (map snd (resumo_nucleo out))
  = length (List.filter
              (fun r => notna (cell_at r NUCLEO_DE_ATUACAO)
                        && notna (cell_at r OCORRENCIA_CADASTRO))
              (rows df_ocorrencias)).
Proof.
  intros H. rewrite (main_resumo_nucleo _ _ _ H).
  rewrite groupby_count_total. apply category_total.
Qed.

(** C4: each count of CategorySummary is the number of occurrence rows
    of that category whose primary identifying field is present. *)
Theorem resumo_nucleo_count (df_ocorrencias df_area : DataFrame) (out : Output)
    (k : cell) (n : nat) :
  main df_ocorrencias df_area = Ok out ->
  (k, n) ∈ resumo_nucleo out ->
  n = length (List.filter
                (fun r => bool_decide (cell_at r NUCLEO_DE_ATUACAO = k)
                          && notna (cell_at r OCORRENCIA_CADASTRO))
                (rows df_ocorrencias)).
Proof.
  intros H Hin. rewrite (main_resumo_nucleo _ _ _ H) in Hin.
  apply elem_of_groupby_count in Hin as [Hk ->].
  apply category_keys in Hk as [Hn _]. apply category_count, Hn.
Qed.
End AggregateClaims.

(** ** The date summary *)

Lemma strictly_sorted (l : list Z) :
  StronglySorted (le Z.leb) l -> NoDup l -> StronglySorted Z.lt l.
Proof.
  induction 1 as [|x l Hs IH Hall]; intros Hnd; constructor.
  - apply IH. apply NoDup_cons in Hnd. tauto.
  - apply NoDup_cons in Hnd as [Hx _]. rewrite Forall_forall in Hall |- *.
    intros y Hy. specialize (Hall y Hy). unfold le in Hall.
    assert (x <> y) by (intros ->; contradiction). lia.
Qed.

Lemma group_count_size {K} `{EqDecision K} (k : K) (keys : list (option K)) :
  group_count k (map (fun o => (o, true)) keys)
  = length (List.filter (fun o => bool_decide (o = Some k)) keys).
Proof.
  unfold group_count. rewrite filter_map_length. apply filter_ext_length.
  intros o _. simpl. apply andb_true_r.
Qed.

Section DateClaims.
Variable lib : Biblioteca.

Local Abbreviation main := (main lib).
Local Abbreviation converter_datas := (converter_datas lib).
Local Abbreviation datas := (datas lib).

Lemma converter_datas_Ok (df df' : DataFrame) :
  converter_datas df = Ok df' ->
  DATA_CADASTRO ∈ columns df /\
  df' = setitem df DATA_CADASTRO
          (let s := map (fun r => cell_at r DATA_CADASTRO) (rows df) in
           imap (fun i _ => timestamp_cell (to_datetime lib s i)) s).
Proof.
  unfold converter_datas. intros H. apply bind_Ok in H as (s & Hs & H).
  apply bind_Ok in H as (u & _ & H).
  apply getitem_Ok in Hs as [Hc ->]. inversion H. auto.
Qed.

Lemma converter_datas_column (df df' : DataFrame) :
  converter_datas df = Ok df' ->
  map dt_date (map (fun r => cell_at r DATA_CADASTRO) (rows df'))
  = (let s := map (fun r => cell_at r DATA_CADASTRO) (rows df) in
     imap (fun i _ => option_map day (to_datetime lib s i)) s).
Proof.
  intros H. apply converter_datas_Ok in H as [_ ->]. cbv zeta.
  rewrite setitem_column_eq. apply list_eq. intros i.
  rewrite list_lookup_fmap, !list_lookup_imap, !list_lookup_fmap.
  destruct (rows df !! i) as [r|] eqn:Hr; simpl; [|reflexivity].
  destruct (to_datetime _ _ i); reflexivity.
Qed.

Lemma main_resumo_data (df_ocorrencias df_area : DataFrame) (out : Output) :
  main df_ocorrencias df_area = Ok out ->
  resumo_data out = groupby_size Z.leb (datas df_ocorrencias).
Proof.
  intros H. apply main_Ok in H as (df1 & df2 & ks & Hd & _ & _ & _ & Hc & Hs & _).
  unfold resumir_data in Hs. apply bind_Ok in Hs as (s & Hs & Heq).
  apply getitem_Ok in Hs as [_ ->]. inversion Heq.
  rewrite (converter_datas_column _ _ Hc).
  apply dropna_Ok in Hd as (_ & _ & ->). reflexivity.
Qed.

(** C9: DateSummary maps each parsed calendar date to the number of
    rows with that date, its keys ascend chronologically, rows whose
    date does not parse are left out of it, and they still count in the
    other aggregates. *)
Theorem resumo_data_by_date (df_ocorrencias df_area : DataFrame) (out : Output) :
  main df_ocorrencias df_area = Ok out ->
  StronglySorted Z.lt (map fst (resumo_data out))
  /\ (forall d n, (d, n) ∈ resumo_data out <->
        Some d ∈ datas df_ocorrencias /\
        n = length (List.filter (fun o => bool_decide (o = Some d))
                                (datas df_ocorrencias)))
  /\ sum_list (map snd (resumo_data out))
     = length (List.filter (fun o => bool_decide (is_Some o))
                           (datas df_ocorrencias))
  /\ length (datas df_ocorrencias) = length (com_nucleo df_ocorrencias)
  /\ total_ocorrencias out
     = length (List.filter (fun r => notna (cell_at r OCORRENCIA_CADASTRO))
                           (com_nucleo df_ocorrencias)).
Proof.
  intros H. rewrite (main_resumo_data _ _ _ H). unfold groupby_size.
  split_and!.
  - rewrite groupby_count_keys. apply strictly_sorted.
    + apply group_keys_sorted; apply _.
    + apply NoDup_group_keys.
  - intros d n. rewrite elem_of_groupby_count, map_map. simpl.
    rewrite map_id, group_count_size. reflexivity.
  - rewrite groupby_count_total, filter_map_length.
    apply filter_ext_length. intros o _. simpl. apply andb_true_r.
  - unfold datas, coluna_datas. cbv zeta. rewrite length_imap, length_map.
    reflexivity.
  - apply main_Ok in H as (df1 & df2 & ks & Hd & _ & -> & _).
    apply dropna_Ok in Hd as (_ & _ & ->).
    unfold count. rewrite filter_map_length. reflexivity.
Qed.
End DateClaims.

(** ** The layers *)

Section LayerFacts.
Variable lib : Biblioteca.

Local Abbreviation py_float := (py_float lib).

Local Abbreviation main := (main lib).
Local Abbreviation converter_datas := (converter_datas lib).
Local Abbreviation layer_of := (layer_of lib).
Local Abbreviation marker_of_row := (marker_of_row lib).
Local Abbreviation py_str := (py_str lib).
Local Abbreviation popup_text := (popup_text lib).

Lemma layer_of_Ok (df : DataFrame) (dict : gmap cell string) (k : cell)
    (L : Layer) :
  layer_of df dict k = Ok L ->
  name L = k /\
  forall m, m ∈ markers L ->
    exists row, row ∈ rows df /\ cell_at row NUCLEO_DE_ATUACAO = k /\
                marker_of_row (columns df) dict k row = Ok (Some m).
Proof.
  unfold layer_of. intros H.
  apply bind_Ok in H as (dfn & Hw & H). apply bind_Ok in H as (ms & Hms & H).
  inversion H; subst L; clear H. simpl. split; [reflexivity|].
  apply where_eq_Ok in Hw as (_ & Hcols & Hrows). rewrite Hcols, Hrows in Hms.
  apply mapM_Ok in Hms. intros m Hm.
  apply list_elem_of_omap in Hm as (o & Ho & Hid). simpl in Hid. subst o.
  apply list_elem_of_lookup in Ho as [i Hi].
  destruct (Forall2_lookup_r _ _ _ _ _ Hms Hi) as (row & Hrow & Hmk).
  exists row. apply list_elem_of_lookup_2, list_elem_of_In, filter_In in Hrow
    as [Hin Hk].
  apply andb_true_iff in Hk as [_ Hk]. apply bool_decide_eq_true in Hk.
  split_and!; [apply list_elem_of_In, Hin | exact Hk | exact Hmk].
Qed.

(** The frame on which the layers are built: the rows with a category,
    with their registration date replaced. *)
Lemma main_frames (df_ocorrencias df_area : DataFrame) (out : Output) :
  main df_ocorrencias df_area = Ok out ->
  exists df2,
    mapM (layer_of df2 (cores_nucleo (first_seen df_ocorrencias)))
         (first_seen df_ocorrencias) = Ok (layers out) /\
    (forall c, c ∈ columns df2 <-> c ∈ columns df_ocorrencias) /\
    (forall row, row ∈ rows df2 ->
       exists r v, r ∈ rows df_ocorrencias /\ row = <[DATA_CADASTRO := v]> r).
Proof.
  intros H. apply main_Ok in H
    as (df1 & df2 & ks & Hd & _ & _ & _ & Hc & _ & Hks & Hl).
  apply dropna_Ok in Hd as (_ & Hcols & Hrows).
  apply converter_datas_Ok in Hc as [Hdata ->].
  apply getitem_Ok in Hks as [_ ->].
  rewrite setitem_column_ne in Hl by exact DATA_ne_NUCLEO.
  rewrite Hrows in Hl. fold (com_nucleo df_ocorrencias) in Hl.
  fold (first_seen df_ocorrencias) in Hl.
  eexists. split; [exact Hl|]. split.
  - intros c. rewrite setitem_columns, Hcols. rewrite Hcols in Hdata.
    split; [intros [->|Hin]; assumption | auto].
  - intros row Hrow. apply elem_of_setitem_rows in Hrow as (r & v & Hr & ->).
    exists r, v. split; [|reflexivity]. rewrite Hrows in Hr.
    apply list_elem_of_In, filter_In in Hr as [Hr _]. apply list_elem_of_In, Hr.
Qed.

Lemma popup_text_insert (cols cols' : list string) (r : Row) (v : cell) :
  (forall c, c ∈ cols' <-> c ∈ cols) ->
  popup_text cols' (<[DATA_CADASTRO := v]> r) = popup_text cols r.
Proof.
  intros Hcols. unfold popup_text, row_get.
  rewrite !cell_at_insert_ne
    by first [exact DATA_ne_NUCLEO | exact DATA_ne_OCORRENCIA
             | exact DATA_ne_FUNCIONARIO].
  destruct (decide (FUNCIONARIO_CADASTRO ∈ cols')) as [Hf|Hf];
    destruct (decide (FUNCIONARIO_CADASTRO ∈ cols)) as [Hf'|Hf'];
    try reflexivity; exfalso; apply Hcols in Hf || apply Hcols in Hf';
    contradiction.
Qed.

(** The layers of a run: one per category in first-seen order, and each
    marker comes from a row of that category whose coordinate text has
    two parts that [float()] reads as numbers. *)
Lemma main_layers (df_ocorrencias df_area : DataFrame) (out : Output) :
  main df_ocorrencias df_area = Ok out ->
  Forall2
    (fun k L =>
       name L = k /\
       forall m, m ∈ markers L ->
         exists r s a b lat lng,
           r ∈ rows df_ocorrencias /\
           cell_at r NUCLEO_DE_ATUACAO = k /\
           cell_at r GEOLOCATION = Str s /\
           split "," s = [a; b] /\
           py_float a = Some lat /\ py_float b = Some lng /\
           isnan lat = false /\ isnan lng = false /\
           location m = (lat, lng) /\
           cores_nucleo (first_seen df_ocorrencias) !! k = Some (icon_color m) /\
           popup m = popup_text (columns df_ocorrencias) r)
    (first_seen df_ocorrencias) (layers out).
Proof.
  intros H. apply main_frames in H as (df2 & Hl & Hcols & Hrows).
  apply mapM_Ok in Hl. eapply Forall2_impl; [exact Hl|].
  intros k L HL. simpl in HL. apply layer_of_Ok in HL as [Hname Hms].
  split; [exact Hname|]. intros m Hm.
  destruct (Hms m Hm) as (row & Hrow & Hk & Hmk).
  destruct (Hrows row Hrow) as (r & v & Hr & ->).
  apply marker_of_row_Some in Hmk
    as (s & a & b & lat & lng & Hg & Hs & Hsp & Ha & Hb & Hla & Hlo & Hloc
        & Hcol & _ & _ & Hpop).
  rewrite cell_at_insert_ne in Hk by exact DATA_ne_NUCLEO.
  rewrite cell_at_insert_ne in Hs by exact DATA_ne_GEOLOCATION.
  rewrite (popup_text_insert (columns df_ocorrencias)) in Hpop by exact Hcols.
  exists r, s, a, b, lat, lng. split_and!; assumption.
Qed.
End LayerFacts.

Section LayerClaims.
Variable lib : Biblioteca.

Local Abbreviation py_float := (py_float lib).

Local Abbreviation main := (main lib).
Local Abbreviation py_str := (py_str lib).

(** C5, as the code has it: both coordinates of every marker are numbers
    (not NaN), the values [float()] gives for the two parts of the
    coordinate text of a row; nothing keeps them finite. *)
Theorem marker_coordinates_not_nan (df_ocorrencias df_area : DataFrame)
    (out : Output) (L : Layer) (m : Marker) :
  main df_ocorrencias df_area = Ok out ->
  L ∈ layers out -> m ∈ markers L ->
  isnan (location m).1 = false /\ isnan (location m).2 = false /\
  exists r s a b,
    r ∈ rows df_ocorrencias /\ cell_at r GEOLOCATION = Str s /\
    split "," s = [a; b] /\
    py_float a = Some (location m).1 /\ py_float b = Some (location m).2.
Proof.
  intros H HL Hm. apply main_layers in H.
  apply list_elem_of_lookup in HL as [i Hi].
  destruct (Forall2_lookup_r _ _ _ _ _ H Hi) as (k & _ & _ & Hms).
  destruct (Hms m Hm)
    as (r & s & a & b & lat & lng & Hr & _ & Hs & Hsp & Ha & Hb & Hla & Hlo
        & Hloc & _).
  rewrite Hloc. simpl. split_and!; try assumption.
  exists r, s, a, b. split_and!; assumption.
Qed.

(** C7: the i-th distinct category in first-seen order has the colour
    [cores[i mod 8]] of the palette of length 8, every marker of its
    layer carries that colour, and the 9th distinct category has the
    colour of the 1st. *)
Theorem color_assignment (df_ocorrencias df_area : DataFrame) (out : Output) :
  main df_ocorrencias df_area = Ok out ->
  let nucleos := first_seen df_ocorrencias in
  length cores = 8%nat
  /\ map name (layers out) = nucleos
  /\ (forall i c, nucleos !! i = Some c ->
        cores_nucleo nucleos !! c = Some (cores !!! (i mod 8)%nat))
  /\ (forall i L m, layers out !! i = Some L -> m ∈ markers L ->
        icon_color m = cores !!! (i mod 8)%nat)
  /\ (forall c1 c9, nucleos !! 0%nat = Some c1 -> nucleos !! 8%nat = Some c9 ->
        cores_nucleo nucleos !! c9 = cores_nucleo nucleos !! c1).
Proof.
  intros H nucleos. apply main_layers in H. fold nucleos in H.
  assert (Hnd : NoDup nucleos) by apply NoDup_unique.
  split_and!.
  - reflexivity.
  - clear Hnd. induction H as [|k L ks Ls [Hk _] _ IH]; simpl; [reflexivity|].
    rewrite Hk, IH. reflexivity.
  - intros i c Hi. apply cores_nucleo_lookup; assumption.
  - intros i L m Hi Hm.
    destruct (Forall2_lookup_r _ _ _ _ _ H Hi) as (k & Hk & _ & Hms).
    destruct (Hms m Hm)
      as (r & s & a & b & lat & lng & _ & _ & _ & _ & _ & _ & _ & _ & _ & Hc & _).
    rewrite (cores_nucleo_lookup nucleos i k Hnd Hk) in Hc. congruence.
  - intros c1 c9 H1 H9.
    rewrite (cores_nucleo_lookup nucleos 8 c9 Hnd H9).
    rewrite (cores_nucleo_lookup nucleos 0 c1 Hnd H1). reflexivity.
Qed.

(** The employee text of a popup: the text of the row's cell when the
    table has the column, the placeholder otherwise. *)
Lemma popup_funcionario (df_ocorrencias df_area : DataFrame) (out : Output)
    (L : Layer) (m : Marker) :
  main df_ocorrencias df_area = Ok out ->
  L ∈ layers out -> m ∈ markers L ->
  exists r, r ∈ rows df_ocorrencias /\
    popup m = popup_html
                (py_str (cell_at r NUCLEO_DE_ATUACAO))
                (py_str (cell_at r OCORRENCIA_CADASTRO))
                (if decide (FUNCIONARIO_CADASTRO ∈ columns df_ocorrencias)
                 then py_str (cell_at r FUNCIONARIO_CADASTRO) else "N/A").
Proof.
  intros H HL Hm. apply main_layers in H.
  apply list_elem_of_lookup in HL as [i Hi].
  destruct (Forall2_lookup_r _ _ _ _ _ H Hi) as (k & _ & _ & Hms).
  destruct (Hms m Hm)
    as (r & s & a & b & lat & lng & Hr & _ & _ & _ & _ & _ & _ & _ & _ & _ & Hp).
  exists r. split; [exact Hr | exact Hp].
Qed.
End LayerClaims.

(** ** Sums of floats *)

Lemma same_refl (x : float64) : same x x.
Proof. left. reflexivity. Qed.

Lemma add_zero_r (x : float64) : same (add x zero) x.
Proof.
  destruct x as [[|]| | |]; unfold add, zero; simpl;
    first [left; reflexivity | right; eauto].
Qed.

Section SumFacts.
Variable lib : Biblioteca.

Local Abbreviation inicio := (inicio lib).
Local Abbreviation bloco := (bloco lib).
Local Abbreviation pairwise_sum := (pairwise_sum lib).
Local Abbreviation np_sum := (np_sum lib).
Local Abbreviation sum := (sum lib).

Lemma add_inicio_zero : add inicio zero = zero.
Proof. unfold inicio. destruct (menos_zero lib); reflexivity. Qed.

Lemma add_zero_inicio : add zero inicio = zero.
Proof. unfold inicio. destruct (menos_zero lib); reflexivity. Qed.

Lemma foldl_add_zeros (l : list float64) :
  Forall (fun x => x = zero) l -> foldl add zero l = zero.
Proof. induction 1 as [|x l -> _ IH]; simpl; [reflexivity | exact IH]. Qed.

Lemma lanes_zeros (n : nat) (a : list float64) :
  (length a <= n)%nat -> Forall (fun x => x = zero) a ->
  lanes zero zero zero zero zero zero zero zero a = zero.
Proof.
  revert a. induction n as [|n IH]; intros a Hlen Ha.
  - destruct a; [reflexivity | simpl in Hlen; lia].
  - destruct a as [|x0 [|x1 [|x2 [|x3 [|x4 [|x5 [|x6 [|x7 a]]]]]]]];
      try (simpl; apply foldl_add_zeros in Ha; exact Ha).
    repeat (apply Forall_cons in Ha as [-> Ha]).
    change (lanes zero zero zero zero zero zero zero zero a = zero).
    apply IH; [simpl in Hlen; lia | exact Ha].
Qed.

(** A block of zeros adds up to zero; the empty block gives the zero
    at which numpy starts. *)
Lemma bloco_zeros (a : list float64) :
  Forall (fun x => x = zero) a ->
  bloco a = match a with [] => inicio | _ => zero end.
Proof.
  intros Ha.
  destruct a as [|x0 [|x1 [|x2 [|x3 [|x4 [|x5 [|x6 [|x7 a]]]]]]]];
    try reflexivity;
    try (repeat (apply Forall_cons in Ha as [-> Ha]); unfold bloco;
         cbn [foldl]; rewrite add_inicio_zero; reflexivity).
  repeat (apply Forall_cons in Ha as [-> Ha]).
  apply (lanes_zeros (length a)); [lia | exact Ha].
Qed.

Lemma pairwise_sum_S (fuel : nat) (a : list float64) :
  pairwise_sum (S fuel) a
  = if (length a <=? 128)%nat then bloco a
    else add (pairwise_sum fuel
                (take (length a / 2 - (length a / 2) mod 8)%nat a))
             (pairwise_sum fuel
                (drop (length a / 2 - (length a / 2) mod 8)%nat a)).
Proof. reflexivity. Qed.

Lemma metade (n : nat) :
  (128 < n)%nat -> (0 < n / 2 - (n / 2) mod 8 < n)%nat.
Proof.
  intros E.
  assert (Hdiv : (64 <= n / 2)%nat) by (apply Nat.div_le_lower_bound; lia).
  assert (Hmod : ((n / 2) mod 8 < 8)%nat) by (apply Nat.mod_upper_bound; lia).
  assert (Hhalf : (n / 2 < n)%nat) by (apply Nat.div_lt; lia).
  lia.
Qed.

Lemma pairwise_sum_zeros (fuel : nat) (a : list float64) :
  Forall (fun x => x = zero) a ->
  pairwise_sum fuel a = match a with [] => inicio | _ => zero end.
Proof.
  revert a. induction fuel as [|fuel IH]; intros a Ha.
  - apply bloco_zeros, Ha.
  - rewrite pairwise_sum_S.
    destruct (length a <=? 128)%nat eqn:E; [apply bloco_zeros, Ha|].
    apply Nat.leb_gt in E.
    assert (H1 := metade _ E).
    set (n2 := (length a / 2 - (length a / 2) mod 8)%nat) in *.
    rewrite (IH (take n2 a)) by (apply Forall_take, Ha).
    rewrite (IH (drop n2 a)) by (apply Forall_drop, Ha).
    destruct (take n2 a) eqn:Et.
    { apply (f_equal length) in Et. rewrite length_take in Et. simpl in Et. lia. }
    destruct (drop n2 a) eqn:Ed.
    { apply (f_equal length) in Ed. rewrite length_drop in Ed. simpl in Ed. lia. }
    destruct a; [simpl in E; lia | reflexivity].
Qed.

Lemma np_sum_zeros (a : list float64) :
  Forall (fun x => x = zero) a -> np_sum a = zero.
Proof.
  intros Ha. unfold np_sum. rewrite pairwise_sum_zeros by exact Ha.
  destruct a; [apply add_zero_inicio | apply add_inicio_zero].
Qed.

(** A missing entry counts in a sum as the entry 0.0 does. *)
Lemma sum_fillna (l1 l2 : list float64) :
  sum (Float64 (l1 ++ nan :: l2)) = sum (Float64 (l1 ++ zero :: l2)).
Proof. unfold sum. rewrite !map_app. reflexivity. Qed.

Lemma sum_all_nan (l : list float64) :
  Forall (fun x => isnan x = true) l -> sum (Float64 l) = NFloat zero.
Proof.
  intros Hl. unfold sum. f_equal. apply np_sum_zeros.
  apply Forall_fmap. eapply Forall_impl; [exact Hl|].
  intros x Hx. simpl. unfold fillna0. rewrite Hx. reflexivity.
Qed.

(** Enough fuel: from the length of the array on, the sum no longer
    depends on the fuel. *)
Lemma pairwise_sum_fuel (fuel : nat) (a : list float64) :
  (length a <= fuel)%nat ->
  pairwise_sum fuel a = pairwise_sum (length a) a.
Proof.
  assert (H : forall n f1 f2 a, (length a <= n)%nat ->
            (length a <= f1)%nat -> (length a <= f2)%nat ->
            pairwise_sum f1 a = pairwise_sum f2 a).
  { clear. induction n as [|n IH]; intros f1 f2 a Hn H1 H2.
    - destruct a; [|simpl in Hn; lia]. destruct f1, f2; reflexivity.
    - destruct f1 as [|f1], f2 as [|f2]; rewrite ?pairwise_sum_S;
        try reflexivity.
      + destruct (length a <=? 128)%nat eqn:E; [reflexivity|].
        apply Nat.leb_gt in E. lia.
      + destruct (length a <=? 128)%nat eqn:E; [reflexivity|].
        apply Nat.leb_gt in E. lia.
      + destruct (length a <=? 128)%nat eqn:E; [reflexivity|].
        apply Nat.leb_gt in E.
        assert (Hn2 := metade _ E).
        f_equal; apply IH; rewrite ?length_take, ?length_drop; lia. }
  intros Hf. apply (H (length a)); lia.
Qed.
End SumFacts.

(** ** The normaliser *)

Lemma to_numeric_Float64 (col : list string) (xs : list float64) :
  to_numeric col = Float64 xs -> xs = map (fun t => valor (ler t)) col.
Proof.
  unfold to_numeric. destruct (float_ _); [|destruct (uint_ _); discriminate].
  intros H. inversion H. rewrite map_map. reflexivity.
Qed.

(** One text that is no number makes the column float64. *)
Lemma to_numeric_Invalido (col : list string) (t : string) :
  t ∈ col -> ler t = Invalido ->
  to_numeric col = Float64 (map (fun t => valor (ler t)) col).
Proof.
  intros Hin Ht. unfold to_numeric.
  assert (Hf : float_ (map ler col) = true).
  { unfold float_. apply orb_true_iff. left. apply existsb_exists.
    exists Invalido. split; [|reflexivity].
    rewrite <- Ht. apply in_map, list_elem_of_In, Hin. }
  rewrite Hf, map_map. reflexivity.
Qed.

(** No comma is left where every comma was replaced, and a text without
    a comma stays as it is. *)
Lemma contains_replace (s : string) : contains "," (replace "," "." s) = false.
Proof.
  unfold contains, replace. rewrite chars_text.
  induction (chars s) as [|c l IH]; [reflexivity|].
  cbn [map existsb]. rewrite IH, orb_false_r.
  destruct (Ascii.eqb c ",") eqn:E; [reflexivity|].
  rewrite Ascii.eqb_sym. exact E.
Qed.

Lemma replace_sem_virgula (s : string) :
  contains "," s = false -> replace "," "." s = s.
Proof.
  unfold contains, replace. intros H.
  rewrite <- (string_of_list_ascii_of_string s) at 2. unfold text, chars in *.
  f_equal. induction (list_ascii_of_string s) as [|c l IH]; [reflexivity|].
  cbn [map existsb] in *. apply orb_false_iff in H as [Hc Hl].
  rewrite Ascii.eqb_sym in Hc. rewrite Hc, (IH Hl). reflexivity.
Qed.

Section NormalizerClaims.
Variable lib : Biblioteca.

Local Abbreviation texto := (texto lib).
Local Abbreviation normalizar := (normalizar lib).
Local Abbreviation converter_coluna_numerica := (converter_coluna_numerica lib).
Local Abbreviation sum := (sum lib).

Lemma converter_coluna_numerica_Ok (df : DataFrame) (coluna : string) :
  converter_coluna_numerica df coluna
  = Ok (if decide (coluna ∈ columns df)
        then to_numeric (map texto (map (fun r => cell_at r coluna) (rows df)))
        else Float64 []).
Proof.
  unfold converter_coluna_numerica, getitem.
  destruct (decide (coluna ∈ columns df)); reflexivity.
Qed.

(** C8: normalisation never raises; it replaces every comma by a period,
    so that no comma reaches the parser and a text without a comma is
    parsed as it stands, and reads "1,5" as 1.5 and "abc", the empty
    text and a missing cell as the missing marker NaN, in a column that
    is then float64; in a sum a missing entry counts as the entry 0.0,
    and a column of missing entries adds up to 0.0. *)
Theorem numeric_normalization :
  (forall df coluna, exists s,
      converter_coluna_numerica df coluna = Ok s /\
      (coluna ∈ columns df ->
       s = to_numeric (map texto (map (fun r => cell_at r coluna) (rows df)))))
  /\ (forall c, contains "," (texto c) = false)
  /\ (forall t, contains "," t = false -> texto (Str t) = t)
  /\ normalizar (Str "1,5") = S754_finite false (3 * 2 ^ 51) (-52)
  /\ normalizar (Str "abc") = nan
  /\ normalizar (Str "") = nan
  /\ normalizar (Num nan) = nan
  /\ converter_coluna_numerica
       {| columns := ["c"];
          rows := [{["c" := Str "1,5"]}; {["c" := Str "abc"]};
                   {["c" := Str ""]}; {["c" := Num nan]}] |} "c"
     = Ok (Float64 [S754_finite false (3 * 2 ^ 51) (-52); nan; nan; nan])
  /\ (forall df coluna c,
        coluna ∈ columns df ->
        c ∈ map (fun r => cell_at r coluna) (rows df) ->
        ler (texto c) = Invalido ->
        converter_coluna_numerica df coluna
        = Ok (Float64 (map normalizar
                           (map (fun r => cell_at r coluna) (rows df)))))
  /\ (forall l1 l2,
        sum (Float64 (l1 ++ nan :: l2)) = sum (Float64 (l1 ++ zero :: l2)))
  /\ (forall l, Forall (fun x => isnan x = true) l ->
                sum (Float64 l) = NFloat zero).
Proof.
  split_and!.
  - intros df coluna. eexists. split; [apply converter_coluna_numerica_Ok|].
    intros Hc. rewrite decide_True by exact Hc. reflexivity.
  - intros c. apply contains_replace.
  - intros t Ht. apply replace_sem_virgula, Ht.
  - vm_compute. reflexivity.
  - vm_compute. reflexivity.
  - vm_compute. reflexivity.
  - vm_compute. reflexivity.
  - vm_compute. reflexivity.
  - intros df coluna c Hc Hin Hler. rewrite converter_coluna_numerica_Ok.
    rewrite decide_True by exact Hc. f_equal.
    rewrite (to_numeric_Invalido _ (texto c)); [|apply list_elem_of_fmap; eauto|exact Hler].
    rewrite map_map. reflexivity.
  - apply sum_fillna.
  - apply sum_all_nan.
Qed.
End NormalizerClaims.

(** ** Runs that end with an exception *)

Lemma mapM_Ok_or_Raise {A B} (f : A -> result B) (l : list A) (e : exn) :
  (forall x, x ∈ l -> (exists m, f x = Ok m) \/ f x = Raise e) ->
  (exists ms, mapM f l = Ok ms) \/ mapM f l = Raise e.
Proof.
  induction l as [|x l IH]; intros Hall; simpl.
  - left. eexists. reflexivity.
  - destruct (Hall x) as [[y Hy]|Hx]; [left| |right; rewrite Hx; reflexivity].
    rewrite Hy. simpl.
    destruct IH as [[k Hk]|Hk]; [intros z Hz; apply Hall; right; exact Hz| |].
    + left. rewrite Hk. eexists. reflexivity.
    + right. rewrite Hk. reflexivity.
Qed.
Section AbortFacts.
Variable lib : Biblioteca.

Local Abbreviation unpack_floats := (unpack_floats lib).

Local Abbreviation main := (main lib).
Local Abbreviation layer_of := (layer_of lib).
Local Abbreviation marker_of_row := (marker_of_row lib).
Local Abbreviation converter_coluna_numerica :=
  (converter_coluna_numerica lib).

(** A turn of the inner loop gives a marker, leaves the row out, or
    raises TypeError. *)
Lemma marker_of_row_cases (cols : list string) (dict : gmap cell string)
    (bairro : cell) (row : Row) (color : string) :
  NUCLEO_DE_ATUACAO ∈ cols -> OCORRENCIA_CADASTRO ∈ cols ->
  dict !! bairro = Some color ->
  (exists o, marker_of_row cols dict bairro row = Ok o)
  \/ marker_of_row cols dict bairro row = Raise TypeError.
Proof.
  intros Hn Ho Hc.
  destruct (decide (GEOLOCATION ∈ cols)) as [Hg|Hg].
  - destruct (cell_at row GEOLOCATION) as [s|x|ns|] eqn:Hs.
    + left. rewrite (marker_of_row_Str _ cols dict bairro row color Hn Ho Hc s Hg Hs).
      destruct (contains "," s); [|eauto].
      destruct (unpack_floats _) as [[lat lng]|e]; [|eauto].
      destruct (isnan lat || isnan lng); eauto.
    + unfold marker_of_row, row_get. rewrite decide_True by exact Hg. rewrite Hs.
      destruct (notna (Num x)); eauto.
    + unfold marker_of_row, row_get. rewrite decide_True by exact Hg. rewrite Hs.
      simpl. eauto.
    + unfold marker_of_row, row_get. rewrite decide_True by exact Hg. rewrite Hs.
      simpl. eauto.
  - left. unfold marker_of_row, row_get. rewrite decide_False by exact Hg. eauto.
Qed.

Lemma marker_of_row_TypeError (cols : list string) (dict : gmap cell string)
    (bairro : cell) (row : Row) :
  GEOLOCATION ∈ cols ->
  notna (cell_at row GEOLOCATION) = true ->
  (forall s, cell_at row GEOLOCATION <> Str s) ->
  marker_of_row cols dict bairro row = Raise TypeError.
Proof.
  intros Hg Hn Hs. unfold marker_of_row, row_get.
  rewrite decide_True by exact Hg. rewrite Hn.
  destruct (cell_at row GEOLOCATION) as [s| | |]; try reflexivity.
  exfalso. apply (Hs s). reflexivity.
Qed.
End AbortFacts.

Section Abort.
Variable lib : Biblioteca.

Local Abbreviation main := (main lib).
Local Abbreviation layer_of := (layer_of lib).
Local Abbreviation com_datas := (com_datas lib).
Local Abbreviation marker_of_row := (marker_of_row lib).

Lemma first_seen_color (df : DataFrame) (k : cell) :
  k ∈ first_seen df -> exists color, cores_nucleo (first_seen df) !! k = Some color.
Proof.
  intros Hk. apply list_elem_of_lookup in Hk as [i Hi]. eexists.
  apply (cores_nucleo_lookup _ i); [apply NoDup_unique | exact Hi].
Qed.

Lemma layer_of_cases (df : DataFrame) (k : cell) :
  NUCLEO_DE_ATUACAO ∈ columns df -> OCORRENCIA_CADASTRO ∈ columns df ->
  k ∈ first_seen df ->
  (exists L, layer_of (com_datas df) (cores_nucleo (first_seen df)) k = Ok L)
  \/ layer_of (com_datas df) (cores_nucleo (first_seen df)) k = Raise TypeError.
Proof.
  intros Hn Ho Hk. destruct (first_seen_color df k Hk) as [color Hc].
  unfold layer_of, where_eq.
  rewrite decide_True by (apply setitem_columns; right; exact Hn).
  cbn [mbind result_bind columns rows].
  match goal with |- context [mapM ?f ?l] =>
    destruct (mapM_Ok_or_Raise f l TypeError) as [[ms Hms]|Hms] end.
  - intros row _. apply (marker_of_row_cases _ _ _ _ _ color).
    + apply setitem_columns. right. exact Hn.
    + apply setitem_columns. right. exact Ho.
    + exact Hc.
  - left. rewrite Hms. eexists. reflexivity.
  - right. rewrite Hms. reflexivity.
Qed.

Lemma layer_of_TypeError (df : DataFrame) (r : Row) :
  NUCLEO_DE_ATUACAO ∈ columns df -> OCORRENCIA_CADASTRO ∈ columns df ->
  GEOLOCATION ∈ columns df ->
  r ∈ rows df ->
  notna (cell_at r NUCLEO_DE_ATUACAO) = true ->
  notna (cell_at r GEOLOCATION) = true ->
  (forall s, cell_at r GEOLOCATION <> Str s) ->
  layer_of (com_datas df) (cores_nucleo (first_seen df))
           (cell_at r NUCLEO_DE_ATUACAO) = Raise TypeError.
Proof.
  intros Hn Ho Hg Hr Hcat Hna Hs.
  assert (Hk : cell_at r NUCLEO_DE_ATUACAO ∈ first_seen df).
  { apply elem_of_first_seen. eauto. }
  destruct (first_seen_color df _ Hk) as [color Hc].
  unfold layer_of, where_eq.
  rewrite decide_True by (apply setitem_columns; right; exact Hn).
  cbn [mbind result_bind columns rows].
  rewrite (mapM_Raise _ _ TypeError); [reflexivity| |].
  - intros row _. apply (marker_of_row_cases _ _ _ _ _ color).
    + apply setitem_columns. right. exact Hn.
    + apply setitem_columns. right. exact Ho.
    + exact Hc.
  - assert (Hin : r ∈ rows {| columns := columns df; rows := com_nucleo df |}).
    { simpl. apply list_elem_of_In, filter_In.
      split; [apply list_elem_of_In, Hr | exact Hcat]. }
    eapply setitem_rows_elem_of in Hin as [v Hv].
    exists (<[DATA_CADASTRO := v]> r). split.
    + apply list_elem_of_In, filter_In. split; [apply list_elem_of_In, Hv|].
      rewrite Hcat. apply bool_decide_eq_true.
      apply cell_at_insert_ne, DATA_ne_NUCLEO.
    + apply marker_of_row_TypeError.
      * apply setitem_columns. right. exact Hg.
      * rewrite cell_at_insert_ne by exact DATA_ne_GEOLOCATION. exact Hna.
      * intros s. rewrite cell_at_insert_ne by exact DATA_ne_GEOLOCATION. apply Hs.
Qed.

End Abort.

(** * Further properties of the script *)

(** ** How a run ends *)

Lemma count_presentes (df : DataFrame) (c : string) :
  count (map (fun r => cell_at r c) (com_nucleo df)) = presentes df c.
Proof.
  unfold count, presentes, com_nucleo.
  rewrite filter_map_length, filter_filter_length. reflexivity.
Qed.

Section RunFacts.
Variable lib : Biblioteca.

Local Abbreviation main := (main lib).

Lemma getitem_KeyError (df : DataFrame) (c : string) :
  c ∉ columns df -> getitem df c = Raise (KeyError c).
Proof. intros Hc. unfold getitem. rewrite decide_False by exact Hc. reflexivity. Qed.

Lemma main_SystemExit (df_ocorrencias df_area : DataFrame) :
  empty df_ocorrencias = true \/ empty df_area = true ->
  main df_ocorrencias df_area = Raise SystemExit.
Proof.
  intros [H|H]; unfold main; rewrite H; [reflexivity|].
  rewrite orb_true_r. reflexivity.
Qed.

End RunFacts.

(** ** The loop over the rows, without exceptions *)

Lemma mapM_Ok_map {A B} (f : A -> result B) (g : A -> B) (l : list A) (ms : list B) :
  mapM f l = Ok ms ->
  (forall x m, x ∈ l -> f x = Ok m -> m = g x) ->
  ms = map g l.
Proof.
  intros H Hg. apply mapM_Ok in H. induction H as [|x m l ms Hx _ IH]; simpl.
  - reflexivity.
  - f_equal; [apply Hg; [left | exact Hx]|].
    apply IH. intros y n Hy. apply Hg. right. exact Hy.
Qed.

Lemma omap_id_map {A B} (g : A -> option B) (l : list A) :
  omap id (map g l) = omap g l.
Proof.
  induction l as [|x l IH]; [reflexivity|].
  change (omap id (map g (x :: l)))
    with (match g x with Some y => y :: omap id (map g l) | None => omap id (map g l) end).
  change (omap g (x :: l))
    with (match g x with Some y => y :: omap g l | None => omap g l end).
  rewrite IH. reflexivity.
Qed.

Lemma omap_filter_imap {A B} (f : nat -> A -> A) (p : A -> bool)
    (g g' : A -> option B) (l : list A) :
  (forall i x, p (f i x) = p x) -> (forall i x, g (f i x) = g' x) ->
  omap g (List.filter p (imap f l)) = omap g' (List.filter p l).
Proof.
  intros Hp Hg. revert f Hp Hg. induction l as [|x l IH]; intros f Hp Hg; simpl.
  - reflexivity.
  - assert (IH' := IH (f ∘ S) (fun i y => Hp (S i) y) (fun i y => Hg (S i) y)).
    rewrite Hp. destruct (p x); simpl; [|exact IH'].
    rewrite Hg. destruct (g' x); [f_equal|]; exact IH'.
Qed.

Lemma filter_filter_implies {A} (p q : A -> bool) (l : list A) :
  (forall x, p x = true -> q x = true) ->
  List.filter p (List.filter q l) = List.filter p l.
Proof.
  intros Hpq. induction l as [|x l IH]; simpl; [reflexivity|].
  destruct (q x) eqn:Hq; simpl.
  - rewrite IH. reflexivity.
  - destruct (p x) eqn:Hpx; [|exact IH].
    rewrite (Hpq x Hpx) in Hq. discriminate.
Qed.

Lemma split_no_comma (s : string) :
  contains "," s = false -> exists a, split "," s = [a].
Proof.
  intros H. apply contains_false in H. pose proof (split_length "," s) as Hlen.
  rewrite H in Hlen. destruct (split "," s) as [|a [|b l]]; try discriminate.
  eauto.
Qed.

Section LoopFacts.
Variable lib : Biblioteca.

Local Abbreviation py_float := (py_float lib).
Local Abbreviation unpack_floats := (unpack_floats lib).
Local Abbreviation coordenadas := (coordenadas lib).

Local Abbreviation main := (main lib).
Local Abbreviation layer_of := (layer_of lib).
Local Abbreviation marker_of_row := (marker_of_row lib).
Local Abbreviation marcador := (marcador lib).
Local Abbreviation popup_text := (popup_text lib).
Local Abbreviation com_datas := (com_datas lib).

(** One turn of the loop, as a function of the row. *)
Lemma marker_of_row_eq (cols : list string) (dict : gmap cell string)
    (bairro : cell) (row : Row) (color : string) :
  NUCLEO_DE_ATUACAO ∈ cols -> OCORRENCIA_CADASTRO ∈ cols ->
  dict !! bairro = Some color ->
  marker_of_row cols dict bairro row
  = if nao_texto cols row then Raise TypeError
    else Ok (marcador cols color row).
Proof.
  intros Hn Ho Hc. unfold nao_texto, marcador, coordenadas.
  destruct (decide (GEOLOCATION ∈ cols)) as [Hg|Hg].
  - destruct (cell_at row GEOLOCATION) as [s|x|ns|] eqn:Hs.
    + rewrite (marker_of_row_Str _ cols dict bairro row color Hn Ho Hc s Hg Hs).
      unfold row_get. rewrite decide_True by exact Hg. rewrite Hs.
      destruct (contains "," s) eqn:Hcomma.
      * destruct (split "," s) as [|a [|b [|c l]]]; simpl; try reflexivity.
        destruct (py_float a) as [lat|]; simpl; [|reflexivity].
        destruct (py_float b) as [lng|]; simpl; [|reflexivity].
        destruct (isnan lat || isnan lng); reflexivity.
      * apply split_no_comma in Hcomma as [a ->]. reflexivity.
    + unfold marker_of_row, row_get. rewrite decide_True by exact Hg. rewrite Hs.
      destruct (notna (Num x)); reflexivity.
    + unfold marker_of_row, row_get. rewrite decide_True by exact Hg. rewrite Hs.
      reflexivity.
    + unfold marker_of_row, row_get. rewrite decide_True by exact Hg. rewrite Hs.
      reflexivity.
  - unfold marker_of_row, row_get. rewrite decide_False by exact Hg. reflexivity.
Qed.

Lemma coordenadas_insert (cols cols' : list string) (r : Row) (v : cell) :
  (forall c, c ∈ cols' <-> c ∈ cols) ->
  coordenadas cols' (<[DATA_CADASTRO := v]> r) = coordenadas cols r.
Proof.
  intros Hcols. unfold coordenadas, row_get.
  rewrite cell_at_insert_ne by exact DATA_ne_GEOLOCATION.
  destruct (decide (GEOLOCATION ∈ cols')) as [Hf|Hf];
    destruct (decide (GEOLOCATION ∈ cols)) as [Hf'|Hf'];
    try reflexivity; exfalso; apply Hcols in Hf || apply Hcols in Hf';
    contradiction.
Qed.

Lemma nao_texto_insert (cols cols' : list string) (r : Row) (v : cell) :
  (forall c, c ∈ cols' <-> c ∈ cols) ->
  nao_texto cols' (<[DATA_CADASTRO := v]> r) = nao_texto cols r.
Proof.
  intros Hcols. unfold nao_texto, row_get.
  rewrite cell_at_insert_ne by exact DATA_ne_GEOLOCATION.
  destruct (decide (GEOLOCATION ∈ cols')) as [Hf|Hf];
    destruct (decide (GEOLOCATION ∈ cols)) as [Hf'|Hf'];
    try reflexivity; exfalso; apply Hcols in Hf || apply Hcols in Hf';
    contradiction.
Qed.

Lemma marcador_insert (cols cols' : list string) (color : string) (r : Row)
    (v : cell) :
  (forall c, c ∈ cols' <-> c ∈ cols) ->
  marcador cols' color (<[DATA_CADASTRO := v]> r) = marcador cols color r.
Proof.
  intros Hcols. unfold marcador.
  rewrite (coordenadas_insert cols cols') by exact Hcols.
  rewrite (popup_text_insert _ cols cols') by exact Hcols. reflexivity.
Qed.

Lemma com_datas_columns (df : DataFrame) (c : string) :
  DATA_CADASTRO ∈ columns df ->
  c ∈ columns (com_datas df) <-> c ∈ columns df.
Proof.
  intros Hd. unfold com_datas. rewrite setitem_columns. simpl.
  split; [intros [->|H]; assumption | auto].
Qed.

(** The rows of one category on which a layer is built, seen from the
    table that was read. *)
Lemma layer_rows (df : DataFrame) (k : cell) {B} (g g' : Row -> option B) :
  notna k = true ->
  (forall r v, g (<[DATA_CADASTRO := v]> r) = g' r) ->
  omap g (List.filter
            (fun r => notna k && bool_decide (cell_at r NUCLEO_DE_ATUACAO = k))
            (rows (com_datas df)))
  = omap g' (List.filter (fun r => bool_decide (cell_at r NUCLEO_DE_ATUACAO = k))
                         (rows df)).
Proof.
  intros Hk Hg. rewrite Hk. cbn [andb]. unfold com_datas, setitem. cbn [rows].
  rewrite (omap_filter_imap _ _ g g').
  - unfold com_nucleo. rewrite filter_filter_implies; [reflexivity|].
    intros r Hr. apply bool_decide_eq_true in Hr. rewrite Hr. exact Hk.
  - intros i r. rewrite cell_at_insert_ne by exact DATA_ne_NUCLEO. reflexivity.
  - intros i r. apply Hg.
Qed.

(** The markers of a layer that was built. *)
Lemma layer_of_markers (df : DataFrame) (k : cell) (color : string) (L : Layer) :
  Forall (fun c => c ∈ columns df) colunas_lidas ->
  notna k = true ->
  cores_nucleo (first_seen df) !! k = Some color ->
  layer_of (com_datas df) (cores_nucleo (first_seen df)) k = Ok L ->
  name L = k /\
  markers L
  = omap (marcador (columns df) color)
         (List.filter (fun r => bool_decide (cell_at r NUCLEO_DE_ATUACAO = k))
                      (rows df)).
Proof.
  intros Hcols Hk Hc HL.
  apply Forall_cons in Hcols as [Hn Hcols]. apply Forall_cons in Hcols as [Ho Hcols].
  apply Forall_cons in Hcols as [_ Hcols]. apply Forall_cons in Hcols as [_ Hcols].
  apply Forall_cons in Hcols as [Hd _].
  assert (Hcd := fun c => com_datas_columns df c Hd).
  unfold layer_of in HL.
  apply bind_Ok in HL as (dfn & Hw & HL). apply bind_Ok in HL as (ms & Hms & HL).
  inversion HL; subst L; clear HL. cbn [name markers]. split; [reflexivity|].
  apply where_eq_Ok in Hw as (_ & Hwc & Hwr). rewrite Hwc, Hwr in Hms.
  rewrite (mapM_Ok_map _ (marcador (columns (com_datas df)) color) _ _ Hms).
  - rewrite omap_id_map. apply layer_rows; [exact Hk|].
    intros r v. apply marcador_insert. exact Hcd.
  - intros row m _ Hm.
    rewrite (marker_of_row_eq _ _ _ _ color) in Hm;
      [|apply Hcd; exact Hn|apply Hcd; exact Ho|exact Hc].
    destruct (nao_texto _ row); [discriminate|]. inversion Hm. reflexivity.
Qed.

(** A layer raises TypeError or is built, and it is built when no row
    of its category has a coordinate field that is not a text. *)
Lemma layer_of_total (df : DataFrame) (k : cell) :
  Forall (fun c => c ∈ columns df) colunas_lidas ->
  k ∈ first_seen df ->
  (forall r, r ∈ rows df -> notna (cell_at r NUCLEO_DE_ATUACAO) = true ->
             nao_texto (columns df) r = false) ->
  exists L, layer_of (com_datas df) (cores_nucleo (first_seen df)) k = Ok L.
Proof.
  intros Hcols Hk Hall. destruct (first_seen_color df k Hk) as [color Hc].
  pose proof Hcols as Hcols'.
  apply Forall_cons in Hcols as [Hn Hcols]. apply Forall_cons in Hcols as [Ho Hcols].
  apply Forall_cons in Hcols as [_ Hcols]. apply Forall_cons in Hcols as [_ Hcols].
  apply Forall_cons in Hcols as [Hd _].
  assert (Hcd := fun c => com_datas_columns df c Hd).
  unfold layer_of, where_eq. rewrite decide_True by (apply Hcd; exact Hn).
  cbn [mbind result_bind columns rows].
  match goal with |- context [mapM ?f ?l] =>
    destruct (mapM_total f l) as [ms Hms] end.
  - intros row Hrow. apply list_elem_of_In, filter_In in Hrow as [Hrow _].
    apply list_elem_of_In, elem_of_setitem_rows in Hrow as (r0 & v & Hr0 & ->).
    cbn [rows] in Hr0. apply list_elem_of_In, filter_In in Hr0 as [Hr0 Hcat].
    apply list_elem_of_In in Hr0.
    rewrite (marker_of_row_eq _ _ _ _ color);
      [|apply Hcd; exact Hn|apply Hcd; exact Ho|exact Hc].
    change (setitem _ _ _) with (com_datas df).
    rewrite (nao_texto_insert (columns df)) by exact Hcd.
    rewrite (Hall r0 Hr0 Hcat). eauto.
  - rewrite Hms. eexists. reflexivity.
Qed.
End LoopFacts.

(** ** How a run goes *)

Lemma tamanho_to_numeric (col : list string) :
  tamanho (to_numeric col) = length col.
Proof.
  unfold to_numeric. destruct (float_ _); [|destruct (uint_ _)]; simpl;
    rewrite !length_map; reflexivity.
Qed.

Lemma alinhar_to_numeric {B} (linhas : list B) (col : list string) :
  length col = length linhas ->
  alinhar linhas (to_numeric col) = to_numeric col.
Proof.
  intros H. unfold alinhar. rewrite decide_True; [reflexivity|].
  rewrite tamanho_to_numeric. exact H.
Qed.

Lemma alinhar_vazia {B} (linhas : list B) :
  linhas <> [] ->
  alinhar linhas (Float64 []) = Float64 (map (fun _ => nan) linhas).
Proof.
  intros H. unfold alinhar. rewrite decide_False.
  - f_equal. apply list_eq. intros i.
    rewrite list_lookup_imap, list_lookup_fmap.
    destruct (linhas !! i); reflexivity.
  - simpl. destruct linhas; [contradiction | discriminate].
Qed.

Lemma imap_const_length {B C D} (f : nat -> D) (l : list B) (l' : list C) :
  length l = length l' -> imap (fun i _ => f i) l = imap (fun i _ => f i) l'.
Proof.
  intros H. apply list_eq. intros i. rewrite !list_lookup_imap.
  destruct (l !! i) as [b|] eqn:Hl; simpl.
  - apply lookup_lt_Some in Hl. rewrite H in Hl.
    apply lookup_lt_is_Some in Hl as [c ->]. reflexivity.
  - apply lookup_ge_None in Hl. rewrite H in Hl.
    apply lookup_ge_None in Hl. rewrite Hl. reflexivity.
Qed.

(** The alignment looks only at the number of rows. *)
Lemma alinhar_length {B C} (l : list B) (l' : list C) (s : Series) :
  length l = length l' -> alinhar l s = alinhar l' s.
Proof.
  intros H. unfold alinhar. rewrite H.
  destruct (decide (tamanho s = length l')); [reflexivity|].
  f_equal. apply (imap_const_length (fun i => default nan (floats s !! i))), H.
Qed.

Lemma empty_rows (df : DataFrame) : empty df = false -> rows df <> [].
Proof.
  unfold empty. destruct (columns df), (rows df); discriminate.
Qed.

Section RunSteps.
Variable lib : Biblioteca.

Local Abbreviation main := (main lib).
Local Abbreviation programa := (programa lib).
Local Abbreviation layer_of := (layer_of lib).
Local Abbreviation camadas := (camadas lib).
Local Abbreviation texto := (texto lib).
Local Abbreviation converter_coluna_numerica := (converter_coluna_numerica lib).
Local Abbreviation coluna_rede := (coluna_rede lib).
Local Abbreviation total_rede := (total_rede lib).
Local Abbreviation com_datas := (com_datas lib).
Local Abbreviation datas := (datas lib).
Local Abbreviation converter_datas := (converter_datas lib).
Local Abbreviation saida_de := (saida_de lib).
Local Abbreviation painel := (painel lib).

Lemma coluna_rede_setitem_ne (df : DataFrame) (c c' : string) (s : list cell) :
  c' <> c -> coluna_rede (setitem df c' s) c = coluna_rede df c.
Proof.
  intros Hne. unfold coluna_rede.
  rewrite setitem_column_ne by exact Hne.
  destruct (decide (c ∈ columns df)) as [Hc|Hc].
  - rewrite decide_True; [reflexivity|]. apply setitem_columns. right. exact Hc.
  - rewrite decide_False; [reflexivity|]. rewrite setitem_columns.
    intros [->|H]; [apply Hne; reflexivity | contradiction].
Qed.

(** The loop of a run, with the colour table and the categories it has. *)
Lemma camadas_com_datas (df : DataFrame) :
  NUCLEO_DE_ATUACAO ∈ columns df ->
  camadas (com_datas df)
  = mapM (layer_of (com_datas df) (cores_nucleo (first_seen df)))
         (first_seen df).
Proof.
  intros Hn. unfold camadas, getitem.
  rewrite decide_True by (apply setitem_columns; right; exact Hn).
  cbn [mbind result_bind].
  replace (map (fun r => cell_at r NUCLEO_DE_ATUACAO) (rows (com_datas df)))
    with (map (fun r => cell_at r NUCLEO_DE_ATUACAO) (com_nucleo df))
    by (symmetry; apply setitem_column_ne, DATA_ne_NUCLEO).
  reflexivity.
Qed.

(** The table after line 58. *)
Lemma getitem_com_nucleo (df : DataFrame) (c : string) :
  c ∈ columns df ->
  getitem {| columns := columns df; rows := com_nucleo df |} c
  = Ok (map (fun r => cell_at r c) (com_nucleo df)).
Proof. intros Hc. unfold getitem. cbn [columns rows]. rewrite decide_True by exact Hc. reflexivity. Qed.

Lemma resumir_nucleo_run (df : DataFrame) :
  NUCLEO_DE_ATUACAO ∈ columns df -> OCORRENCIA_CADASTRO ∈ columns df ->
  resumir_nucleo {| columns := columns df; rows := com_nucleo df |}
  = if nucleos_comparaveis df
    then Ok (groupby_count cell_leb (map nucleo_kv (com_nucleo df)))
    else Raise TypeError.
Proof.
  intros Hn Ho. unfold resumir_nucleo.
  rewrite !getitem_com_nucleo by assumption. cbn [mbind result_bind].
  rewrite (comparaveis_same _ (first_seen df)) by apply chaves_first_seen.
  unfold nucleos_comparaveis. rewrite !map_map, zip_map_same. reflexivity.
Qed.

Lemma converter_datas_run (df : DataFrame) :
  DATA_CADASTRO ∈ columns df ->
  converter_datas {| columns := columns df; rows := com_nucleo df |}
  = (_ ← raise_if (to_datetime_error lib (coluna_datas df)); Ok (com_datas df)).
Proof.
  intros Hd. unfold converter_datas.
  rewrite getitem_com_nucleo by exact Hd. reflexivity.
Qed.

Lemma resumir_data_run (df : DataFrame) :
  resumir_data (com_datas df) = Ok (groupby_size Z.leb (datas df)).
Proof.
  unfold resumir_data, getitem.
  rewrite decide_True by (apply setitem_columns; left; reflexivity).
  cbn [mbind result_bind]. f_equal. f_equal.
  unfold com_datas. rewrite setitem_column_eq.
  unfold datas. cbn [rows]. apply list_eq. intros i.
  rewrite list_lookup_fmap, !list_lookup_imap. unfold coluna_datas.
  rewrite !list_lookup_fmap.
  destruct (com_nucleo df !! i) as [r|] eqn:Hr; simpl; [|reflexivity].
  destruct (to_datetime lib _ i); reflexivity.
Qed.

(** The two totals of the coverage table. *)
Lemma totais_rede (df_area : DataFrame) :
  converter_coluna_numerica df_area REDE_ESGOTO
  = Ok (coluna_rede df_area REDE_ESGOTO)
  /\ forall s,
       converter_coluna_numerica (setitem df_area REDE_ESGOTO s) REDE_AGUA
       = Ok (coluna_rede df_area REDE_AGUA).
Proof.
  split; [apply converter_coluna_numerica_Ok|].
  intros s. rewrite converter_coluna_numerica_Ok.
  fold (coluna_rede (setitem df_area REDE_ESGOTO s) REDE_AGUA).
  rewrite coluna_rede_setitem_ne by exact ESGOTO_ne_AGUA. reflexivity.
Qed.

(** With its tables and columns in place, a run sorts the categories,
    parses the dates, compiles the panel, builds the layers, saves the
    map and returns; each of these steps but the first raises what the
    library raises. *)
Lemma main_passos (df_ocorrencias df_area : DataFrame) :
  empty df_ocorrencias = false -> empty df_area = false ->
  Forall (fun c => c ∈ columns df_ocorrencias) colunas_lidas ->
  main df_ocorrencias df_area
  = if nucleos_comparaveis df_ocorrencias then
      _ ← raise_if (to_datetime_error lib (coluna_datas df_ocorrencias));
      _ ← raise_if (Element_error lib (painel df_ocorrencias df_area));
      fgs ← camadas (com_datas df_ocorrencias);
      _ ← raise_if (save_error lib (painel df_ocorrencias df_area) fgs);
      Ok (saida_de df_ocorrencias df_area fgs)
    else Raise TypeError.
Proof.
  intros He1 He2 Hcols.
  apply Forall_cons in Hcols as [Hn Hcols]. apply Forall_cons in Hcols as [Ho Hcols].
  apply Forall_cons in Hcols as [Hc Hcols]. apply Forall_cons in Hcols as [Hl Hcols].
  apply Forall_cons in Hcols as [Hd _].
  destruct (totais_rede df_area) as [Hes Hag].
  unfold main. rewrite He1, He2. cbn [orb].
  unfold dropna. rewrite decide_True by exact Hn.
  fold (com_nucleo df_ocorrencias).
  cbn [mbind result_bind]. rewrite !getitem_com_nucleo by assumption.
  cbn [mbind result_bind]. rewrite Hes. cbn [mbind result_bind]. cbv zeta.
  rewrite Hag. cbn [mbind result_bind].
  rewrite resumir_nucleo_run by assumption.
  destruct (nucleos_comparaveis df_ocorrencias); [|reflexivity].
  cbn [mbind result_bind].
  rewrite converter_datas_run by assumption.
  destruct (to_datetime_error lib (coluna_datas df_ocorrencias)); [reflexivity|].
  cbn [mbind result_bind raise_if].
  rewrite resumir_data_run. cbn [mbind result_bind].
  rewrite !count_presentes.
  rewrite (alinhar_length (rows (setitem df_area REDE_ESGOTO _)) (rows df_area))
    by apply setitem_rows_length.
  reflexivity.
Qed.

Lemma main_run (df_ocorrencias df_area : DataFrame) :
  empty df_ocorrencias = false -> empty df_area = false ->
  Forall (fun c => c ∈ columns df_ocorrencias) colunas_lidas ->
  nucleos_comparaveis df_ocorrencias = true ->
  to_datetime_error lib (coluna_datas df_ocorrencias) = None ->
  main df_ocorrencias df_area
  = (_ ← raise_if (Element_error lib (painel df_ocorrencias df_area));
     fgs ← camadas (com_datas df_ocorrencias);
     _ ← raise_if (save_error lib (painel df_ocorrencias df_area) fgs);
     Ok (saida_de df_ocorrencias df_area fgs)).
Proof.
  intros He1 He2 Hcols Hcmp Hdt.
  rewrite main_passos by assumption. rewrite Hcmp, Hdt. reflexivity.
Qed.

(** Categories that cannot be sorted end the run at the grouping, before
    the date column is read. *)
Lemma main_TypeError_chaves (df_ocorrencias df_area : DataFrame) :
  empty df_ocorrencias = false -> empty df_area = false ->
  NUCLEO_DE_ATUACAO ∈ columns df_ocorrencias ->
  OCORRENCIA_CADASTRO ∈ columns df_ocorrencias ->
  OCORRENCIA_CAIXA_UMA ∈ columns df_ocorrencias ->
  OCORRENCIA_LIGACAO ∈ columns df_ocorrencias ->
  nucleos_comparaveis df_ocorrencias = false ->
  main df_ocorrencias df_area = Raise TypeError.
Proof.
  intros He1 He2 Hn Ho Hc Hl Hcmp.
  destruct (totais_rede df_area) as [Hes Hag].
  unfold main. rewrite He1, He2. cbn [orb].
  unfold dropna. rewrite decide_True by exact Hn.
  fold (com_nucleo df_ocorrencias).
  cbn [mbind result_bind]. rewrite !getitem_com_nucleo by assumption.
  cbn [mbind result_bind]. rewrite Hes. cbn [mbind result_bind]. cbv zeta.
  rewrite Hag. cbn [mbind result_bind].
  rewrite resumir_nucleo_run by assumption. rewrite Hcmp. reflexivity.
Qed.

Lemma main_missing_column (df_ocorrencias df_area : DataFrame)
    (antes depois : list string) (c : string) :
  empty df_ocorrencias = false -> empty df_area = false ->
  colunas_lidas = antes ++ c :: depois ->
  Forall (fun k => k ∈ columns df_ocorrencias) antes ->
  c ∉ columns df_ocorrencias ->
  (c = DATA_CADASTRO -> nucleos_comparaveis df_ocorrencias = true) ->
  main df_ocorrencias df_area = Raise (KeyError c).
Proof.
  intros He1 He2 Hsplit Hantes Hc Hcmp.
  destruct (totais_rede df_area) as [Hes Hag].
  unfold main. rewrite He1, He2. cbn [orb].
  unfold colunas_lidas in Hsplit.
  destruct antes as [|k1 antes]; simpl in Hsplit.
  { inversion Hsplit; subst c. unfold dropna.
    rewrite decide_False by exact Hc. reflexivity. }
  inversion Hsplit as [[Hk1 Hrest]]; subst k1; clear Hsplit.
  apply Forall_cons in Hantes as [Hn Hantes].
  unfold dropna. rewrite decide_True by exact Hn.
  fold (com_nucleo df_ocorrencias).
  assert (Hmiss : getitem {| columns := columns df_ocorrencias;
                             rows := com_nucleo df_ocorrencias |} c
                  = Raise (KeyError c))
    by (apply getitem_KeyError; exact Hc).
  cbn [mbind result_bind].
  destruct antes as [|k2 antes]; simpl in Hrest.
  { inversion Hrest; subst c. rewrite Hmiss. reflexivity. }
  inversion Hrest as [[Hk2 Hrest']]; subst k2; clear Hrest.
  apply Forall_cons in Hantes as [Ho Hantes].
  rewrite (getitem_com_nucleo _ _ Ho). cbn [mbind result_bind].
  destruct antes as [|k3 antes]; simpl in Hrest'.
  { inversion Hrest'; subst c. rewrite Hmiss. reflexivity. }
  inversion Hrest' as [[Hk3 Hrest]]; subst k3; clear Hrest'.
  apply Forall_cons in Hantes as [Hcx Hantes].
  rewrite (getitem_com_nucleo _ _ Hcx). cbn [mbind result_bind].
  destruct antes as [|k4 antes]; simpl in Hrest.
  { inversion Hrest; subst c. rewrite Hmiss. reflexivity. }
  inversion Hrest as [[Hk4 Hrest']]; subst k4; clear Hrest.
  apply Forall_cons in Hantes as [Hl Hantes].
  rewrite (getitem_com_nucleo _ _ Hl). cbn [mbind result_bind].
  rewrite Hes. cbn [mbind result_bind]. cbv zeta.
  rewrite Hag. cbn [mbind result_bind].
  rewrite resumir_nucleo_run by assumption.
  destruct antes as [|k5 antes]; simpl in Hrest'.
  { inversion Hrest'; subst c. rewrite Hcmp by reflexivity.
    cbn [mbind result_bind]. unfold converter_datas. rewrite Hmiss. reflexivity. }
  inversion Hrest' as [[Hk5 Hrest]]. destruct antes; discriminate.
Qed.

Lemma first_missing (cols l : list string) :
  ~ Forall (fun c => c ∈ cols) l ->
  exists antes c depois,
    l = antes ++ c :: depois /\ Forall (fun k => k ∈ cols) antes /\ c ∉ cols.
Proof.
  induction l as [|x l IH]; intros Hnot.
  - exfalso. apply Hnot. constructor.
  - destruct (decide (x ∈ cols)) as [Hx|Hx].
    + destruct IH as (antes & c & depois & -> & Hantes & Hc).
      { intros Hall. apply Hnot. constructor; assumption. }
      exists (x :: antes), c, depois. split_and!; [reflexivity| |exact Hc].
      constructor; assumption.
    + exists [], x, l. split_and!; [reflexivity|constructor|exact Hx].
Qed.

(** A run that returns has found its tables and its columns, has sorted
    its categories, and no library step has raised. *)
Lemma main_Ok_inv (df_ocorrencias df_area : DataFrame) (out : Output) :
  main df_ocorrencias df_area = Ok out ->
  empty df_ocorrencias = false /\ empty df_area = false /\
  Forall (fun c => c ∈ columns df_ocorrencias) colunas_lidas /\
  nucleos_comparaveis df_ocorrencias = true /\
  to_datetime_error lib (coluna_datas df_ocorrencias) = None /\
  Element_error lib (painel df_ocorrencias df_area) = None /\
  exists fgs,
    mapM (layer_of (com_datas df_ocorrencias)
                   (cores_nucleo (first_seen df_ocorrencias)))
         (first_seen df_ocorrencias) = Ok fgs /\
    save_error lib (painel df_ocorrencias df_area) fgs = None /\
    out = saida_de df_ocorrencias df_area fgs.
Proof.
  intros H.
  destruct (empty df_ocorrencias) eqn:He1;
    [rewrite main_SystemExit in H by auto; discriminate|].
  destruct (empty df_area) eqn:He2;
    [rewrite main_SystemExit in H by auto; discriminate|].
  assert (Hcmp := main_comparaveis _ _ _ _ H).
  assert (Hcols : Forall (fun c => c ∈ columns df_ocorrencias) colunas_lidas).
  { destruct (decide (Forall (fun c => c ∈ columns df_ocorrencias) colunas_lidas))
      as [Hcols|Hcols]; [exact Hcols|].
    apply first_missing in Hcols as (antes & c & depois & Hsplit & Hantes & Hc).
    rewrite (main_missing_column _ _ antes depois c He1 He2 Hsplit Hantes Hc)
      in H by (intros _; exact Hcmp).
    discriminate. }
  rewrite main_passos in H by assumption. rewrite Hcmp in H.
  destruct (to_datetime_error lib (coluna_datas df_ocorrencias)) as [e|];
    [discriminate|].
  cbn [mbind result_bind raise_if] in H.
  destruct (Element_error lib (painel df_ocorrencias df_area)) as [e|];
    [discriminate|].
  cbn [mbind result_bind raise_if] in H.
  apply bind_Ok in H as (fgs & Hfgs & H).
  destruct (save_error lib (painel df_ocorrencias df_area) fgs) as [e|] eqn:Hsave;
    [discriminate|].
  cbn [mbind result_bind raise_if] in H. inversion H; subst out; clear H.
  split_and!; try reflexivity; try assumption.
  exists fgs. split_and!; [|exact Hsave|reflexivity].
  rewrite <- camadas_com_datas; [exact Hfgs|].
  apply Forall_cons in Hcols as [Hn _]. exact Hn.
Qed.

(** Without a table from either address the program ends with SystemExit:
    a request that fails gives the empty table, and an empty table, also
    one that was downloaded, stops the script before it reads a column. *)
Theorem programa_SystemExit (web : string -> resposta) :
  (forall e, web URL_OCORRENCIAS <> Erro e) ->
  (forall e, web URL_AREA_ATUACAO <> Erro e) ->
  (web URL_OCORRENCIAS = RequestException
   \/ web URL_AREA_ATUACAO = RequestException
   \/ exists df, (web URL_OCORRENCIAS = Planilha df
                  \/ web URL_AREA_ATUACAO = Planilha df)
                 /\ empty df = true) ->
  programa web = Raise SystemExit.
Proof.
  intros H1 H2 H. unfold programa, baixar_excel.
  destruct (web URL_OCORRENCIAS) as [df1| |e1] eqn:E1;
    [| |exfalso; apply (H1 e1); reflexivity];
    (destruct (web URL_AREA_ATUACAO) as [df2| |e2] eqn:E2;
      [| |exfalso; apply (H2 e2); reflexivity]);
    cbn [mbind result_bind]; apply main_SystemExit.
  - destruct H as [H|[H|(df & [H|H] & He)]]; try discriminate;
      inversion H; subst; auto.
  - right. reflexivity.
  - left. reflexivity.
  - left. reflexivity.
Qed.

(** An exception raised while a sheet is read is not caught. *)
Lemma programa_Erro (web : string -> resposta) (e : exn) :
  web URL_OCORRENCIAS = Erro e -> programa web = Raise e.
Proof. intros H. unfold programa, baixar_excel. rewrite H. reflexivity. Qed.
End RunSteps.

(** ** First-seen order and the palette *)

Lemma foldl_see_cons {A} `{EqDecision A} (x : A) (acc l : list A) :
  foldl see (x :: acc) l
  = x :: foldl see acc (List.filter (fun y => negb (bool_decide (y = x))) l).
Proof.
  revert acc. induction l as [|y l IH]; intros acc; simpl; [reflexivity|].
  destruct (decide (y = x)) as [->|Hne].
  - rewrite bool_decide_true by reflexivity. simpl.
    unfold see at 2. rewrite decide_True by left. apply IH.
  - rewrite bool_decide_false by exact Hne. simpl.
    unfold see at 2 4.
    destruct (decide (y ∈ acc)) as [Hin|Hin].
    + rewrite decide_True by (right; exact Hin). apply IH.
    + rewrite decide_False.
      * change ((x :: acc) ++ [y]) with (x :: (acc ++ [y])). apply IH.
      * intros Hin'. apply elem_of_cons in Hin' as [?|?]; contradiction.
Qed.

(** The values that [unique] keeps are in the order of their first
    appearance: the first value comes first, and the rest is what
    [unique] keeps of the later values that differ from it. *)
Theorem unique_cons {A} `{EqDecision A} (x : A) (l : list A) :
  unique (x :: l)
  = x :: unique (List.filter (fun y => negb (bool_decide (y = x))) l).
Proof.
  unfold unique. simpl. unfold see at 2. rewrite decide_False by inversion 1.
  apply foldl_see_cons.
Qed.

Lemma cores_inj (m n : nat) :
  (m < 8)%nat -> (n < 8)%nat -> cores !!! m = cores !!! n -> m = n.
Proof.
  intros Hm Hn H.
  do 8 (destruct m as [|m];
        [do 8 (destruct n as [|n];
               [first [reflexivity | vm_compute in H; discriminate H]|]); lia|]).
  lia.
Qed.

(** Two categories have the same colour exactly when their places in
    first-seen order differ by a multiple of 8. *)
Theorem cores_mod_8 (nucleos : list cell) (i j : nat) (a b : cell) :
  NoDup nucleos ->
  nucleos !! i = Some a -> nucleos !! j = Some b ->
  (cores_nucleo nucleos !! a = cores_nucleo nucleos !! b
   <-> (i mod 8 = j mod 8)%nat).
Proof.
  intros Hnd Hi Hj.
  rewrite (cores_nucleo_lookup nucleos i a Hnd Hi).
  rewrite (cores_nucleo_lookup nucleos j b Hnd Hj). split.
  - intros H.
    assert (H' : cores !!! (i mod 8)%nat = cores !!! (j mod 8)%nat) by congruence.
    apply cores_inj; [| |exact H']; apply Nat.mod_upper_bound; discriminate.
  - intros ->. reflexivity.
Qed.

(** ** Runs as a whole *)

Lemma nao_texto_true (cols : list string) (r : Row) :
  nao_texto cols r = true <->
  GEOLOCATION ∈ cols /\ notna (cell_at r GEOLOCATION) = true /\
  forall s, cell_at r GEOLOCATION <> Str s.
Proof.
  unfold nao_texto, row_get.
  destruct (decide (GEOLOCATION ∈ cols)) as [Hg|Hg].
  - destruct (cell_at r GEOLOCATION) as [s|x|ns|]; simpl; split;
      try discriminate; try (intros (_ & H & _); discriminate H);
      try (intros H; split_and!; [exact Hg | exact H | discriminate]);
      try (intros (_ & H & _); exact H).
    intros (_ & _ & H). exfalso. apply (H s). reflexivity.
  - split; [discriminate|]. intros [H _]. contradiction.
Qed.

Lemma omap_None {A B} (g : A -> option B) (l : list A) :
  (forall x, g x = None) -> omap g l = [].
Proof.
  intros H. induction l as [|x l IH]; [reflexivity|].
  change (omap g (x :: l))
    with (match g x with Some y => y :: omap g l | None => omap g l end).
  rewrite H. exact IH.
Qed.

Section Extras.
Variable lib : Biblioteca.

Local Abbreviation main := (main lib).
Local Abbreviation layer_of := (layer_of lib).
Local Abbreviation camadas := (camadas lib).
Local Abbreviation marcador := (marcador lib).
Local Abbreviation normalizar := (normalizar lib).
Local Abbreviation texto := (texto lib).
Local Abbreviation py_str := (py_str lib).
Local Abbreviation com_datas := (com_datas lib).
Local Abbreviation saida_de := (saida_de lib).
Local Abbreviation painel := (painel lib).
Local Abbreviation coluna_rede := (coluna_rede lib).
Local Abbreviation total_rede := (total_rede lib).
Local Abbreviation sum := (sum lib).

(** Whether the layers are built, by the rows of the table. *)
Lemma layers_total (df : DataFrame) :
  Forall (fun c => c ∈ columns df) colunas_lidas ->
  (forall r, r ∈ rows df -> notna (cell_at r NUCLEO_DE_ATUACAO) = true ->
             nao_texto (columns df) r = false) ->
  exists fgs, camadas (com_datas df) = Ok fgs.
Proof.
  intros Hcols Hall. rewrite camadas_com_datas
    by (apply Forall_cons in Hcols as [Hn _]; exact Hn).
  apply mapM_total. intros k Hk.
  apply layer_of_total; assumption.
Qed.

Lemma layers_TypeError (df : DataFrame) (r : Row) :
  Forall (fun c => c ∈ columns df) colunas_lidas ->
  r ∈ rows df -> notna (cell_at r NUCLEO_DE_ATUACAO) = true ->
  nao_texto (columns df) r = true ->
  camadas (com_datas df) = Raise TypeError.
Proof.
  intros Hcols Hr Hcat Hbad. apply nao_texto_true in Hbad as (Hg & Hna & Hs).
  apply Forall_cons in Hcols as [Hn Hcols]. apply Forall_cons in Hcols as [Ho _].
  rewrite camadas_com_datas by exact Hn.
  apply mapM_Raise.
  - intros k Hk. apply layer_of_cases; assumption.
  - exists (cell_at r NUCLEO_DE_ATUACAO). split.
    + apply elem_of_first_seen. eauto.
    + apply layer_of_TypeError; assumption.
Qed.

(** Some row with a category has a coordinate field that is present and
    is not a text. *)
Lemma linha_nao_texto (df : DataFrame) :
  (exists r, r ∈ rows df /\ notna (cell_at r NUCLEO_DE_ATUACAO) = true /\
             nao_texto (columns df) r = true)
  \/ (forall r, r ∈ rows df -> notna (cell_at r NUCLEO_DE_ATUACAO) = true ->
                nao_texto (columns df) r = false).
Proof.
  destruct (existsb (fun r => notna (cell_at r NUCLEO_DE_ATUACAO)
                              && nao_texto (columns df) r) (rows df)) eqn:Hex.
  - left. apply existsb_exists in Hex as (r & Hr & Hb).
    apply andb_true_iff in Hb as [Hcat Hbad]. apply list_elem_of_In in Hr. eauto.
  - right. intros r Hr Hcat.
    destruct (nao_texto (columns df) r) eqn:Hbad; [|reflexivity].
    assert (Hex' : existsb (fun r => notna (cell_at r NUCLEO_DE_ATUACAO)
                                     && nao_texto (columns df) r) (rows df) = true).
    { apply existsb_exists. exists r. split; [apply list_elem_of_In, Hr|].
      rewrite Hcat, Hbad. reflexivity. }
    congruence.
Qed.

(** C10: the loop over the rows raises nothing when every coordinate
    field is absent, missing or a text; a row with a category whose
    coordinate field is present and is not a text makes the loop raise
    TypeError, and a run that reaches the loop ends with that TypeError. *)
Theorem marker_loop_TypeError (df_ocorrencias : DataFrame) :
  Forall (fun c => c ∈ columns df_ocorrencias) colunas_lidas ->
  ((forall r, r ∈ rows df_ocorrencias ->
      notna (cell_at r NUCLEO_DE_ATUACAO) = true ->
      GEOLOCATION ∉ columns df_ocorrencias \/
      notna (cell_at r GEOLOCATION) = false \/
      exists s, cell_at r GEOLOCATION = Str s) ->
   exists fgs, camadas (com_datas df_ocorrencias) = Ok fgs)
  /\ (forall r, r ∈ rows df_ocorrencias ->
        notna (cell_at r NUCLEO_DE_ATUACAO) = true ->
        GEOLOCATION ∈ columns df_ocorrencias ->
        notna (cell_at r GEOLOCATION) = true ->
        (forall s, cell_at r GEOLOCATION <> Str s) ->
        camadas (com_datas df_ocorrencias) = Raise TypeError
        /\ forall df_area,
             empty df_ocorrencias = false -> empty df_area = false ->
             nucleos_comparaveis df_ocorrencias = true ->
             to_datetime_error lib (coluna_datas df_ocorrencias) = None ->
             Element_error lib (painel df_ocorrencias df_area) = None ->
             main df_ocorrencias df_area = Raise TypeError).
Proof.
  intros Hcols. split.
  - intros Hall. apply layers_total; [exact Hcols|].
    intros r Hr Hcat.
    destruct (nao_texto (columns df_ocorrencias) r) eqn:Hbad; [|reflexivity].
    apply nao_texto_true in Hbad as (Hg & Hna & Hs).
    destruct (Hall r Hr Hcat) as [H|[H|[s H]]];
      [contradiction | congruence | exfalso; apply (Hs s), H].
  - intros r Hr Hcat Hg Hna Hs.
    assert (Hbad : nao_texto (columns df_ocorrencias) r = true)
      by (apply nao_texto_true; auto).
    assert (Hloop := layers_TypeError _ r Hcols Hr Hcat Hbad).
    split; [exact Hloop|].
    intros df_area He1 He2 Hcmp Hdt Hel.
    rewrite (main_run lib) by assumption.
    rewrite Hel. cbn [mbind result_bind raise_if].
    rewrite Hloop. reflexivity.
Qed.

(** A run returns exactly when both tables have rows and columns, the
    occurrence table has the five columns that are read, its categories
    can be sorted, the date parser and the template parser raise
    nothing, no row with a category has a coordinate field that is
    present and not a text, and the saving of the map raises nothing. *)
Theorem main_Ok_iff (df_ocorrencias df_area : DataFrame) :
  (exists out, main df_ocorrencias df_area = Ok out) <->
  empty df_ocorrencias = false /\ empty df_area = false /\
  Forall (fun c => c ∈ columns df_ocorrencias) colunas_lidas /\
  nucleos_comparaveis df_ocorrencias = true /\
  to_datetime_error lib (coluna_datas df_ocorrencias) = None /\
  Element_error lib (painel df_ocorrencias df_area) = None /\
  (forall r, r ∈ rows df_ocorrencias ->
             notna (cell_at r NUCLEO_DE_ATUACAO) = true ->
             nao_texto (columns df_ocorrencias) r = false) /\
  (forall fgs, camadas (com_datas df_ocorrencias) = Ok fgs ->
               save_error lib (painel df_ocorrencias df_area) fgs = None).
Proof.
  split.
  - intros [out H]. destruct (main_Ok_inv _ _ _ _ H)
      as (He1 & He2 & Hcols & Hcmp & Hdt & Hel & fgs & Hfgs & Hsave & _).
    assert (Hn : NUCLEO_DE_ATUACAO ∈ columns df_ocorrencias)
      by (apply Forall_cons in Hcols as [Hn _]; exact Hn).
    rewrite <- (camadas_com_datas lib) in Hfgs by exact Hn.
    split_and!; try assumption.
    + intros r Hr Hcat.
      destruct (nao_texto (columns df_ocorrencias) r) eqn:Hbad; [|reflexivity].
      rewrite (layers_TypeError _ r Hcols Hr Hcat Hbad) in Hfgs. discriminate.
    + intros fgs' Hfgs'. rewrite Hfgs in Hfgs'. inversion Hfgs'; subst fgs'.
      exact Hsave.
  - intros (He1 & He2 & Hcols & Hcmp & Hdt & Hel & Hall & Hsave).
    destruct (layers_total _ Hcols Hall) as [fgs Hfgs].
    exists (saida_de df_ocorrencias df_area fgs).
    rewrite (main_run lib) by assumption.
    rewrite Hel. cbn [mbind result_bind raise_if].
    rewrite Hfgs. cbn [mbind result_bind].
    rewrite (Hsave fgs Hfgs). reflexivity.
Qed.

(** The first of the columns read that the occurrence table lacks is the
    one a KeyError names; for the date column, which is read after the
    grouping, when the categories can be sorted. *)
Theorem main_KeyError (df_ocorrencias df_area : DataFrame)
    (antes depois : list string) (c : string) :
  empty df_ocorrencias = false -> empty df_area = false ->
  colunas_lidas = antes ++ c :: depois ->
  Forall (fun k => k ∈ columns df_ocorrencias) antes ->
  c ∉ columns df_ocorrencias ->
  (c = DATA_CADASTRO -> nucleos_comparaveis df_ocorrencias = true) ->
  main df_ocorrencias df_area = Raise (KeyError c).
Proof. apply main_missing_column. Qed.

(** The exceptions of a run, in the order of the steps that raise them:
    SystemExit for an empty table; KeyError for the first missing column;
    TypeError for categories that cannot be sorted; what the date parser
    raises; what the template parser raises on the panel; TypeError for a
    coordinate field that is present and not a text (a ValueError never
    leaves the loop); what the saving of the map raises. *)
Theorem main_exceptions (df_ocorrencias df_area : DataFrame) (e : exn) :
  main df_ocorrencias df_area = Raise e ->
  (e = SystemExit /\ (empty df_ocorrencias = true \/ empty df_area = true))
  \/ (exists c, e = KeyError c /\ c ∈ colunas_lidas /\ c ∉ columns df_ocorrencias)
  \/ (e = TypeError /\ nucleos_comparaveis df_ocorrencias = false)
  \/ to_datetime_error lib (coluna_datas df_ocorrencias) = Some e
  \/ Element_error lib (painel df_ocorrencias df_area) = Some e
  \/ (e = TypeError /\
      camadas (com_datas df_ocorrencias) = Raise TypeError /\
      exists r, r ∈ rows df_ocorrencias /\
                notna (cell_at r NUCLEO_DE_ATUACAO) = true /\
                GEOLOCATION ∈ columns df_ocorrencias /\
                notna (cell_at r GEOLOCATION) = true /\
                forall s, cell_at r GEOLOCATION <> Str s)
  \/ (exists fgs, camadas (com_datas df_ocorrencias) = Ok fgs /\
                  save_error lib (painel df_ocorrencias df_area) fgs = Some e).
Proof.
  intros H.
  destruct (empty df_ocorrencias) eqn:He1.
  { left. rewrite main_SystemExit in H by auto. inversion H. auto. }
  destruct (empty df_area) eqn:He2.
  { left. rewrite main_SystemExit in H by auto. inversion H. auto. }
  right.
  destruct (nucleos_comparaveis df_ocorrencias) eqn:Hcmp.
  - destruct (decide (Forall (fun c => c ∈ columns df_ocorrencias) colunas_lidas))
      as [Hcols|Hcols].
    + right. right. rewrite (main_passos lib) in H by assumption.
      rewrite Hcmp in H.
      destruct (to_datetime_error lib (coluna_datas df_ocorrencias)) as [e1|].
      { left. inversion H. reflexivity. }
      right. cbn [mbind result_bind raise_if] in H.
      destruct (Element_error lib (painel df_ocorrencias df_area)) as [e2|].
      { left. inversion H. reflexivity. }
      right. cbn [mbind result_bind raise_if] in H.
      destruct (linha_nao_texto df_ocorrencias) as [(r & Hr & Hcat & Hbad)|Hall].
      * left. assert (Hloop := layers_TypeError _ r Hcols Hr Hcat Hbad).
        rewrite Hloop in H. inversion H.
        split; [reflexivity|]. split; [exact Hloop|].
        apply nao_texto_true in Hbad as (Hg & Hna & Hs). eauto 10.
      * right. destruct (layers_total _ Hcols Hall) as [fgs Hfgs].
        exists fgs. split; [exact Hfgs|]. rewrite Hfgs in H.
        cbn [mbind result_bind] in H.
        destruct (save_error lib (painel df_ocorrencias df_area) fgs) as [e3|];
          [|discriminate].
        inversion H. reflexivity.
    + left. apply first_missing in Hcols as (antes & c & depois & Hsplit & Hantes & Hc).
      rewrite (main_missing_column _ _ _ antes depois c He1 He2 Hsplit Hantes Hc)
        in H by (intros _; exact Hcmp).
      inversion H. exists c. split_and!; [reflexivity| |exact Hc].
      rewrite Hsplit. apply elem_of_app. right. left.
  - destruct (decide (Forall (fun c => c ∈ columns df_ocorrencias)
                             [NUCLEO_DE_ATUACAO; OCORRENCIA_CADASTRO;
                              OCORRENCIA_CAIXA_UMA; OCORRENCIA_LIGACAO]))
      as [Hcols|Hcols].
    + right. left.
      apply Forall_cons in Hcols as [Hn Hcols]. apply Forall_cons in Hcols as [Ho Hcols].
      apply Forall_cons in Hcols as [Hc Hcols]. apply Forall_cons in Hcols as [Hl _].
      rewrite (main_TypeError_chaves lib) in H by assumption.
      inversion H. auto.
    + left. apply first_missing in Hcols as (antes & c & depois & Hsplit & Hantes & Hc).
      assert (Hne : c <> DATA_CADASTRO).
      { intros ->. assert (Hin : DATA_CADASTRO ∈ [NUCLEO_DE_ATUACAO;
                              OCORRENCIA_CADASTRO; OCORRENCIA_CAIXA_UMA;
                              OCORRENCIA_LIGACAO]).
        { rewrite Hsplit. apply elem_of_app. right. left. }
        revert Hin. clear. intros Hin.
        repeat (apply elem_of_cons in Hin as [Hin|Hin]; [discriminate Hin|]).
        inversion Hin. }
      rewrite (main_missing_column _ _ _ antes (depois ++ [DATA_CADASTRO]) c
                 He1 He2) in H; [| |exact Hantes|exact Hc|congruence].
      * inversion H. exists c. split_and!; [reflexivity| |exact Hc].
        unfold colunas_lidas.
        change [NUCLEO_DE_ATUACAO; OCORRENCIA_CADASTRO; OCORRENCIA_CAIXA_UMA;
                OCORRENCIA_LIGACAO; DATA_CADASTRO]
          with ([NUCLEO_DE_ATUACAO; OCORRENCIA_CADASTRO; OCORRENCIA_CAIXA_UMA;
                 OCORRENCIA_LIGACAO] ++ [DATA_CADASTRO]).
        rewrite Hsplit. apply elem_of_app. left. apply elem_of_app. right. left.
      * unfold colunas_lidas.
        change [NUCLEO_DE_ATUACAO; OCORRENCIA_CADASTRO; OCORRENCIA_CAIXA_UMA;
                OCORRENCIA_LIGACAO; DATA_CADASTRO]
          with ([NUCLEO_DE_ATUACAO; OCORRENCIA_CADASTRO; OCORRENCIA_CAIXA_UMA;
                 OCORRENCIA_LIGACAO] ++ [DATA_CADASTRO]).
        rewrite Hsplit. rewrite <- app_assoc. reflexivity.
Qed.

(** The overall total of occurrences is the sum of the counts of
    CategorySummary. *)
Theorem total_ocorrencias_sum (df_ocorrencias df_area : DataFrame) (out : Output) :
  main df_ocorrencias df_area = Ok out ->
  total_ocorrencias out = sum_list (map snd (resumo_nucleo out)).
Proof.
  intros H. destruct (main_Ok_inv _ _ _ _ H)
    as (_ & _ & _ & _ & _ & _ & fgs & _ & _ & ->).
  unfold saida_de. cbn [total_ocorrencias resumo_nucleo].
  rewrite groupby_count_total, category_total. reflexivity.
Qed.

(** Each of the three totals counts the rows that have a category and a
    value in its column, so none exceeds the number of rows that have a
    category, and rows without a category count in none. *)
Theorem totais_presentes (df_ocorrencias df_area : DataFrame) (out : Output) :
  main df_ocorrencias df_area = Ok out ->
  total_ocorrencias out = presentes df_ocorrencias OCORRENCIA_CADASTRO
  /\ soma_caixa_uma out = presentes df_ocorrencias OCORRENCIA_CAIXA_UMA
  /\ total_quantidade_instalacao out = presentes df_ocorrencias OCORRENCIA_LIGACAO
  /\ (forall c, presentes df_ocorrencias c <= length (com_nucleo df_ocorrencias)
                <= length (rows df_ocorrencias))%nat.
Proof.
  intros H. destruct (main_Ok_inv _ _ _ _ H)
    as (_ & _ & _ & _ & _ & _ & fgs & _ & _ & ->).
  unfold saida_de. cbn [total_ocorrencias soma_caixa_uma total_quantidade_instalacao].
  split_and!; try reflexivity.
  intros c. unfold presentes, com_nucleo. split.
  - rewrite <- filter_filter_length. apply filter_length_le.
  - apply filter_length_le.
Qed.

(** A column all of whose texts spell integers of the range of int64. *)
Lemma to_numeric_Int64 (col : list string) :
  Forall (fun t => exists z x, ler t = Inteiro z x /\
                               INT64_MIN <= z <= INT64_MAX) col ->
  to_numeric col = Int64 (map (fun t => inteiro (ler t)) col).
Proof.
  intros Hall. unfold to_numeric.
  assert (Hf : existsb (fun r => match r with
                                 | Inteiro z _ => (z <? INT64_MIN) || (UINT64_MAX <? z)
                                 | _ => true
                                 end) (map ler col) = false
               /\ uint_ (map ler col) = false).
  { unfold uint_. induction Hall as [|t l (z & x & Ht & Hz) _ [IH1 IH2]];
      [split; reflexivity|].
    simpl. rewrite Ht, IH1, IH2.
    unfold INT64_MIN, INT64_MAX, UINT64_MAX in *.
    split; apply orb_false_iff; split; try reflexivity.
    - apply orb_false_iff. split; lia.
    - apply andb_false_iff. left. lia. }
  destruct Hf as [Hf Hu]. unfold float_. rewrite Hf, Hu. cbn [orb andb].
  rewrite map_map. reflexivity.
Qed.

(** The total of a coverage column: 0.0, with no exception, when the
    table has no such column; otherwise the sum of the column that the
    normaliser returns, which is a float64 column, with NaN counted as
    0.0, as soon as one cell is no number, and an int64 column, added up
    with wrap-around, when every cell spells an integer of that range. *)
Theorem total_rede_coluna (df_ocorrencias df_area : DataFrame) (out : Output) :
  main df_ocorrencias df_area = Ok out ->
  total_rede_esgoto out = total_rede df_area REDE_ESGOTO
  /\ total_rede_agua out = total_rede df_area REDE_AGUA
  /\ forall c, let col := map (fun r => cell_at r c) (rows df_area) in
     (c ∉ columns df_area -> total_rede df_area c = NFloat zero)
     /\ (c ∈ columns df_area ->
         total_rede df_area c = sum (to_numeric (map texto col)))
     /\ (c ∈ columns df_area ->
         (exists k, k ∈ col /\ ler (texto k) = Invalido) ->
         total_rede df_area c
         = NFloat (np_sum lib (map fillna0 (map normalizar col))))
     /\ (c ∈ columns df_area ->
         Forall (fun k => exists z x, ler (texto k) = Inteiro z x /\
                                      INT64_MIN <= z <= INT64_MAX) col ->
         total_rede df_area c
         = NInt (foldl (fun a z => int64 (a + z)) 0
                       (map (fun k => inteiro (ler (texto k))) col))).
Proof.
  intros H. destruct (main_Ok_inv _ _ _ _ H)
    as (_ & He2 & _ & _ & _ & _ & fgs & _ & _ & ->).
  unfold saida_de. cbn [total_rede_esgoto total_rede_agua].
  split; [reflexivity|]. split; [reflexivity|].
  intros c. set (col := map (fun r => cell_at r c) (rows df_area)).
  assert (Hpres : c ∈ columns df_area ->
            total_rede df_area c = sum (to_numeric (map texto col))).
  { intros Hc. unfold total_rede, coluna_rede. rewrite decide_True by exact Hc.
    fold col. rewrite alinhar_to_numeric; [reflexivity|].
    unfold col. rewrite !length_map. reflexivity. }
  split_and!.
  - intros Hc. unfold total_rede, coluna_rede. rewrite decide_False by exact Hc.
    rewrite alinhar_vazia by (apply empty_rows; exact He2).
    apply sum_all_nan. apply Forall_fmap, Forall_forall. intros r _. reflexivity.
  - exact Hpres.
  - intros Hc (k & Hk & Hler). rewrite (Hpres Hc).
    rewrite (to_numeric_Invalido _ (texto k));
      [|apply list_elem_of_fmap; eauto|exact Hler].
    rewrite map_map. reflexivity.
  - intros Hc Hall. rewrite (Hpres Hc).
    rewrite to_numeric_Int64.
    + rewrite map_map. reflexivity.
    + apply Forall_fmap. exact Hall.
Qed.

Lemma main_layers_Forall2 (df_ocorrencias df_area : DataFrame) (out : Output) :
  main df_ocorrencias df_area = Ok out ->
  Forall (fun c => c ∈ columns df_ocorrencias) colunas_lidas /\
  Forall2 (fun k L => layer_of (com_datas df_ocorrencias)
                        (cores_nucleo (first_seen df_ocorrencias)) k = Ok L)
          (first_seen df_ocorrencias) (layers out).
Proof.
  intros H. destruct (main_Ok_inv _ _ _ _ H)
    as (_ & _ & Hcols & _ & _ & _ & fgs & Hfgs & _ & ->).
  split; [exact Hcols|]. apply mapM_Ok in Hfgs. exact Hfgs.
Qed.

(** The map has exactly one layer for each category of the table, also
    for a category none of whose rows gives a marker. *)
Theorem layers_one_per_category (df_ocorrencias df_area : DataFrame)
    (out : Output) :
  main df_ocorrencias df_area = Ok out ->
  NoDup (map name (layers out))
  /\ (forall k, k ∈ map name (layers out) <->
        notna k = true /\
        exists r, r ∈ rows df_ocorrencias /\ cell_at r NUCLEO_DE_ATUACAO = k)
  /\ length (layers out) = length (first_seen df_ocorrencias).
Proof.
  intros H. apply main_layers_Forall2 in H as [Hcols H].
  assert (Hnames : map name (layers out) = first_seen df_ocorrencias).
  { induction H as [|k L ks Ls HL _ IH]; simpl; [reflexivity|].
    unfold layer_of in HL. apply bind_Ok in HL as (dfn & _ & HL).
    apply bind_Ok in HL as (ms & _ & HL). inversion HL. simpl.
    rewrite IH. reflexivity. }
  rewrite Hnames. split_and!.
  - apply NoDup_unique.
  - intros k. apply elem_of_first_seen.
  - rewrite <- Hnames. symmetry. apply length_map.
Qed.

(** The markers of the layers that the loop builds. *)
Lemma camadas_markers (df : DataFrame) (fgs : list Layer) (i : nat) (L : Layer) :
  Forall (fun c => c ∈ columns df) colunas_lidas ->
  camadas (com_datas df) = Ok fgs ->
  fgs !! i = Some L ->
  first_seen df !! i = Some (name L) /\
  markers L
  = omap (marcador (columns df) (cores !!! (i mod 8)%nat))
         (List.filter
            (fun r => bool_decide (cell_at r NUCLEO_DE_ATUACAO = name L))
            (rows df)).
Proof.
  intros Hcols H Hi.
  rewrite camadas_com_datas in H
    by (apply Forall_cons in Hcols as [Hn _]; exact Hn).
  apply mapM_Ok in H.
  destruct (Forall2_lookup_r _ _ _ _ _ H Hi) as (k & Hk & HL).
  assert (Hnk : notna k = true).
  { apply list_elem_of_lookup_2, elem_of_first_seen in Hk. tauto. }
  assert (Hc := cores_nucleo_lookup _ i k (NoDup_unique _) Hk).
  destruct (layer_of_markers _ _ _ _ _ Hcols Hnk Hc HL) as [Hname Hms].
  rewrite Hname. split; [exact Hk | exact Hms].
Qed.

(** The layer of a category holds, in the order of the rows, one marker
    for each row of the category whose coordinate text has two numeric
    parts: at that position, with the popup of the row and the colour of
    the category. *)
Theorem layer_markers (df_ocorrencias df_area : DataFrame) (out : Output)
    (i : nat) (L : Layer) :
  main df_ocorrencias df_area = Ok out ->
  layers out !! i = Some L ->
  first_seen df_ocorrencias !! i = Some (name L) /\
  markers L
  = omap (marcador (columns df_ocorrencias) (cores !!! (i mod 8)%nat))
         (List.filter
            (fun r => bool_decide (cell_at r NUCLEO_DE_ATUACAO = name L))
            (rows df_ocorrencias)).
Proof.
  intros H Hi. destruct (main_Ok_inv _ _ _ _ H)
    as (_ & _ & Hcols & _ & _ & _ & fgs & Hfgs & _ & ->).
  cbn [layers] in Hi.
  apply (camadas_markers _ fgs); [exact Hcols| |exact Hi].
  rewrite camadas_com_datas
    by (apply Forall_cons in Hcols as [Hn _]; exact Hn).
  exact Hfgs.
Qed.

(** On a table without the coordinate column the loop builds the layer
    of every category, and no layer has a marker. *)
Theorem sem_geolocation (df_ocorrencias : DataFrame) :
  Forall (fun c => c ∈ columns df_ocorrencias) colunas_lidas ->
  GEOLOCATION ∉ columns df_ocorrencias ->
  exists fgs, camadas (com_datas df_ocorrencias) = Ok fgs /\
              map name fgs = first_seen df_ocorrencias /\
              Forall (fun L => markers L = []) fgs.
Proof.
  intros Hcols Hg.
  assert (Hnt : forall r, nao_texto (columns df_ocorrencias) r = false).
  { intros r. unfold nao_texto, row_get. rewrite decide_False by exact Hg.
    reflexivity. }
  destruct (layers_total _ Hcols (fun r _ _ => Hnt r)) as [fgs Hfgs].
  exists fgs. split; [exact Hfgs|]. split.
  - apply list_eq. intros i. rewrite list_lookup_fmap.
    destruct (fgs !! i) as [L|] eqn:Hi; simpl.
    + destruct (camadas_markers _ _ _ _ Hcols Hfgs Hi) as [-> _]. reflexivity.
    + rewrite camadas_com_datas in Hfgs
        by (apply Forall_cons in Hcols as [Hn _]; exact Hn).
      apply mapM_Ok, Forall2_length in Hfgs.
      apply lookup_ge_None in Hi. symmetry. apply lookup_ge_None. lia.
  - apply Forall_forall. intros L HL.
    apply list_elem_of_lookup in HL as [i Hi].
    destruct (camadas_markers _ _ _ _ Hcols Hfgs Hi) as [_ ->].
    apply omap_None. intros r. unfold marcador, coordenadas, row_get.
    rewrite decide_False by exact Hg. reflexivity.
Qed.

(** In a table without the employee column every popup shows the
    placeholder N/A. *)
Theorem popup_sem_funcionario (df_ocorrencias df_area : DataFrame) (out : Output)
    (L : Layer) (m : Marker) :
  main df_ocorrencias df_area = Ok out ->
  FUNCIONARIO_CADASTRO ∉ columns df_ocorrencias ->
  L ∈ layers out -> m ∈ markers L ->
  exists r, r ∈ rows df_ocorrencias /\
    popup m = popup_html (py_str (cell_at r NUCLEO_DE_ATUACAO))
                         (py_str (cell_at r OCORRENCIA_CADASTRO)) "N/A".
Proof.
  intros H Hf HL Hm.
  destruct (popup_funcionario _ _ _ _ _ _ H HL Hm) as (r & Hr & Hp).
  rewrite decide_False in Hp by exact Hf. eauto.
Qed.

(** When no row has a category and the libraries raise nothing on the
    empty date column, on the panel and on the map without layers, the
    run returns: no layers, empty summaries and zero totals. *)
Theorem sem_nucleos (df_ocorrencias df_area : DataFrame) :
  empty df_ocorrencias = false -> empty df_area = false ->
  Forall (fun c => c ∈ columns df_ocorrencias) colunas_lidas ->
  (forall r, r ∈ rows df_ocorrencias ->
             notna (cell_at r NUCLEO_DE_ATUACAO) = false) ->
  to_datetime_error lib [] = None ->
  Element_error lib (painel df_ocorrencias df_area) = None ->
  save_error lib (painel df_ocorrencias df_area) [] = None ->
  exists out, main df_ocorrencias df_area = Ok out
    /\ layers out = [] /\ resumo_nucleo out = [] /\ resumo_data out = []
    /\ total_ocorrencias out = 0%nat /\ soma_caixa_uma out = 0%nat
    /\ total_quantidade_instalacao out = 0%nat.
Proof.
  intros He1 He2 Hcols Hall Hdt Hel Hsave.
  assert (Hcn : com_nucleo df_ocorrencias = []).
  { unfold com_nucleo. induction (rows df_ocorrencias) as [|r l IH]; simpl.
    - reflexivity.
    - rewrite (Hall r) by left. apply IH. intros r' Hr'. apply Hall. right. exact Hr'. }
  assert (Hfs : first_seen df_ocorrencias = []).
  { unfold first_seen. rewrite Hcn. reflexivity. }
  assert (Hp : forall c, presentes df_ocorrencias c = 0%nat).
  { intros c. pose proof (count_presentes df_ocorrencias c) as H.
    rewrite Hcn in H. symmetry. exact H. }
  assert (Hcd : coluna_datas df_ocorrencias = []).
  { unfold coluna_datas. rewrite Hcn. reflexivity. }
  exists (saida_de df_ocorrencias df_area []).
  rewrite (main_run lib); try assumption.
  - rewrite Hel. cbn [mbind result_bind raise_if].
    rewrite camadas_com_datas
      by (apply Forall_cons in Hcols as [Hn _]; exact Hn).
    rewrite Hfs. cbn [mapM mbind result_bind mret result_ret].
    rewrite Hsave. split; [reflexivity|].
    unfold saida_de, datas.
    cbn [layers resumo_nucleo resumo_data total_ocorrencias soma_caixa_uma
         total_quantidade_instalacao].
    rewrite Hcd, Hcn, !Hp. split_and!; reflexivity.
  - unfold nucleos_comparaveis. rewrite Hfs. reflexivity.
  - rewrite Hcd. exact Hdt.
Qed.
End Extras.

(** A value written with a period normalises as the same value written
    with a comma. *)
Theorem normalizar_ponto (lib : Biblioteca) (t : string) :
  normalizar lib (Str (replace "," "." t))
  = normalizar lib (Str t).
Proof.
  unfold normalizar, texto. simpl. f_equal. f_equal. unfold replace.
  rewrite chars_text.
  f_equal. rewrite map_map. apply map_ext. intros c.
  destruct (Ascii.eqb c ",") eqn:E; [reflexivity|]. rewrite E. reflexivity.
Qed.

(** * The script on sample tables *)

Lemma exemplo_main :
  main Exemplo.lib Exemplo.ocorrencias Exemplo.area = Ok Exemplo.saida.
Proof. vm_compute. reflexivity. Qed.

Ltac by_decide :=
  match goal with
  | |- ?P => refine (bool_decide_unpack P _); vm_compute; exact I
  end.

(** Coordinates written with Arabic-Indic digits give a marker, as
    [float()] reads them. *)
Lemma exemplo_algarismos :
  marker_of_row Exemplo.lib Exemplo.colunas (cores_nucleo [Str "B"; Str "A"])
    (Str "B") Exemplo.linha_B_arabe
  = Ok (Some {| location := (of_decimal false 1 0, of_decimal false 2 0);
                popup := popup_html "B" "x" "Ana";
                icon_color := "red" |}).
Proof. vm_compute. reflexivity. Qed.

(** Categories that are numbers come in the order of their values, not
    in the order of the rows. *)
Lemma exemplo_numeros :
  first_seen Exemplo.ocorrencias_numeros
  = [Num (of_decimal false 2 0); Num (of_decimal false 1 0)]
  /\ exists out,
       main Exemplo.lib Exemplo.ocorrencias_numeros Exemplo.area = Ok out /\
       resumo_nucleo out
       = [(Num (of_decimal false 1 0), 2%nat); (Num (of_decimal false 2 0), 1%nat)].
Proof.
  split; [vm_compute; reflexivity|].
  eexists. split; vm_compute; reflexivity.
Qed.

(** A number and a timestamp among the categories end the run where the
    categories are grouped. *)
Lemma exemplo_mistas :
  nucleos_comparaveis Exemplo.ocorrencias_mistas = false
  /\ main Exemplo.lib Exemplo.ocorrencias_mistas Exemplo.area = Raise TypeError.
Proof. split; vm_compute; reflexivity. Qed.

(** The sum of a column depends on the places of its entries: 1e16 and
    seven times 1 fall into eight separate running sums and add up to
    1e16 + 6, and after one more entry 0.0 in front they are added one
    after the other, to 1e16 + 8. *)
Lemma exemplo_soma_1e16 :
  sum Exemplo.lib (Float64 Exemplo.coluna_1e16)
  = NFloat (of_decimal false 10000000000000006 0)
  /\ sum Exemplo.lib (Float64 (zero :: Exemplo.coluna_1e16))
     = NFloat (of_decimal false 10000000000000008 0)
  /\ sum Exemplo.lib (Float64 (nan :: Exemplo.coluna_1e16))
     = NFloat (of_decimal false 10000000000000008 0).
Proof. split_and!; vm_compute; reflexivity. Qed.

(** A column of whole numbers is added up in int64, with wrap-around. *)
Lemma exemplo_inteiros :
  total_rede Exemplo.lib Exemplo.area_inteiros REDE_ESGOTO = NInt (- 2 ^ 63)
  /\ total_rede Exemplo.lib Exemplo.area_inteiros REDE_AGUA = NInt 3.
Proof. split; vm_compute; reflexivity. Qed.

(** A literal beyond the range of float64 is no number for
    [pd.to_numeric], and infinite for [float()]. *)
Lemma exemplo_1e400 :
  ler "1e400" = Invalido
  /\ py_float Exemplo.lib "1e400" = Some (S754_infinity false).
Proof. split; vm_compute; reflexivity. Qed.

(** The parser of [pd.to_numeric] multiplies by a rounded power of ten:
    it reads "3e23" as the float next below the nearest one, which is
    the one that [float()] gives. *)
Lemma exemplo_3e23 :
  valor (ler "3e23") = S754_finite false 8940696716308593 25
  /\ py_float Exemplo.lib "3e23" = Some (S754_finite false 8940696716308594 25).
Proof. split; vm_compute; reflexivity. Qed.

(** The first row of the sample table: one comma, two numeric parts. *)
Lemma coordinate_parsing_witness :
  marker_of_row Exemplo.lib Exemplo.colunas
    (cores_nucleo [Str "B"; Str "A"]) (Str "B") Exemplo.linha_B
  = Ok (Some {| location := (of_decimal true 2355 (-2), of_decimal true 4663 (-2));
                popup := popup_text Exemplo.lib Exemplo.colunas Exemplo.linha_B;
                icon_color := "red" |}).
Proof.
  refine (proj1 (coordinate_parsing Exemplo.lib
                   Exemplo.colunas (cores_nucleo [Str "B"; Str "A"]) (Str "B")
                   Exemplo.linha_B "red" "-23.55,-46.63" _ _ _ _ _)
                "-23.55" "-46.63" _ _ _ _ _ _ _ _ _).
  - by_decide.
  - by_decide.
  - by_decide.
  - vm_compute. reflexivity.
  - vm_compute. reflexivity.
  - reflexivity.
  - reflexivity.
  - reflexivity.
  - vm_compute. reflexivity.
  - vm_compute. reflexivity.
  - vm_compute. reflexivity.
  - vm_compute. reflexivity.
Defined.

(** C2 as stated fails: the sample table shows "B" before "A", and the
    keys of CategorySummary are "A", "B". *)
Lemma resumo_nucleo_first_seen_counterexample :
  main Exemplo.lib Exemplo.ocorrencias Exemplo.area = Ok Exemplo.saida
  /\ first_seen Exemplo.ocorrencias = [Str "B"; Str "A"]
  /\ map fst (resumo_nucleo Exemplo.saida) = [Str "A"; Str "B"]
  /\ map fst (resumo_nucleo Exemplo.saida) <> first_seen Exemplo.ocorrencias.
Proof.
  split_and!; try (vm_compute; reflexivity).
  vm_compute. discriminate.
Qed.

Lemma resumo_nucleo_keys_ascending_witness :
  let keys := map fst (resumo_nucleo Exemplo.saida) in
  NoDup keys
  /\ (forall k, k ∈ keys <-> k ∈ first_seen Exemplo.ocorrencias)
  /\ StronglySorted (le cell_leb) keys
  /\ (forall i j a b, (i < j)%nat ->
        keys !! i = Some (Str a) -> keys !! j = Some (Str b) ->
        String.ltb a b = true)
  /\ (forall i j x y, (i < j)%nat ->
        keys !! i = Some (Num x) -> keys !! j = Some (Num y) ->
        Float.leb x y = true /\
        (Float.ltb x y = true \/
         exists s t, x = S754_zero s /\ y = S754_zero t))
  /\ (forall i j m n, (i < j)%nat ->
        keys !! i = Some (Timestamp m) -> keys !! j = Some (Timestamp n) ->
        m < n)
  /\ (forall i j a b, (i < j)%nat ->
        keys !! i = Some (Str a) -> keys !! j = Some b -> is_Str b = true)
  /\ (forall x n, Num x ∈ keys -> Timestamp n ∈ keys -> False).
Proof.
  apply (resumo_nucleo_keys_ascending Exemplo.lib Exemplo.ocorrencias
           Exemplo.area Exemplo.saida).
  vm_compute. reflexivity.
Defined.

(** C3 as stated fails: three rows of the sample table have a category,
    and the values of CategorySummary add up to two. *)
Lemma resumo_nucleo_total_counterexample :
  main Exemplo.lib Exemplo.ocorrencias Exemplo.area = Ok Exemplo.saida
  /\ sum_list (map snd (resumo_nucleo Exemplo.saida)) = 2%nat
  /\ length (List.filter (fun r => notna (cell_at r NUCLEO_DE_ATUACAO))
                         (rows Exemplo.ocorrencias)) = 3%nat
  /\ sum_list (map snd (resumo_nucleo Exemplo.saida))
     <> length (List.filter (fun r => notna (cell_at r NUCLEO_DE_ATUACAO))
                            (rows Exemplo.ocorrencias)).
Proof.
  split_and!; try (vm_compute; reflexivity).
  vm_compute. discriminate.
Qed.

Lemma resumo_nucleo_total_witness :
  sum_list (map snd (resumo_nucleo Exemplo.saida))
  = length (List.filter
              (fun r => notna (cell_at r NUCLEO_DE_ATUACAO)
                        && notna (cell_at r OCORRENCIA_CADASTRO))
              (rows Exemplo.ocorrencias)).
Proof.
  apply (resumo_nucleo_total Exemplo.lib Exemplo.ocorrencias Exemplo.area
           Exemplo.saida).
  vm_compute. reflexivity.
Defined.

Lemma resumo_nucleo_count_witness :
  1%nat = length (List.filter
                    (fun r => bool_decide (cell_at r NUCLEO_DE_ATUACAO = Str "A")
                              && notna (cell_at r OCORRENCIA_CADASTRO))
                    (rows Exemplo.ocorrencias)).
Proof.
  apply (resumo_nucleo_count Exemplo.lib Exemplo.ocorrencias Exemplo.area
           Exemplo.saida).
  - vm_compute. reflexivity.
  - by_decide.
Defined.

(** C5 as stated fails: the coordinate text "inf,0" of the sample table
    gives a marker whose latitude is infinite. *)
Lemma marker_coordinates_finite_counterexample :
  main Exemplo.lib Exemplo.ocorrencias Exemplo.area = Ok Exemplo.saida
  /\ cell_at Exemplo.linha_A_inf GEOLOCATION = Str "inf,0"
  /\ {| name := Str "A"; markers := [Exemplo.marker_A] |} ∈ layers Exemplo.saida
  /\ location Exemplo.marker_A = (S754_infinity false, S754_zero false)
  /\ isfinite (location Exemplo.marker_A).1 = false.
Proof.
  split_and!; try (vm_compute; reflexivity).
  right. left.
Qed.

Lemma marker_coordinates_not_nan_witness :
  isnan (location Exemplo.marker_A).1 = false /\
  isnan (location Exemplo.marker_A).2 = false /\
  exists r s a b,
    r ∈ rows Exemplo.ocorrencias /\ cell_at r GEOLOCATION = Str s /\
    split "," s = [a; b] /\
    py_float Exemplo.lib a = Some (location Exemplo.marker_A).1 /\
    py_float Exemplo.lib b = Some (location Exemplo.marker_A).2.
Proof.
  apply (marker_coordinates_not_nan Exemplo.lib Exemplo.ocorrencias
           Exemplo.area Exemplo.saida
           {| name := Str "A"; markers := [Exemplo.marker_A] |}).
  - vm_compute. reflexivity.
  - right. left.
  - left.
Defined.

(** C6 on the code: the employee cell of the third sample row is missing
    and its column is present, and the popup reads "nan", not "N/A". *)
Theorem popup_missing_employee (lib : Biblioteca) :
  FUNCIONARIO_CADASTRO ∈ Exemplo.colunas
  /\ cell_at Exemplo.linha_A_inf FUNCIONARIO_CADASTRO = Num nan
  /\ marker_of_row lib Exemplo.colunas
       (cores_nucleo [Str "B"; Str "A"]) (Str "A") Exemplo.linha_A_inf
     = Ok (Some Exemplo.marker_A)
  /\ popup Exemplo.marker_A = popup_html "A" "nan" "nan".
Proof.
  split_and!; [by_decide | vm_compute; reflexivity .. ].
Qed.

Lemma color_assignment_witness :
  let nucleos := first_seen Exemplo.ocorrencias in
  length cores = 8%nat
  /\ map name (layers Exemplo.saida) = nucleos
  /\ (forall i c, nucleos !! i = Some c ->
        cores_nucleo nucleos !! c = Some (cores !!! (i mod 8)%nat))
  /\ (forall i L m, layers Exemplo.saida !! i = Some L -> m ∈ markers L ->
        icon_color m = cores !!! (i mod 8)%nat)
  /\ (forall c1 c9, nucleos !! 0%nat = Some c1 -> nucleos !! 8%nat = Some c9 ->
        cores_nucleo nucleos !! c9 = cores_nucleo nucleos !! c1).
Proof.
  apply (color_assignment Exemplo.lib Exemplo.ocorrencias Exemplo.area
           Exemplo.saida).
  vm_compute. reflexivity.
Defined.

Lemma resumo_data_by_date_witness :
  StronglySorted Z.lt (map fst (resumo_data Exemplo.saida))
  /\ (forall d n, (d, n) ∈ resumo_data Exemplo.saida <->
        Some d ∈ datas Exemplo.lib Exemplo.ocorrencias /\
        n = length (List.filter (fun o => bool_decide (o = Some d))
                                (datas Exemplo.lib Exemplo.ocorrencias)))
  /\ sum_list (map snd (resumo_data Exemplo.saida))
     = length (List.filter (fun o => bool_decide (is_Some o))
                           (datas Exemplo.lib Exemplo.ocorrencias))
  /\ length (datas Exemplo.lib Exemplo.ocorrencias)
     = length (com_nucleo Exemplo.ocorrencias)
  /\ total_ocorrencias Exemplo.saida
     = length (List.filter (fun r => notna (cell_at r OCORRENCIA_CADASTRO))
                           (com_nucleo Exemplo.ocorrencias)).
Proof.
  apply (resumo_data_by_date Exemplo.lib Exemplo.ocorrencias Exemplo.area
           Exemplo.saida).
  vm_compute. reflexivity.
Defined.

(** A number in the coordinate field of a row ends the loop, and the
    run. *)
Lemma marker_loop_TypeError_witness :
  camadas Exemplo.lib (com_datas Exemplo.lib Exemplo.ocorrencias_numero)
  = Raise TypeError
  /\ main Exemplo.lib Exemplo.ocorrencias_numero Exemplo.area = Raise TypeError.
Proof.
  destruct (proj2 (marker_loop_TypeError Exemplo.lib Exemplo.ocorrencias_numero
                     ltac:(by_decide))
              (Exemplo.linha (Str "A") (Str "y") (Exemplo.dia 1)
                             (Num (of_decimal false 1 0)) (Str "Ana"))
              ltac:(right; left) ltac:(vm_compute; reflexivity)
              ltac:(by_decide) ltac:(vm_compute; reflexivity)
              ltac:(intros s; vm_compute; discriminate)) as [H1 H2].
  split; [exact H1|]. apply H2.
  - reflexivity.
  - reflexivity.
  - vm_compute. reflexivity.
  - reflexivity.
  - reflexivity.
Defined.

(** ** The further properties on the sample tables *)

Lemma programa_SystemExit_witness :
  programa Exemplo.lib Exemplo.web_falha = Raise SystemExit.
Proof.
  apply (programa_SystemExit Exemplo.lib Exemplo.web_falha).
  - intros e. vm_compute. discriminate.
  - intros e. vm_compute. discriminate.
  - left. vm_compute. reflexivity.
Defined.

Lemma main_KeyError_witness :
  main Exemplo.lib (Exemplo.ocorrencias_sem DATA_CADASTRO) Exemplo.area
  = Raise (KeyError DATA_CADASTRO).
Proof.
  apply (main_KeyError Exemplo.lib (Exemplo.ocorrencias_sem DATA_CADASTRO)
           Exemplo.area
           [NUCLEO_DE_ATUACAO; OCORRENCIA_CADASTRO; OCORRENCIA_CAIXA_UMA;
            OCORRENCIA_LIGACAO] [] DATA_CADASTRO).
  - reflexivity.
  - reflexivity.
  - reflexivity.
  - by_decide.
  - by_decide.
  - intros _. vm_compute. reflexivity.
Defined.

Lemma main_exceptions_witness :
  (TypeError = SystemExit /\
   (empty Exemplo.ocorrencias_numero = true \/ empty Exemplo.area = true))
  \/ (exists c, TypeError = KeyError c /\ c ∈ colunas_lidas /\
                c ∉ columns Exemplo.ocorrencias_numero)
  \/ (TypeError = TypeError /\
      nucleos_comparaveis Exemplo.ocorrencias_numero = false)
  \/ to_datetime_error Exemplo.lib (coluna_datas Exemplo.ocorrencias_numero)
     = Some TypeError
  \/ Element_error Exemplo.lib
       (painel Exemplo.lib Exemplo.ocorrencias_numero Exemplo.area)
     = Some TypeError
  \/ (TypeError = TypeError /\
      camadas Exemplo.lib (com_datas Exemplo.lib Exemplo.ocorrencias_numero)
      = Raise TypeError /\
      exists r, r ∈ rows Exemplo.ocorrencias_numero /\
                notna (cell_at r NUCLEO_DE_ATUACAO) = true /\
                GEOLOCATION ∈ columns Exemplo.ocorrencias_numero /\
                notna (cell_at r GEOLOCATION) = true /\
                forall s, cell_at r GEOLOCATION <> Str s)
  \/ (exists fgs,
        camadas Exemplo.lib (com_datas Exemplo.lib Exemplo.ocorrencias_numero)
        = Ok fgs /\
        save_error Exemplo.lib
          (painel Exemplo.lib Exemplo.ocorrencias_numero Exemplo.area) fgs
        = Some TypeError).
Proof.
  apply (main_exceptions Exemplo.lib Exemplo.ocorrencias_numero Exemplo.area).
  vm_compute. reflexivity.
Defined.

Lemma total_ocorrencias_sum_witness :
  total_ocorrencias Exemplo.saida
  = sum_list (map snd (resumo_nucleo Exemplo.saida)).
Proof.
  apply (total_ocorrencias_sum Exemplo.lib Exemplo.ocorrencias Exemplo.area).
  vm_compute. reflexivity.
Defined.

Lemma totais_presentes_witness :
  total_ocorrencias Exemplo.saida
  = presentes Exemplo.ocorrencias OCORRENCIA_CADASTRO
  /\ soma_caixa_uma Exemplo.saida
     = presentes Exemplo.ocorrencias OCORRENCIA_CAIXA_UMA
  /\ total_quantidade_instalacao Exemplo.saida
     = presentes Exemplo.ocorrencias OCORRENCIA_LIGACAO
  /\ (forall c, presentes Exemplo.ocorrencias c
                <= length (com_nucleo Exemplo.ocorrencias)
                <= length (rows Exemplo.ocorrencias))%nat.
Proof.
  apply (totais_presentes Exemplo.lib Exemplo.ocorrencias Exemplo.area).
  vm_compute. reflexivity.
Defined.

Lemma total_rede_coluna_witness :
  total_rede_esgoto Exemplo.saida
  = total_rede Exemplo.lib Exemplo.area REDE_ESGOTO
  /\ total_rede_agua Exemplo.saida
     = total_rede Exemplo.lib Exemplo.area REDE_AGUA
  /\ forall c, let col := map (fun r => cell_at r c) (rows Exemplo.area) in
     (c ∉ columns Exemplo.area ->
      total_rede Exemplo.lib Exemplo.area c = NFloat zero)
     /\ (c ∈ columns Exemplo.area ->
         total_rede Exemplo.lib Exemplo.area c
         = sum Exemplo.lib (to_numeric (map (texto Exemplo.lib) col)))
     /\ (c ∈ columns Exemplo.area ->
         (exists k, k ∈ col /\ ler (texto Exemplo.lib k) = Invalido) ->
         total_rede Exemplo.lib Exemplo.area c
         = NFloat (np_sum Exemplo.lib
                     (map fillna0 (map (normalizar Exemplo.lib) col))))
     /\ (c ∈ columns Exemplo.area ->
         Forall (fun k => exists z x, ler (texto Exemplo.lib k) = Inteiro z x /\
                                      INT64_MIN <= z <= INT64_MAX) col ->
         total_rede Exemplo.lib Exemplo.area c
         = NInt (foldl (fun a z => int64 (a + z)) 0
                       (map (fun k => inteiro (ler (texto Exemplo.lib k))) col))).
Proof.
  apply (total_rede_coluna Exemplo.lib Exemplo.ocorrencias Exemplo.area).
  vm_compute. reflexivity.
Defined.

Lemma cores_mod_8_witness :
  cores_nucleo [Str "B"; Str "A"] !! Str "B"
  = cores_nucleo [Str "B"; Str "A"] !! Str "A"
  <-> (0 mod 8 = 1 mod 8)%nat.
Proof.
  apply (cores_mod_8 [Str "B"; Str "A"] 0 1 (Str "B") (Str "A")).
  - by_decide.
  - reflexivity.
  - reflexivity.
Defined.

Lemma layers_one_per_category_witness :
  NoDup (map name (layers Exemplo.saida))
  /\ (forall k, k ∈ map name (layers Exemplo.saida) <->
        notna k = true /\
        exists r, r ∈ rows Exemplo.ocorrencias /\ cell_at r NUCLEO_DE_ATUACAO = k)
  /\ length (layers Exemplo.saida) = length (first_seen Exemplo.ocorrencias).
Proof.
  apply (layers_one_per_category Exemplo.lib Exemplo.ocorrencias Exemplo.area).
  vm_compute. reflexivity.
Defined.

Lemma layer_markers_witness :
  first_seen Exemplo.ocorrencias !! 1%nat = Some (Str "A") /\
  [Exemplo.marker_A]
  = omap (marcador Exemplo.lib
            (columns Exemplo.ocorrencias) (cores !!! (1 mod 8)%nat))
         (List.filter
            (fun r => bool_decide (cell_at r NUCLEO_DE_ATUACAO = Str "A"))
            (rows Exemplo.ocorrencias)).
Proof.
  apply (layer_markers Exemplo.lib Exemplo.ocorrencias Exemplo.area
           Exemplo.saida
           1 {| name := Str "A"; markers := [Exemplo.marker_A] |}).
  - vm_compute. reflexivity.
  - reflexivity.
Defined.

Lemma sem_geolocation_witness :
  exists fgs,
    camadas Exemplo.lib
      (com_datas Exemplo.lib (Exemplo.ocorrencias_sem GEOLOCATION)) = Ok fgs
    /\ map name fgs = first_seen (Exemplo.ocorrencias_sem GEOLOCATION)
    /\ Forall (fun L => markers L = []) fgs.
Proof.
  apply (sem_geolocation Exemplo.lib (Exemplo.ocorrencias_sem GEOLOCATION)).
  - by_decide.
  - by_decide.
Defined.

Lemma popup_sem_funcionario_witness :
  exists r, r ∈ rows (Exemplo.ocorrencias_sem FUNCIONARIO_CADASTRO) /\
    popup_html "B" "x" "N/A"
    = popup_html
        (py_str Exemplo.lib (cell_at r NUCLEO_DE_ATUACAO))
        (py_str Exemplo.lib (cell_at r OCORRENCIA_CADASTRO)) "N/A".
Proof.
  refine (popup_sem_funcionario Exemplo.lib
            (Exemplo.ocorrencias_sem FUNCIONARIO_CADASTRO)
            Exemplo.area
            {| total_ocorrencias := 2; soma_caixa_uma := 0;
               total_quantidade_instalacao := 0;
               total_rede_esgoto := NFloat (of_decimal false 3005 (-1));
               total_rede_agua := NFloat zero;
               resumo_nucleo := [(Str "A", 1%nat); (Str "B", 1%nat)];
               resumo_data := [(1, 1%nat); (2, 1%nat)];
               layers :=
                 [{| name := Str "B";
                     markers :=
                       [{| location := location Exemplo.marker_B;
                           popup := popup_html "B" "x" "N/A";
                           icon_color := "red" |}] |};
                  {| name := Str "A";
                     markers :=
                       [{| location := location Exemplo.marker_A;
                           popup := popup_html "A" "nan" "N/A";
                           icon_color := "blue" |}] |}] |}
            {| name := Str "B";
               markers :=
                 [{| location := location Exemplo.marker_B;
                     popup := popup_html "B" "x" "N/A";
                     icon_color := "red" |}] |}
            {| location := location Exemplo.marker_B;
               popup := popup_html "B" "x" "N/A";
               icon_color := "red" |} _ _ _ _).
  - vm_compute. reflexivity.
  - by_decide.
  - left.
  - left.
Defined.

Lemma sem_nucleos_witness :
  exists out,
    main Exemplo.lib Exemplo.so_sem_nucleo Exemplo.area = Ok out
    /\ layers out = [] /\ resumo_nucleo out = [] /\ resumo_data out = []
    /\ total_ocorrencias out = 0%nat /\ soma_caixa_uma out = 0%nat
    /\ total_quantidade_instalacao out = 0%nat.
Proof.
  apply (sem_nucleos Exemplo.lib Exemplo.so_sem_nucleo Exemplo.area).
  - reflexivity.
  - reflexivity.
  - by_decide.
  - intros r Hr. apply elem_of_cons in Hr as [->|Hr];
      [vm_compute; reflexivity|].
    apply list_elem_of_singleton in Hr. subst r. vm_compute. reflexivity.
  - reflexivity.
  - reflexivity.
  - reflexivity.
Defined.

